(** * Record reconciliation in ByggKonsult: key generation, merge, coverage

    A shallow embedding of the reconciliation code of
    [integrated_planning_system.py] (class [IntegratedPlanningSystem]) and
    [oslo_planning_system.py] (class [OsloPlanningSystem]):
    [generate_plan_key], [merge_plan_data], [find_matching_plans],
    [cross_reference_data], [generate_oslo_key], [merge_oslo_data],
    [cross_reference_oslo_data], [assess_oslo_coverage] and the area loop of
    [analyze_oslo_content].

    Python records are dictionaries with string keys; they are modelled as
    association lists in insertion order, because the order of
    [dict.items()] and [dict.values()] is observable in the code.  Python
    exceptions are modelled by the [result] type. *)

From Stdlib Require Import ZArith List String Ascii Bool Lia QArith DecimalString DecimalZ.
From stdpp Require Import list.
Import ListNotations.
Open Scope string_scope.
Open Scope Z_scope.
Open Scope list_scope.
Open Scope nat_scope.
Set Warnings "-register-all".

(** ** Python values *)

(** The JSON-like values the collectors put into records.  Floats are not
    part of the model. *)
Inductive pyval : Type :=
| VNone
| VBool (b : bool)
| VInt (z : Z)
| VStr (s : string)
| VList (l : list pyval)
| VDict (d : list (string * pyval)).

Definition pydict := list (string * pyval).

(** Exceptions the modelled code can raise. *)
Inductive exn : Type := AttributeError | TypeError | KeyError.

Inductive result (A : Type) : Type :=
| Ok (a : A)
| Raise (e : exn).
Arguments Ok {A} a.
Arguments Raise {A} e.

Definition bind {A B : Type} (m : result A) (f : A -> result B) : result B :=
  match m with
  | Ok a => f a
  | Raise e => Raise e
  end.

Notation "'do' x <- m ; k" := (bind m (fun x => k))
  (at level 10, x name, m at level 100, k at level 200).

Definition returns {A : Type} (m : result A) : Prop := exists a, m = Ok a.

(** [bool(v)]: the truth value Python gives to [v] in [if v:]. *)
Definition truthy (v : pyval) : bool :=
  match v with
  | VNone => false
  | VBool b => b
  | VInt z => negb (z =? 0)%Z
  | VStr s => match s with EmptyString => false | String _ _ => true end
  | VList l => match l with [] => false | _ :: _ => true end
  | VDict d => match d with [] => false | _ :: _ => true end
  end.

(** ** Dictionaries *)

Section Assoc.
Context {V : Type}.

Fixpoint dict_get (k : string) (d : list (string * V)) : option V :=
  match d with
  | [] => None
  | (k', v) :: d' => if (k =? k')%string then Some v else dict_get k d'
  end.

(** [k in d] *)
Definition dict_has (k : string) (d : list (string * V)) : bool :=
  match dict_get k d with Some _ => true | None => false end.

(** [d.get(k, dflt)] *)
Definition get_default (k : string) (dflt : V) (d : list (string * V)) : V :=
  match dict_get k d with Some v => v | None => dflt end.

(** [d[k] = v]: an existing key keeps its position, a new key goes last. *)
Fixpoint dict_set (k : string) (v : V) (d : list (string * V)) : list (string * V) :=
  match d with
  | [] => [(k, v)]
  | (k', v') :: d' =>
      if (k =? k')%string then (k, v) :: d' else (k', v') :: dict_set k v d'
  end.

(** [list(d.values())] *)
Definition dict_values (d : list (string * V)) : list V := map snd d.
End Assoc.

(** [d.get(k)], with Python's default [None]. *)
Definition get_or_none (k : string) (d : pydict) : pyval := get_default k VNone d.

(** ** Equality and membership *)

(** Python's [==] on the modelled values: [True == 1], lists compare
    element-wise, dictionaries compare as maps. *)
Fixpoint py_eq (a b : pyval) {struct a} : bool :=
  match a, b with
  | VNone, VNone => true
  | VBool x, VBool y => Bool.eqb x y
  | VBool x, VInt z => (Z.b2z x =? z)%Z
  | VInt z, VBool x => (z =? Z.b2z x)%Z
  | VInt x, VInt y => (x =? y)%Z
  | VStr s, VStr t => (s =? t)%string
  | VList l, VList m =>
      (fix eq_list (l m : list pyval) {struct l} : bool :=
         match l, m with
         | [], [] => true
         | x :: l', y :: m' => py_eq x y && eq_list l' m'
         | _, _ => false
         end) l m
  | VDict d, VDict e =>
      (length d =? length e)%nat &&
      (fix eq_items (d : list (string * pyval)) {struct d} : bool :=
         match d with
         | [] => true
         | (k, v) :: d' =>
             (fix find (e : list (string * pyval)) : bool :=
                match e with
                | [] => false
                | (k', v') :: e' => if (k =? k')%string then py_eq v v' else find e'
                end) e && eq_items d'
         end) d
  | _, _ => false
  end.

(** Substring test of [needle in hay] on strings. *)
Fixpoint str_contains (needle hay : string) : bool :=
  String.prefix needle hay ||
  match hay with
  | EmptyString => false
  | String _ hay' => str_contains needle hay'
  end.

(** [x in c].  A list is searched with [==]; a string accepts only a string on
    the left; a dictionary is searched by key and needs a hashable operand;
    [None] and numbers are not containers. *)
Definition contains (x c : pyval) : result bool :=
  match c with
  | VList l => Ok (existsb (py_eq x) l)
  | VStr s => match x with
              | VStr t => Ok (str_contains t s)
              | _ => Raise TypeError
              end
  | VDict d => match x with
               | VStr k => Ok (dict_has k d)
               | VList _ | VDict _ => Raise TypeError
               | _ => Ok false
               end
  | _ => Raise TypeError
  end.

(** ** Built-in string functions

    The Unicode tables behind [str.lower] and the regular expression [\w+],
    the iteration of a string by characters, [repr] of a string and the salted
    [hash] of a string are not code of this repository.  They are parameters
    of the model; [py_hash] varies with the interpreter's hash seed. *)
Record PyBuiltins : Type := {
  str_lower : string -> string;        (* s.lower() *)
  re_words : string -> list string;    (* re.findall(r'\w+', s) *)
  str_chars : string -> list string;   (* list(s) *)
  str_repr : string -> string;         (* repr(s) *)
  py_hash : string -> Z                (* hash(s) *)
}.

(** Decimal rendering of an integer, as [str] and f-strings do. *)
Definition int_str (z : Z) : string := NilZero.string_of_int (Z.to_int z).

Fixpoint join (sep : string) (parts : list string) : string :=
  match parts with
  | [] => ""
  | [s] => s
  | s :: rest => (s ++ sep ++ join sep rest)%string
  end.

Section Builtins.
Variable B : PyBuiltins.

(** [repr(v)] and [str(v)]; they differ on strings only. *)
Fixpoint py_repr (v : pyval) : string :=
  match v with
  | VNone => "None"
  | VBool true => "True"
  | VBool false => "False"
  | VInt z => int_str z
  | VStr s => str_repr B s
  | VList l => ("[" ++ join ", " (map py_repr l) ++ "]")%string
  | VDict d =>
      ("{" ++ join ", "
         (map (fun kv => str_repr B (fst kv) ++ ": " ++ py_repr (snd kv)) d) ++ "}")%string
  end.

Definition py_str (v : pyval) : string :=
  match v with
  | VStr s => s
  | _ => py_repr v
  end.

(** [v.lower()]: only strings have the method. *)
Definition lower_method (v : pyval) : result string :=
  match v with
  | VStr s => Ok (str_lower B s)
  | _ => Raise AttributeError
  end.

(** [iter(v)] as used by [list.extend] and [set.update]. *)
Definition py_iter (v : pyval) : result (list pyval) :=
  match v with
  | VList l => Ok l
  | VStr s => Ok (map VStr (str_chars B s))
  | VDict d => Ok (map (fun kv => VStr (fst kv)) d)
  | _ => Raise TypeError
  end.
End Builtins.

(** [sep.join(parts)]: every part has to be a string. *)
Fixpoint as_strings (parts : list pyval) : result (list string) :=
  match parts with
  | [] => Ok []
  | VStr s :: rest => do rest' <- as_strings rest; Ok (s :: rest')
  | _ :: _ => Raise TypeError
  end.

Definition str_join (sep : string) (parts : list pyval) : result string :=
  do ss <- as_strings parts; Ok (join sep ss).

(** ** Key generators *)

Section KeyGenerators.
Variable B : PyBuiltins.

(** [IntegratedPlanningSystem.generate_plan_key] *)
Definition generate_plan_key (plan : pydict) : result string :=
  do municipality <- lower_method B (get_default "municipality" (VStr "unknown") plan);
  do title <- lower_method B (get_default "title" (VStr "") plan);
  let plan_id := get_default "plan_id" (VStr "") plan in
  let key_parts := [VStr municipality] in
  let key_parts :=
    if truthy plan_id then key_parts ++ [plan_id]
    else key_parts ++ map VStr (firstn 3 (re_words B title)) in
  str_join "_" key_parts.

(** [self.oslo_keywords['områder']] *)
Definition oslo_omrader : list string :=
  [ "sentrum"; "grünerløkka"; "frogner"; "gamle oslo";
    "st. hanshaugen"; "sagene"; "ullern"; "vestre aker";
    "nordre aker"; "bjerke"; "grorud"; "stovner";
    "alna"; "østensjø"; "nordstrand"; "søndre nordstrand" ].

(** [hash(s) % 1000]; Python's [%] takes the sign of the divisor. *)
Definition hash_bucket (s : string) : Z := (py_hash B s mod 1000)%Z.

(** The [for area in ...: if area in title: return ...] loop of
    [generate_oslo_key]: the first configured area contained in the title. *)
Definition first_area_in (title : string) : option string :=
  List.find (fun area => str_contains area title) oslo_omrader.

(** [OsloPlanningSystem.generate_oslo_key] *)
Definition generate_oslo_key (item : pydict) : result string :=
  let plan_id := get_default "plan_id" (VStr "") item in
  do title <- lower_method B (get_default "title" (VStr "") item);
  let general := ("oslo_general_" ++ int_str (hash_bucket (py_str B (VDict item))))%string in
  if truthy plan_id then Ok ("oslo_" ++ py_str B plan_id)%string
  else if truthy (VStr title) then
    match first_area_in title with
    | Some area => Ok ("oslo_" ++ area ++ "_" ++ int_str (hash_bucket title))%string
    | None => Ok general
    end
  else Ok general.

(** The Oslo key of a record without a usable identifier: the area key if
    the lowercased title contains a configured area, else the hash bucket
    of the record's string form. *)
Definition oslo_fallback_key (item : pydict) (lowered_title : string) : string :=
  match first_area_in lowered_title with
  | Some area => "oslo_" ++ area ++ "_" ++ int_str (hash_bucket lowered_title)
  | None => "oslo_general_" ++ int_str (hash_bucket (py_str B (VDict item)))
  end%string.
End KeyGenerators.

(** ** Merge resolvers *)

(** [c.append(v)]: only lists have the method. *)
Definition list_append (c v : pyval) : result pyval :=
  match c with
  | VList l => Ok (VList (l ++ [v]))
  | _ => Raise AttributeError
  end.

(** The source bookkeeping both resolvers start with, for the list stored
    under [skey] (['sources'] or ['oslo_sources']):
<<
    if skey not in merged:
        merged[skey] = [existing.get('source', 'unknown')]
    if new.get('source') not in merged[skey]:
        merged[skey].append(new.get('source', 'unknown'))
>> *)
Definition add_source_tag (skey : string) (existing new merged : pydict) : result pydict :=
  let merged :=
    if dict_has skey merged then merged
    else dict_set skey (VList [get_default "source" (VStr "unknown") existing]) merged in
  match dict_get skey merged with
  | None => Raise KeyError
  | Some srcs =>
      do present <- contains (get_or_none "source" new) srcs;
      if present then Ok merged
      else
        do srcs' <- list_append srcs (get_default "source" (VStr "unknown") new);
        Ok (dict_set skey srcs' merged)
  end.

(** One round of [for key, value in new.items()] in [merge_plan_data]. *)
Definition merge_plan_field (merged : pydict) (kv : string * pyval) : pydict :=
  let (key, value) := kv in
  if negb (key =? "source")%string && truthy value
     && (negb (dict_has key merged) || negb (truthy (get_or_none key merged)))
  then dict_set key value merged
  else merged.

(** [IntegratedPlanningSystem.merge_plan_data] *)
Definition merge_plan_data (existing new : pydict) : result pydict :=
  let merged := existing in
  do merged <- add_source_tag "sources" existing new merged;
  Ok (fold_left merge_plan_field new merged).

Fixpoint fold_result {A S : Type} (f : S -> A -> result S) (l : list A) (s : S)
  : result S :=
  match l with
  | [] => Ok s
  | a :: l' => do s' <- f s a; fold_result f l' s'
  end.

(** [isinstance(v, (int, float))]: integers and booleans. *)
Definition num_of (v : pyval) : option Z :=
  match v with
  | VInt z => Some z
  | VBool b => Some (Z.b2z b)
  | _ => None
  end.

(** [max(a, b)]: [b] if [b > a], else [a]; ordering a number against a
    string, list or dictionary raises. *)
Definition py_max (a b : pyval) : result pyval :=
  match num_of a, num_of b with
  | Some x, Some y => Ok (if (x <? y)%Z then b else a)
  | _, _ => Raise TypeError
  end.

Definition oslo_fields : list string :=
  ["oslo_areas"; "oslo_terms"; "oslo_relevance_score"].

Section OsloMerge.
Variable B : PyBuiltins.

(** One round of [for field in oslo_fields] in [merge_oslo_data]. *)
Definition merge_oslo_field (new merged : pydict) (field : string) : result pydict :=
  match dict_get field new with
  | None => Ok merged
  | Some nv =>
      if truthy nv then
        match dict_get field merged with
        | None => Ok (dict_set field nv merged)
        | Some (VList l) =>
            do items <- py_iter B nv;
            Ok (dict_set field (VList (l ++ items)) merged)
        | Some (VInt z) => do m <- py_max (VInt z) nv; Ok (dict_set field m merged)
        | Some (VBool b) => do m <- py_max (VBool b) nv; Ok (dict_set field m merged)
        | Some _ => Ok merged
        end
      else Ok merged
  end.

(** [OsloPlanningSystem.merge_oslo_data], by value: the record returned.
    The sharing of list objects between [existing] and the result is the
    subject of the store model further down. *)
Definition merge_oslo_data (existing new : pydict) : result pydict :=
  let merged := existing in
  do merged <- add_source_tag "oslo_sources" existing new merged;
  fold_result (merge_oslo_field new) oslo_fields merged.
End OsloMerge.

(** ** Aggregation passes *)

Record sources_summary : Type := {
  geonorge : nat;
  oslo_origo : nat;
  pdf_analyses_count : nat
}.

Record integrated_result : Type := {
  unified_plans : list pydict;
  cross_references : nat;
  sources_summary_of : sources_summary
}.

Record oslo_source_summary : Type := {
  origo_datasets_count : nat;
  geonorge_oslo : nat;
  oslo_pdfs : nat;
  total_oslo_sources : nat
}.

Record oslo_coverage : Type := {
  covered_oslo_areas : nat;
  total_oslo_areas : nat;
  coverage_percentage : Q;
  missing_areas : list string
}.

Record oslo_result : Type := {
  oslo_unified_data : list pydict;
  total_oslo_items : nat;
  source_breakdown : oslo_source_summary;
  oslo_coverage_of : oslo_coverage
}.

(** Values that can be members of a [set]. *)
Definition hashable (v : pyval) : bool :=
  match v with
  | VList _ | VDict _ => false
  | _ => true
  end.

(** A [set] is kept as the list of its pairwise different members. *)
Definition set_add (s : list pyval) (x : pyval) : result (list pyval) :=
  if hashable x then Ok (if existsb (py_eq x) s then s else s ++ [x])
  else Raise TypeError.

Section Passes.
Variable B : PyBuiltins.

(** [IntegratedPlanningSystem.find_matching_plans] *)
Definition find_matching_plans (pdf_analysis : pydict)
    (unified : list (string * pydict)) : result (list string) :=
  do pdf_municipality <- lower_method B (get_default "municipality" (VStr "") pdf_analysis);
  let pdf_plan_id := get_default "plan_id" (VStr "") pdf_analysis in
  fold_result
    (fun matches (entry : string * pydict) =>
       let (plan_key, plan) := entry in
       do plan_municipality <- lower_method B (get_default "municipality" (VStr "") plan);
       if (str_contains pdf_municipality plan_municipality
           || str_contains plan_municipality pdf_municipality)
          && truthy pdf_plan_id
       then
         do in_id <- contains pdf_plan_id (get_default "plan_id" (VStr "") plan);
         do hit <- (if in_id then Ok true
                    else contains pdf_plan_id (get_default "title" (VStr "") plan));
         Ok (if hit then matches ++ [plan_key] else matches)
       else Ok matches)
    unified [].

(** [IntegratedPlanningSystem.get_sources_summary] *)
Definition get_sources_summary (regulatory_plans pdf_analyses : list pydict)
  : sources_summary :=
  let from tag :=
    length (List.filter (fun p => py_eq (get_or_none "source" p) (VStr tag)) regulatory_plans) in
  {| geonorge := from "geonorge";
     oslo_origo := from "oslo_origo";
     pdf_analyses_count := length pdf_analyses |}.

(** [IntegratedPlanningSystem.cross_reference_data] over
    [self.integrated_data['regulatory_plans']] and [['pdf_analyses']]. *)
Definition cross_reference_data (regulatory_plans pdf_analyses : list pydict)
  : result integrated_result :=
  do unified <-
    fold_result
      (fun unified plan =>
         do plan_key <- generate_plan_key B plan;
         match dict_get plan_key unified with
         | Some existing =>
             do merged <- merge_plan_data existing plan;
             Ok (dict_set plan_key merged unified)
         | None => Ok (dict_set plan_key plan unified)
         end)
      regulatory_plans [];
  do unified <-
    fold_result
      (fun unified pdf_analysis =>
         do potential_matches <- find_matching_plans pdf_analysis unified;
         Ok (fold_left
               (fun unified match_key =>
                  match dict_get match_key unified with
                  | Some plan =>
                      dict_set match_key
                        (dict_set "pdf_analysis" (VDict pdf_analysis) plan) unified
                  | None => unified
                  end)
               potential_matches unified))
      pdf_analyses unified;
  Ok {| unified_plans := dict_values unified;
        cross_references :=
          length (List.filter (dict_has "pdf_analysis") (dict_values unified));
        sources_summary_of := get_sources_summary regulatory_plans pdf_analyses |}.

(** The area loop of [OsloPlanningSystem.analyze_oslo_content]:
    [found_areas], the configured areas contained in the lowercased text. *)
Definition found_areas (text : string) : list string :=
  List.filter (fun area => str_contains area (str_lower B text)) oslo_omrader.

(** [OsloPlanningSystem.get_oslo_source_summary] *)
Definition get_oslo_source_summary (origo reguleringsplaner pdfs : list pydict)
  : oslo_source_summary :=
  {| origo_datasets_count := length origo;
     geonorge_oslo := length reguleringsplaner;
     oslo_pdfs := length pdfs;
     total_oslo_sources := length origo + length reguleringsplaner + length pdfs |}.

(** The loop of [assess_oslo_coverage] that fills [covered_areas]. *)
Definition covered_areas_of (items : list pydict) : result (list pyval) :=
  fold_result
    (fun covered item =>
       match dict_get "oslo_areas" item with
       | Some areas => do xs <- py_iter B areas; fold_result set_add xs covered
       | None => Ok covered
       end)
    items [].

(** [OsloPlanningSystem.assess_oslo_coverage] *)
Definition assess_oslo_coverage (unified : list (string * pydict)) : result oslo_coverage :=
  let items := dict_values unified in
  do covered_areas <- covered_areas_of items;
  Ok {| covered_oslo_areas := length covered_areas;
        total_oslo_areas := length oslo_omrader;
        coverage_percentage :=
          ((inject_Z (Z.of_nat (length covered_areas))
            / inject_Z (Z.of_nat (length oslo_omrader))) * 100)%Q;
        missing_areas :=
          List.filter (fun area => negb (existsb (py_eq (VStr area)) covered_areas))
                 oslo_omrader |}.

(** The keyed fold of [cross_reference_oslo_data]: the dictionary
    [oslo_unified] after the loop over [all_oslo_data]. *)
Definition unify_oslo (all_oslo_data : list pydict) : result (list (string * pydict)) :=
  fold_result
    (fun unified item =>
       do oslo_key <- generate_oslo_key B item;
       match dict_get oslo_key unified with
       | Some existing =>
           do merged <- merge_oslo_data B existing item;
           Ok (dict_set oslo_key merged unified)
       | None => Ok (dict_set oslo_key item unified)
       end)
    all_oslo_data [].

(** [OsloPlanningSystem.cross_reference_oslo_data] over
    [self.oslo_data['origo_datasets']], [['reguleringsplaner']] and
    [['pdf_documents']]. *)
Definition cross_reference_oslo_data (origo reguleringsplaner pdfs : list pydict)
  : result oslo_result :=
  let all_oslo_data := origo ++ reguleringsplaner ++ pdfs in
  do oslo_unified <- unify_oslo all_oslo_data;
  do coverage <- assess_oslo_coverage oslo_unified;
  Ok {| oslo_unified_data := dict_values oslo_unified;
        total_oslo_items := length oslo_unified;
        source_breakdown := get_oslo_source_summary origo reguleringsplaner pdfs;
        oslo_coverage_of := coverage |}.
End Passes.

(** ** A reference instance of the built-ins

    For running the model on concrete records: the ASCII fragment of
    [str.lower] and [\w+] (bytes outside ASCII are left alone and count as
    word characters), [repr] of a string without quotes, backslashes or control
    characters, and a hash function of the caller's choice. *)

Definition ascii_lower_char (c : ascii) : ascii :=
  let n := nat_of_ascii c in
  if (65 <=? n) && (n <=? 90) then ascii_of_nat (n + 32) else c.

Fixpoint ascii_lower (s : string) : string :=
  match s with
  | EmptyString => EmptyString
  | String c s' => String (ascii_lower_char c) (ascii_lower s')
  end.

Definition is_word_char (c : ascii) : bool :=
  let n := nat_of_ascii c in
  ((48 <=? n) && (n <=? 57)) || ((65 <=? n) && (n <=? 90))
  || ((97 <=? n) && (n <=? 122)) || (n =? 95) || (128 <=? n).

(** [words_from cur s]: the maximal runs of word characters of [s], with
    [cur] the run being read, reversed. *)
Fixpoint words_from (cur : list ascii) (s : string) : list string :=
  let flush := match cur with
               | [] => []
               | _ :: _ => [string_of_list_ascii (rev cur)]
               end in
  match s with
  | EmptyString => flush
  | String c s' =>
      if is_word_char c then words_from (c :: cur) s'
      else flush ++ words_from [] s'
  end.

Fixpoint ascii_chars (s : string) : list string :=
  match s with
  | EmptyString => []
  | String c s' => String c EmptyString :: ascii_chars s'
  end.

Definition ascii_model (hash : string -> Z) : PyBuiltins :=
  {| str_lower := ascii_lower;
     re_words := words_from [];
     str_chars := ascii_chars;
     str_repr := fun s => ("'" ++ s ++ "'")%string;
     py_hash := hash |}.

(** A hash function to run examples with: the length of the string. *)
Definition length_hash (s : string) : Z := Z.of_nat (String.length s).

(** Facts about the built-ins that hold in every Python interpreter and
    that some statements below rely on. *)
Record PyBuiltinsLaws (B : PyBuiltins) : Prop := {
  lower_empty : str_lower B "" = "";
  lower_nonempty : forall s, s <> "" -> str_lower B s <> "";
  words_empty : re_words B "" = []
}.

(** ** The store model of [merge_oslo_data]

    Python lists are objects: [existing.copy()] is a shallow copy, so the
    copy and the original refer to the same list objects, and
    [list.append] and [list.extend] change an object in place.  In this
    second model a record holds scalars and dictionaries by value and lists
    by reference; the store holds the list objects, their members by value
    (nothing in the resolver changes a member). *)

Abbreviation loc := nat.

(** The list objects, by location; a new object goes at the end. *)
Abbreviation store := (list (list pyval)).

Inductive hval : Type :=
| HNone
| HBool (b : bool)
| HInt (z : Z)
| HStr (s : string)
| HDict (d : pydict)
| HList (l : loc).

Definition hrecord := list (string * hval).

(** The list object at [l]; a location outside the store reads as the
    empty list (the statements below are about locations in the store). *)
Definition store_get (st : store) (l : loc) : list pyval :=
  match st !! l with
  | Some xs => xs
  | None => []
  end.

(** The value a record entry denotes in a store. *)
Definition load (st : store) (v : hval) : pyval :=
  match v with
  | HNone => VNone
  | HBool b => VBool b
  | HInt z => VInt z
  | HStr s => VStr s
  | HDict d => VDict d
  | HList l => VList (store_get st l)
  end.

(** The record a caller sees through its reference, in a store. *)
Definition load_record (st : store) (r : hrecord) : pydict :=
  map (fun kv => (fst kv, load st (snd kv))) r.

(** [max(a, b)] on entries: the entry of the larger number, [a] on a tie. *)
Definition py_max_h (st : store) (a b : hval) : result hval :=
  match num_of (load st a), num_of (load st b) with
  | Some x, Some y => Ok (if (x <? y)%Z then b else a)
  | _, _ => Raise TypeError
  end.

(** The source bookkeeping, with the list under [skey] as an object: a new
    list is allocated when [merged] has none, else the list of [existing] is
    appended to in place. *)
Definition add_source_tag_h (skey : string) (st : store) (existing new merged : hrecord)
  : result (store * hrecord) :=
  let st_merged :=
    if dict_has skey merged then (st, merged)
    else (st ++ [[load st (get_default "source" (HStr "unknown") existing)]],
          dict_set skey (HList (length st)) merged) in
  let st := fst st_merged in
  let merged := snd st_merged in
  match dict_get skey merged with
  | None => Raise KeyError
  | Some srcs =>
      do present <- contains (load st (get_default "source" HNone new)) (load st srcs);
      if present then Ok (st, merged)
      else
        match srcs with
        | HList l =>
            Ok (<[l := store_get st l
                       ++ [load st (get_default "source" (HStr "unknown") new)]]> st,
                merged)
        | _ => Raise AttributeError
        end
  end.

Section OsloMergeStore.
Variable B : PyBuiltins.

(** One round of [for field in oslo_fields], on the store. *)
Definition merge_oslo_field_h (new : hrecord) (state : store * hrecord) (field : string)
  : result (store * hrecord) :=
  let st := fst state in
  let merged := snd state in
  match dict_get field new with
  | None => Ok state
  | Some nv =>
      if truthy (load st nv) then
        match dict_get field merged with
        | None => Ok (st, dict_set field nv merged)
        | Some (HList l) =>
            do items <- py_iter B (load st nv);
            Ok (<[l := store_get st l ++ items]> st, merged)
        | Some (HInt z) =>
            do m <- py_max_h st (HInt z) nv; Ok (st, dict_set field m merged)
        | Some (HBool b) =>
            do m <- py_max_h st (HBool b) nv; Ok (st, dict_set field m merged)
        | Some _ => Ok state
        end
      else Ok state
  end.

(** [OsloPlanningSystem.merge_oslo_data] on the store: the store after the
    call and the record returned. *)
Definition merge_oslo_data_h (st : store) (existing new : hrecord)
  : result (store * hrecord) :=
  let merged := existing in
  do state <- add_source_tag_h "oslo_sources" st existing new merged;
  fold_result (merge_oslo_field_h new) oslo_fields state.
End OsloMergeStore.

(** The state a loop has reached when it stops, and the exception that
    stopped it, if any. *)
Fixpoint fold_reached {A S : Type} (f : S -> A -> result S) (l : list A) (s : S)
  : S * option exn :=
  match l with
  | [] => (s, None)
  | a :: l' =>
      match f s a with
      | Ok s' => fold_reached f l' s'
      | Raise e => (s, Some e)
      end
  end.

(** The store when a call of [merge_oslo_data] is over, by [return] or by
    an exception, and the exception.  A round of the field loop that raises
    has changed nothing: [list.extend] and [max] raise before they store
    anything.  Nor has the source bookkeeping when it raises, apart from
    the list it may have made for the copy, which no record of the caller
    refers to. *)
Definition merge_oslo_data_h_exit (B : PyBuiltins) (st : store) (existing new : hrecord)
  : store * option exn :=
  match add_source_tag_h "oslo_sources" st existing new existing with
  | Ok state =>
      let reached := fold_reached (merge_oslo_field_h B new) oslo_fields state in
      (fst (fst reached), snd reached)
  | Raise e => (st, Some e)
  end.

Section OsloPassStore.
Variable B : PyBuiltins.

(** The keyed fold of [cross_reference_oslo_data] on the store: the records
    of [all_oslo_data] are objects, [oslo_unified] maps keys to them or to
    the copies [merge_oslo_data] returns. *)
Definition unify_oslo_h (st : store) (all_oslo_data : list hrecord)
  : result (store * list (string * hrecord)) :=
  fold_result
    (fun state item =>
       let st := fst state in
       let unified := snd state in
       do oslo_key <- generate_oslo_key B (load_record st item);
       match dict_get oslo_key unified with
       | Some existing =>
           do merged <- merge_oslo_data_h B st existing item;
           Ok (fst merged, dict_set oslo_key (snd merged) unified)
       | None => Ok (st, dict_set oslo_key item unified)
       end)
    all_oslo_data (st, []).

(** The store after a pass and the unified records as they read when the
    pass returns. *)
Definition oslo_pass_h (st : store) (all_oslo_data : list hrecord)
  : result (store * list pydict) :=
  do state <- unify_oslo_h st all_oslo_data;
  Ok (fst state, map (load_record (fst state)) (dict_values (snd state))).
End OsloPassStore.

(** Every list object of [st] is still there in [st'], possibly longer. *)
Definition store_extends (st st' : store) : Prop :=
  forall l xs, st !! l = Some xs -> exists zs, st' !! l = Some (xs ++ zs).

(** No entry of [r] other than the one under [f] refers to the object [l]. *)
Definition only_under (f : string) (l : loc) (r : hrecord) : Prop :=
  forall g, g <> f -> dict_get g r <> Some (HList l).

(** *** When the two models agree

    The by-value resolver describes the record the store resolver returns,
    provided list objects are not shared in a way the call could observe. *)

Definition result_map {A C : Type} (f : A -> C) (m : result A) : result C :=
  match m with
  | Ok a => Ok (f a)
  | Raise e => Raise e
  end.

(** The record a state of the resolver denotes. *)
Definition load_state (state : store * hrecord) : pydict :=
  load_record (fst state) (snd state).

(** Every list entry of [r] refers to an object of the store. *)
Definition refs_valid (st : store) (r : hrecord) : Prop :=
  forall k l, dict_get k r = Some (HList l) -> l < length st.

(** An object that [r] and [r'] both refer to sits under the same key. *)
Definition refs_apart (r r' : hrecord) : Prop :=
  forall g h l, dict_get g r = Some (HList l) -> dict_get h r' = Some (HList l) -> g = h.

(** The records are dictionaries over the store, no list object is shared
    by two entries of [existing], and [new] shares an object with
    [existing] at most under the same key. *)
Definition unshared (st : store) (existing new : hrecord) : Prop :=
  List.NoDup (map fst existing) /\
  refs_valid st existing /\ refs_valid st new /\
  refs_apart existing existing /\ refs_apart new existing.

(** What holds of the store [cur] and the record [merged] while the fields
    [remaining] are still to be merged: [merged] is a dictionary whose
    entries come from the two records or are the fresh source list; the
    remaining fields are as in [existing]; an object that only remaining
    fields of [existing] refer to is as it was. *)
Definition merge_inv (st : store) (existing new : hrecord) (remaining : list string)
    (cur : store) (merged : hrecord) : Prop :=
  List.NoDup (map fst merged) /\
  (forall h v, dict_get h merged = Some v ->
     dict_get h existing = Some v \/ dict_get h new = Some v \/ v = HList (length st)) /\
  (forall g, In g remaining -> dict_get g merged = dict_get g existing) /\
  length st <= length cur /\
  (forall l, l < length st ->
     (forall h, dict_get h existing = Some (HList l) -> In h remaining) ->
     cur !! l = st !! l).

(** *** The passes on the store

    What the keyed folds need of their records for the by-value passes to
    describe them: the collectors build every record with list objects of
    its own. *)

(** No list object is referred to by both records. *)
Definition disjoint_refs (r r' : hrecord) : Prop :=
  forall g h l, dict_get g r = Some (HList l) -> dict_get h r' <> Some (HList l).

(** A record of its own: a dictionary whose list entries refer to objects
    of the store, no object under two keys. *)
Definition own_record (st : store) (r : hrecord) : Prop :=
  List.NoDup (map fst r) /\ refs_valid st r /\ refs_apart r r.

(** Records that share no list object. *)
Definition separate_records (st : store) (items : list hrecord) : Prop :=
  List.Forall (own_record st) items /\ ForallOrdPairs disjoint_refs items.

(** A dictionary of records as it reads in a store. *)
Definition load_unified (state : store * list (string * hrecord))
  : list (string * pydict) :=
  map (fun kv => (fst kv, load_record (fst state) (snd kv))) (snd state).

(** The loop that the passes share, by value and on the store: every item
    is filed under its key, merged into the record that is already there, if
    any. *)
Definition keyed_fold (generate_key : pydict -> result string)
    (merge : pydict -> pydict -> result pydict)
    (items : list pydict) (unified : list (string * pydict))
  : result (list (string * pydict)) :=
  fold_result
    (fun unified item =>
       do key <- generate_key item;
       match dict_get key unified with
       | Some existing =>
           do merged <- merge existing item;
           Ok (dict_set key merged unified)
       | None => Ok (dict_set key item unified)
       end)
    items unified.

Definition keyed_fold_h (generate_key : pydict -> result string)
    (merge_h : store -> hrecord -> hrecord -> result (store * hrecord))
    (items : list hrecord) (state : store * list (string * hrecord))
  : result (store * list (string * hrecord)) :=
  fold_result
    (fun state item =>
       let st := fst state in
       let unified := snd state in
       do key <- generate_key (load_record st item);
       match dict_get key unified with
       | Some existing =>
           do merged <- merge_h st existing item;
           Ok (fst merged, dict_set key (snd merged) unified)
       | None => Ok (st, dict_set key item unified)
       end)
    items state.

(** What holds while the items [rest] are still to be filed: the unified
    records and the remaining items are records of their own that share no
    list object, and the remaining items read as they did at the start, in
    the store [st0]. *)
Definition pass_inv (st0 : store) (rest : list hrecord)
    (cur : store) (unified : list (string * hrecord)) : Prop :=
  List.NoDup (map fst unified) /\
  (forall key u, In (key, u) unified -> own_record cur u) /\
  (forall key key' u u', In (key, u) unified -> In (key', u') unified ->
     key <> key' -> disjoint_refs u u') /\
  (forall key u r, In (key, u) unified -> In r rest -> disjoint_refs u r) /\
  separate_records cur rest /\
  map (load_record cur) rest = map (load_record st0) rest.

(** *** The integrated pass on the store

    The records are dictionaries of entries as before, lists by reference.
    The PDF analyses are only read and are taken by value.  The pass sets
    ['pdf_analysis'] on the dictionary of a unified plan, which is the
    caller's own dictionary when nothing has been merged into the plan: the
    model gives the unified plans as they read when the pass returns, not
    the caller's dictionaries afterwards. *)

(** One round of [for key, value in new.items()] in [merge_plan_data], on
    the store: the value is stored as it is, a list by reference. *)
Definition merge_plan_field_h (st : store) (merged : hrecord) (kv : string * hval)
  : hrecord :=
  let (key, value) := kv in
  if negb (key =? "source")%string && truthy (load st value)
     && (negb (dict_has key merged)
         || negb (truthy (load st (get_default key HNone merged))))
  then dict_set key value merged
  else merged.

(** [IntegratedPlanningSystem.merge_plan_data] on the store: the store
    after the call and the record returned. *)
Definition merge_plan_data_h (st : store) (existing new : hrecord)
  : result (store * hrecord) :=
  let merged := existing in
  do state <- add_source_tag_h "sources" st existing new merged;
  Ok (fst state, fold_left (merge_plan_field_h (fst state)) new (snd state)).

(** [IntegratedPlanningSystem.cross_reference_data] on the store: the store
    after the pass and the result as it reads when the pass returns. *)
Definition cross_reference_data_h (B : PyBuiltins) (st : store)
    (regulatory_plans : list hrecord) (pdf_analyses : list pydict)
  : result (store * integrated_result) :=
  do state <-
    fold_result
      (fun state plan =>
         let st := fst state in
         let unified := snd state in
         do plan_key <- generate_plan_key B (load_record st plan);
         match dict_get plan_key unified with
         | Some existing =>
             do merged <- merge_plan_data_h st existing plan;
             Ok (fst merged, dict_set plan_key (snd merged) unified)
         | None => Ok (st, dict_set plan_key plan unified)
         end)
      regulatory_plans (st, []);
  let st := fst state in
  do unified <-
    fold_result
      (fun unified pdf_analysis =>
         do potential_matches <-
           find_matching_plans B pdf_analysis (load_unified (st, unified));
         Ok (fold_left
               (fun unified match_key =>
                  match dict_get match_key unified with
                  | Some plan =>
                      dict_set match_key
                        (dict_set "pdf_analysis" (HDict pdf_analysis) plan) unified
                  | None => unified
                  end)
               potential_matches unified))
      pdf_analyses (snd state);
  Ok (st,
      {| unified_plans := dict_values (load_unified (st, unified));
         cross_references :=
           length (List.filter (dict_has "pdf_analysis")
                     (dict_values (load_unified (st, unified))));
         sources_summary_of :=
           get_sources_summary (map (load_record st) regulatory_plans) pdf_analyses |}).

(** A store with the area lists of two PDF records, and the records. *)
Definition two_lists : store := [ [VStr "sentrum"]; [VStr "frogner"] ].

Definition pdf_first_h : hrecord :=
  [ ("source", HStr "oslo_pdf"); ("plan_id", HStr "P-1"); ("oslo_areas", HList 0) ].

Definition pdf_second_h : hrecord :=
  [ ("source", HStr "oslo_pdf_scan"); ("plan_id", HStr "P-1"); ("oslo_areas", HList 1) ].

(** The two PDF records once more, as another run of the interpreter could
    lay them out: other list objects, the same contents. *)
Definition three_lists : store :=
  [ [VStr "frogner"]; [VStr "grorud"]; [VStr "sentrum"] ].

Definition pdf_first_moved : hrecord :=
  [ ("source", HStr "oslo_pdf"); ("plan_id", HStr "P-1"); ("oslo_areas", HList 2) ].

Definition pdf_second_moved : hrecord :=
  [ ("source", HStr "oslo_pdf_scan"); ("plan_id", HStr "P-1"); ("oslo_areas", HList 0) ].

(** Two PDF records of one plan, the second with a label where the score
    should be. *)
Definition scored_first_h : hrecord :=
  [ ("source", HStr "oslo_pdf"); ("plan_id", HStr "P-1"); ("oslo_areas", HList 0);
    ("oslo_relevance_score", HInt 3) ].

Definition labelled_second_h : hrecord :=
  [ ("source", HStr "oslo_pdf_scan"); ("plan_id", HStr "P-1"); ("oslo_areas", HList 1);
    ("oslo_relevance_score", HStr "high") ].

(** A store with the keyword lists of two catalogue records, and the
    records: ['keywords'] is a list-valued field that is not one of the
    [oslo_fields]. *)
Definition two_keyword_lists : store := [ [VStr "plan"]; [VStr "regulering"] ].

Definition catalogue_first_h : hrecord :=
  [ ("source", HStr "geonorge_oslo"); ("plan_id", HStr "u-1"); ("keywords", HList 0) ].

Definition catalogue_second_h : hrecord :=
  [ ("source", HStr "oslo_origo"); ("plan_id", HStr "u-1"); ("keywords", HList 1) ].

(** ** Sample records

    The second and third entries of [get_sample_oslo_datasets], and the
    records of the two example scenarios of the specification. *)
Definition sample_byggetillatelser : pydict :=
  [ ("source", VStr "oslo_origo");
    ("dataset_id", VStr "oslo-byggetillatelser");
    ("title", VStr "Byggetillatelser Oslo");
    ("description", VStr "Byggetillatelser behandlet av PBE");
    ("category", VStr "byggesak");
    ("format", VStr "JSON");
    ("update_frequency", VStr "daily");
    ("oslo_specific", VBool true) ].

Definition sample_eiendomsdata : pydict :=
  [ ("source", VStr "oslo_origo");
    ("dataset_id", VStr "oslo-eiendomsdata");
    ("title", VStr "Eiendomsdata Oslo");
    ("description", VStr "Eiendomsinformasjon og matrikkeldata");
    ("category", VStr "eiendom");
    ("format", VStr "JSON");
    ("update_frequency", VStr "weekly");
    ("oslo_specific", VBool true) ].

Definition frogner_geonorge : pydict :=
  [ ("source", VStr "geonorge");
    ("title", VStr "Reguleringsplan Frogner Park");
    ("municipality", VStr "Oslo") ].

Definition frogner_origo : pydict :=
  [ ("source", VStr "oslo_origo");
    ("plan_id", VStr "OSL-001");
    ("title", VStr "Frogner Park Plan");
    ("municipality", VStr "Oslo") ].

Definition sentrum_geonorge : pydict :=
  [ ("source", VStr "geonorge");
    ("title", VStr "Reguleringsplan Sentrum");
    ("municipality", VStr "Oslo") ].

Definition sentrum_origo : pydict :=
  [ ("source", VStr "oslo_origo");
    ("title", VStr "Reguleringsplan Sentrum");
    ("municipality", VStr "Oslo") ].

(** A record whose three identifying fields are present and empty. *)
Definition blank_record : pydict :=
  [ ("municipality", VStr ""); ("title", VStr ""); ("plan_id", VStr "") ].

(** A record whose title is [None], as a JSON [null] would give. *)
Definition untitled_record : pydict :=
  [ ("source", VStr "geonorge_oslo"); ("title", VNone) ].

(** A family of pairwise different records without identifier, title and
    municipality. *)
Definition numbered_record (i : nat) : pydict :=
  [ ("source", VStr "oslo_pdf"); ("page", VInt (Z.of_nat i)) ].

(** ** Vocabulary for the merge statements *)

(** An attribute is populated when the record holds a truthy value under it. *)
Definition populated (k : string) (r : pydict) : Prop :=
  truthy (get_or_none k r) = true.

(** The list under [skey] is absent or a list: what [add_source_tag] needs
    to go through. *)
Definition sources_ok (skey : string) (r : pydict) : Prop :=
  dict_get skey r = None \/ exists l, dict_get skey r = Some (VList l).

(** The source tags a record carries: its list under [skey] if it has one,
    else its own ['source'] (['unknown'] if it has none). *)
Definition source_tags (skey : string) (r : pydict) : list pyval :=
  match dict_get skey r with
  | Some (VList l) => l
  | _ => [get_default "source" (VStr "unknown") r]
  end.

(** The tag of an incoming record. *)
Definition source_tag (new : pydict) : pyval := get_default "source" (VStr "unknown") new.

(** The tags after the merge: those of [existing], plus the tag of [new]
    unless [new.get('source')] is already among them. *)
Definition merged_tags (skey : string) (existing new : pydict) : list pyval :=
  let base := source_tags skey existing in
  if existsb (py_eq (get_or_none "source" new)) base then base
  else base ++ [source_tag new].

Definition is_text (v : pyval) : Prop := exists s, v = VStr s.

(** The ['source'] of a record is a string when there is one. *)
Definition text_source (r : pydict) : Prop :=
  forall v, dict_get "source" r = Some v -> is_text v.

(** [field_is P f r]: the value of [r] under [f], if there is one, satisfies [P]. *)
Definition field_is (P : pyval -> Prop) (f : string) (r : pydict) : Prop :=
  forall v, dict_get f r = Some v -> P v.

(** A list whose members satisfy [Q] as a whole. *)
Definition list_with (Q : list pyval -> Prop) (v : pyval) : Prop :=
  exists l, v = VList l /\ Q l.

Definition is_list : pyval -> Prop := list_with (fun _ => True).

Definition is_int (v : pyval) : Prop := exists z, v = VInt z.

(** The typing of the Oslo fields that the collectors respect: the area and
    term lists are lists, the score is an integer, the source list a list. *)
Definition oslo_typed (r : pydict) : Prop :=
  field_is is_list "oslo_areas" r /\
  field_is is_list "oslo_terms" r /\
  field_is is_int "oslo_relevance_score" r /\
  sources_ok "oslo_sources" r.

(** What one round of the [oslo_fields] loop makes of the values [ev] of
    [merged] and [nv] of [new] under the field. *)
Definition oslo_field_value (B : PyBuiltins) (ev nv : option pyval)
  : result (option pyval) :=
  match nv with
  | None => Ok ev
  | Some nv =>
      if truthy nv then
        match ev with
        | None => Ok (Some nv)
        | Some (VList l) => do items <- py_iter B nv; Ok (Some (VList (l ++ items)))
        | Some (VInt z) => do m <- py_max (VInt z) nv; Ok (Some m)
        | Some (VBool b) => do m <- py_max (VBool b) nv; Ok (Some m)
        | Some v => Ok (Some v)
        end
      else Ok ev
  end.

(** Two records with the same identifier, as two PDF analyses of one plan
    give them, and two catalogue entries of one dataset. *)
Definition pdf_first : pydict :=
  [ ("source", VStr "oslo_pdf"); ("plan_id", VStr "P-1");
    ("oslo_areas", VList [VStr "sentrum"]); ("oslo_relevance_score", VInt 3) ].

Definition pdf_second : pydict :=
  [ ("source", VStr "oslo_pdf_scan"); ("plan_id", VStr "P-1");
    ("title", VStr "Detaljregulering Frogner");
    ("oslo_areas", VList [VStr "frogner"]); ("oslo_relevance_score", VInt 5) ].

Definition catalogue_first : pydict :=
  [ ("source", VStr "geonorge"); ("plan_id", VStr "u-1");
    ("municipality", VStr "Oslo"); ("keywords", VList [VStr "plan"]) ].

Definition catalogue_second : pydict :=
  [ ("plan_id", VStr "u-1"); ("municipality", VStr "Oslo");
    ("source", VStr "oslo_origo");
    ("keywords", VList [VStr "regulering"]); ("status", VStr "vedtatt") ].

(** ** The statements of the specification, in its words *)

(** "the municipality joined with the first 1-3 word tokens of the lowercased
    title" *)
Definition title_token_key (B : PyBuiltins) (municipality title : string) : string :=
  join "_" (municipality :: firstn 3 (re_words B (str_lower B title))).

(** "never raises and never returns an empty string" *)
Definition returns_nonempty_key (gen : pydict -> result string) (r : pydict) : Prop :=
  exists k, gen r = Ok k /\ k <> "".

(** A field is missing when the record has no such key or holds the empty
    string under it. *)
Definition missing (k : string) (r : pydict) : Prop :=
  dict_get k r = None \/ dict_get k r = Some (VStr "").

(** "raw input missing all of identifier/title/municipality" *)
Definition malformed (r : pydict) : Prop :=
  missing "plan_id" r /\ missing "title" r /\ missing "municipality" r.

(** "a key that matches nothing else": no other record gets the key of [r]. *)
Definition isolated_key (gen : pydict -> result string) (r : pydict) : Prop :=
  forall r', r' <> r -> gen r' <> gen r.

(** "contains every non-empty field value of existing unchanged", the source
    list under [skey] apart. *)
Definition keeps_existing_values (skey : string) (existing merged : pydict) : Prop :=
  forall k v, k <> skey -> dict_get k existing = Some v -> truthy v = true ->
              dict_get k merged = Some v.

(** The entry of [merged] under [k] is a populated entry of [new.items()]. *)
Definition copied_from (new : pydict) (k : string) (merged : pydict) : Prop :=
  exists v, In (k, v) new /\ truthy v = true /\ dict_get k merged = Some v.

(** "copies a field from incoming only when that field is absent or empty on
    existing": an entry that differs from the one of [existing] was not
    populated there and comes from [new]. *)
Definition copies_only_into_gaps (skey : string) (existing new merged : pydict) : Prop :=
  forall k, k <> skey -> dict_get k merged <> dict_get k existing ->
            ~ populated k existing /\ copied_from new k merged.

(** "where both populate the same list-valued attribute, the output for that
    attribute is the concatenation of the two lists" *)
Definition concatenates_lists (existing new merged : pydict) : Prop :=
  forall k xs ys,
    dict_get k existing = Some (VList xs) -> dict_get k new = Some (VList ys) ->
    xs <> [] -> ys <> [] ->
    dict_get k merged = Some (VList (xs ++ ys)).

(** "equal to r on every field except the sources field" *)
Definition equal_except (skey : string) (r merged : pydict) : Prop :=
  forall k, k <> skey -> dict_get k merged = dict_get k r.

(** What the Oslo resolver makes of the entry [v] under [k] when a record is
    merged into itself: a list under one of the [oslo_fields] is doubled. *)
Definition self_merged_value (k : string) (v : option pyval) : option pyval :=
  match v with
  | Some (VList l) =>
      if existsb (String.eqb k) oslo_fields then Some (VList (l ++ l)) else v
  | _ => v
  end.

(** "every attribute populated in either input is populated in the output" *)
Definition carries_populated (existing new merged : pydict) : Prop :=
  forall k, populated k existing \/ populated k new -> populated k merged.

(** A Python dictionary holds each key once. *)
Definition unique_keys (r : pydict) : Prop := List.NoDup (map fst r).

(** A record without a source tag. *)
Definition untagged_plan : pydict :=
  [ ("plan_id", VStr "u-1"); ("municipality", VStr "Oslo") ].

(** The built-ins of an interpreter run with another hash seed: everything
    as in [B], the string hash replaced. *)
Definition with_hash (B : PyBuiltins) (hash : string -> Z) : PyBuiltins :=
  {| str_lower := str_lower B;
     re_words := re_words B;
     str_chars := str_chars B;
     str_repr := str_repr B;
     py_hash := hash |}.

(** A hash function that sends every string to the same value. *)
Definition constant_hash (s : string) : Z := 0%Z.

(** [str(record)] for a record of printable ASCII strings. *)
Definition string_form (r : pydict) : string :=
  py_str (ascii_model constant_hash) (VDict r).

(** An Oslo area name that a record can carry after classification. *)
Definition known_area (v : pyval) : Prop :=
  exists area, v = VStr area /\ In area oslo_omrader.

(** The record's ['oslo_areas'], if any, is a list of configured areas. *)
Definition areas_known (r : pydict) : Prop :=
  field_is (list_with (List.Forall known_area)) "oslo_areas" r.

(** "each record's matched-area list was produced by the
    municipality-relevance classifier over the static area list": the list is
    the [found_areas] of some text. *)
Definition areas_from_classifier (B : PyBuiltins) (item : pydict) : Prop :=
  field_is (fun v => exists text, v = VList (map VStr (found_areas B text)))
           "oslo_areas" item.

(** A record as the Oslo collectors build it: a string title if any, typed
    Oslo fields, areas from the classifier. *)
Definition collector_record (B : PyBuiltins) (item : pydict) : Prop :=
  field_is is_text "title" item /\ oslo_typed item /\ areas_from_classifier B item.

(** A PDF analysis record, with the areas [analyze_oslo_content] finds in
    the given text. *)
Definition pdf_record (B : PyBuiltins) (plan_id text : string) : pydict :=
  [ ("source", VStr "oslo_pdf"); ("plan_id", VStr plan_id);
    ("oslo_areas", VList (map VStr (found_areas B text))) ].

(** The members of the covered set are configured areas, each held once. *)
Definition area_set (covered : list pyval) : Prop :=
  List.Forall known_area covered /\ List.NoDup covered.

(** Discharges the typing of a concrete record. *)
Ltac check_field :=
  let v := fresh "v" in
  let H := fresh "H" in
  intros v H; vm_compute in H;
  first [ discriminate H
        | injection H as <-;
          first [ now (eexists; split; [reflexivity | exact I])
                | now (eexists; reflexivity) ] ].

Ltac check_oslo_typed :=
  repeat split; first [ check_field | left; reflexivity ].

(** Decides what a concrete record holds under a key that is a variable. *)
Ltac by_key H :=
  cbn [dict_get] in H;
  repeat match type of H with
         | (if (?k =? ?k')%string then _ else _) = _ =>
             destruct (String.eqb_spec k k'); [subst|]
         end.

(** * Properties *)

(** ** Dictionaries and [result] *)

Lemma dict_get_set_eq {V : Type} (k : string) (v : V) (d : list (string * V)) :
  dict_get k (dict_set k v d) = Some v.
Proof.
  induction d as [|[k' v'] d IH]; simpl.
  - now rewrite String.eqb_refl.
  - destruct (k =? k')%string eqn:E; simpl; rewrite ?String.eqb_refl, ?E; auto.
Qed.

Lemma dict_get_set_ne {V : Type} (k k' : string) (v : V) (d : list (string * V)) :
  k <> k' -> dict_get k' (dict_set k v d) = dict_get k' d.
Proof.
  intros Hne. induction d as [|[k0 v0] d IH]; simpl.
  - destruct (k' =? k)%string eqn:E; auto.
    apply String.eqb_eq in E. congruence.
  - destruct (k =? k0)%string eqn:E; simpl.
    + apply String.eqb_eq in E. subst k0.
      destruct (k' =? k)%string eqn:E'; auto.
      apply String.eqb_eq in E'. congruence.
    + now rewrite IH.
Qed.

Lemma dict_get_set {V : Type} (k k' : string) (v : V) (d : list (string * V)) :
  dict_get k' (dict_set k v d) = if (k =? k')%string then Some v else dict_get k' d.
Proof.
  destruct (k =? k')%string eqn:E.
  - apply String.eqb_eq in E. subst. apply dict_get_set_eq.
  - apply String.eqb_neq in E. now apply dict_get_set_ne.
Qed.

Lemma bind_ok {A C : Type} (m : result A) (f : A -> result C) (c : C) :
  bind m f = Ok c -> exists a, m = Ok a /\ f a = Ok c.
Proof. destruct m; simpl; intros H; [eauto | discriminate]. Qed.

Lemma as_strings_VStr (l : list string) : as_strings (map VStr l) = Ok l.
Proof. induction l as [|s l IH]; simpl; [reflexivity | now rewrite IH]. Qed.

Lemma str_join_VStr (sep : string) (l : list string) :
  str_join sep (map VStr l) = Ok (join sep l).
Proof. unfold str_join. now rewrite as_strings_VStr. Qed.

Lemma truthy_VStr (s : string) : truthy (VStr s) = true <-> s <> "".
Proof. destruct s; simpl; split; congruence. Qed.

Lemma join_cons_nonempty (sep s : string) (rest : list string) :
  s <> "" -> join sep (s :: rest) <> "".
Proof. destruct s; [congruence|]. destruct rest; simpl; congruence. Qed.

Lemma join_sep_nonempty (s w : string) (rest : list string) :
  join "_" (s :: w :: rest) <> "".
Proof. simpl. destruct s; simpl; congruence. Qed.

(** ** Key generators (claims C1, C2, C7) *)

Section KeyGeneratorFacts.
Variable B : PyBuiltins.

Lemma first_area_in_empty : first_area_in "" = None.
Proof. reflexivity. Qed.

Lemma plan_key_with_id (plan : pydict) (m t id : string) :
  get_default "municipality" (VStr "unknown") plan = VStr m ->
  get_default "title" (VStr "") plan = VStr t ->
  get_default "plan_id" (VStr "") plan = VStr id ->
  id <> "" ->
  generate_plan_key B plan = Ok (str_lower B m ++ "_" ++ id)%string.
Proof.
  intros Hm Ht Hid Hne. unfold generate_plan_key.
  rewrite Hm, Ht, Hid. simpl.
  destruct id; [congruence | reflexivity].
Qed.

Lemma plan_key_without_id (plan : pydict) (m t : string) :
  get_default "municipality" (VStr "unknown") plan = VStr m ->
  get_default "title" (VStr "") plan = VStr t ->
  truthy (get_default "plan_id" (VStr "") plan) = false ->
  generate_plan_key B plan =
    Ok (join "_" (str_lower B m :: firstn 3 (re_words B (str_lower B t)))).
Proof.
  intros Hm Ht Hid. unfold generate_plan_key.
  rewrite Hm, Ht, Hid. simpl bind. cbv zeta.
  exact (str_join_VStr "_" (str_lower B m :: firstn 3 (re_words B (str_lower B t)))).
Qed.

Lemma oslo_key_with_id (item : pydict) (t id : string) :
  get_default "title" (VStr "") item = VStr t ->
  get_default "plan_id" (VStr "") item = VStr id ->
  id <> "" ->
  generate_oslo_key B item = Ok ("oslo_" ++ id)%string.
Proof.
  intros Ht Hid Hne. unfold generate_oslo_key.
  rewrite Ht, Hid. simpl.
  destruct id; [congruence | reflexivity].
Qed.

Lemma oslo_key_without_id (item : pydict) (t : string) :
  get_default "title" (VStr "") item = VStr t ->
  truthy (get_default "plan_id" (VStr "") item) = false ->
  generate_oslo_key B item = Ok (oslo_fallback_key B item (str_lower B t)).
Proof.
  intros Ht Hid. unfold generate_oslo_key, oslo_fallback_key.
  rewrite Ht, Hid. simpl bind. cbv zeta.
  destruct (str_lower B t) eqn:El.
  - reflexivity.
  - cbn [truthy]. now destruct (first_area_in _).
Qed.
End KeyGeneratorFacts.

Lemma ascii_model_laws (hash : string -> Z) : PyBuiltinsLaws (ascii_model hash).
Proof.
  split; simpl; try reflexivity.
  intros [|c s] H; [congruence | simpl; congruence].
Qed.

(** C1, as stated, fails for [generate_oslo_key]: without an identifier its
    key is built from a configured area or from a hash bucket, never from the
    title's tokens.  Shown on a sample dataset record (no area in the title)
    and on the first record of the specification's scenario (title mentions
    Frogner), for every hash function. *)
Lemma oslo_key_not_from_title_tokens :
  (truthy (get_default "plan_id" (VStr "") sample_byggetillatelser) = false /\
   truthy (get_default "plan_id" (VStr "") frogner_geonorge) = false) /\
  (forall hash,
     title_token_key (ascii_model hash) "oslo" "Byggetillatelser Oslo"
       = "oslo_byggetillatelser_oslo" /\
     generate_oslo_key (ascii_model hash) sample_byggetillatelser
       <> Ok (title_token_key (ascii_model hash) "oslo" "Byggetillatelser Oslo")) /\
  (forall hash,
     title_token_key (ascii_model hash) "oslo" "Reguleringsplan Frogner Park"
       = "oslo_reguleringsplan_frogner_park" /\
     generate_oslo_key (ascii_model hash) frogner_geonorge
       <> Ok (title_token_key (ascii_model hash) "oslo" "Reguleringsplan Frogner Park")).
Proof.
  split; [split; reflexivity|].
  split; intros hash; (split; [reflexivity|]); cbv - [int_str Z.modulo]; discriminate.
Qed.

(** C1, amended: with a non-empty identifier [generate_plan_key] returns the
    lowercased municipality (['unknown'] if the record has none) joined by an
    underscore with the identifier, and [generate_oslo_key] returns [oslo_]
    followed by the identifier; with an empty or absent identifier
    [generate_plan_key] returns the lowercased municipality joined with the
    first up to three word tokens of the lowercased title, and
    [generate_oslo_key] returns [oslo_<area>_<hash(title) % 1000>] for the
    first configured area contained in the lowercased title, or else
    [oslo_general_<hash(str(record)) % 1000>]. *)
Theorem key_generators_by_identifier (B : PyBuiltins) (r : pydict) (m t : string) :
  get_default "municipality" (VStr "unknown") r = VStr m ->
  get_default "title" (VStr "") r = VStr t ->
  (forall id, get_default "plan_id" (VStr "") r = VStr id -> id <> "" ->
     generate_plan_key B r = Ok (str_lower B m ++ "_" ++ id)%string /\
     generate_oslo_key B r = Ok ("oslo_" ++ id)%string) /\
  (truthy (get_default "plan_id" (VStr "") r) = false ->
     generate_plan_key B r = Ok (title_token_key B (str_lower B m) t) /\
     generate_oslo_key B r = Ok (oslo_fallback_key B r (str_lower B t))).
Proof.
  intros Hm Ht. split.
  - intros id Hid Hne. split.
    + now apply plan_key_with_id with (t := t).
    + now apply oslo_key_with_id with (t := t).
  - intros Hid. split.
    + now apply plan_key_without_id.
    + now apply oslo_key_without_id.
Qed.

Lemma key_generators_by_identifier_witness :
  (generate_plan_key (ascii_model length_hash) frogner_origo = Ok "oslo_OSL-001" /\
   generate_oslo_key (ascii_model length_hash) frogner_origo = Ok "oslo_OSL-001").
Proof.
  destruct (key_generators_by_identifier (ascii_model length_hash) frogner_origo
              "Oslo" "Frogner Park Plan" eq_refl eq_refl) as [Hid _].
  apply (Hid "OSL-001"); [reflexivity | discriminate].
Defined.

Lemma oslo_key_prefix (B : PyBuiltins) (item : pydict) (t : string) :
  get_default "title" (VStr "") item = VStr t ->
  exists rest, generate_oslo_key B item = Ok ("oslo_" ++ rest)%string.
Proof.
  intros Ht. unfold generate_oslo_key. rewrite Ht. cbn [bind lower_method].
  destruct (truthy (get_default "plan_id" (VStr "") item)); [eexists; reflexivity|].
  destruct (truthy (VStr (str_lower B t))); [|eexists; reflexivity].
  destruct (first_area_in (str_lower B t)); eexists; reflexivity.
Qed.

(** C2, as stated, fails: [generate_plan_key] returns the empty string on a
    record whose municipality, title and identifier are empty strings, and
    both generators raise on a title that is not a string. *)
Lemma key_generators_not_total_nonempty :
  ~ returns_nonempty_key (generate_plan_key (ascii_model length_hash)) blank_record /\
  ~ returns_nonempty_key (generate_plan_key (ascii_model length_hash)) untitled_record /\
  ~ returns_nonempty_key (generate_oslo_key (ascii_model length_hash)) untitled_record.
Proof.
  repeat split; intros [k [Hk Hne]]; vm_compute in Hk; congruence.
Qed.

(** C2, amended: on a record whose title is absent or a string
    [generate_oslo_key] returns without raising a key that starts with
    [oslo_], hence a non-empty one; on a record whose municipality and title
    are absent or strings and whose identifier is empty, absent or a string,
    [generate_plan_key] returns a key without raising, and that key is
    non-empty whenever the municipality is absent or non-empty. *)
Theorem key_generators_return_on_text_fields (B : PyBuiltins) (r : pydict) :
  PyBuiltinsLaws B ->
  (forall t, get_default "title" (VStr "") r = VStr t ->
     exists rest, generate_oslo_key B r = Ok ("oslo_" ++ rest)%string) /\
  (forall m t,
     get_default "municipality" (VStr "unknown") r = VStr m ->
     get_default "title" (VStr "") r = VStr t ->
     (truthy (get_default "plan_id" (VStr "") r) = false \/
      exists id, get_default "plan_id" (VStr "") r = VStr id) ->
     exists k, generate_plan_key B r = Ok k /\ (m <> "" -> k <> "")).
Proof.
  intros HB. split.
  - intros t. apply oslo_key_prefix.
  - intros m t Hm Ht Hid.
    assert (Hfalsy :
      truthy (get_default "plan_id" (VStr "") r) = false ->
      exists k, generate_plan_key B r = Ok k /\ (m <> "" -> k <> "")).
    { intros Hf. eexists. split; [exact (plan_key_without_id B r m t Hm Ht Hf)|].
      intros Hne. apply join_cons_nonempty. now apply (lower_nonempty B HB). }
    destruct Hid as [Hf | [id Hid]]; [auto|].
    destruct (string_dec id "") as [-> | Hne].
    + apply Hfalsy. now rewrite Hid.
    + eexists. split; [exact (plan_key_with_id B r m t id Hm Ht Hid Hne)|].
      intros _. destruct (str_lower B m); simpl; congruence.
Qed.

Lemma key_generators_return_on_text_fields_witness :
  (exists rest, generate_oslo_key (ascii_model length_hash) frogner_geonorge
                = Ok ("oslo_" ++ rest)%string) /\
  (exists k, generate_plan_key (ascii_model length_hash) frogner_geonorge = Ok k /\
             ("Oslo" <> "" -> k <> "")).
Proof.
  destruct (key_generators_return_on_text_fields (ascii_model length_hash)
              frogner_geonorge (ascii_model_laws length_hash)) as [Ho Hp].
  split.
  - apply (Ho "Reguleringsplan Frogner Park"). reflexivity.
  - apply (Hp "Oslo" "Reguleringsplan Frogner Park");
      [reflexivity | reflexivity | left; reflexivity].
Defined.

Lemma bounded_search (P : nat -> Prop) (n : nat) :
  (forall i, {P i} + {~ P i}) ->
  (exists i, i <= n /\ P i) \/ (forall i, i <= n -> ~ P i).
Proof.
  intros dec. induction n as [|n IH].
  - destruct (dec 0) as [H|H].
    + left. exists 0. auto.
    + right. intros i Hi. assert (i = 0) by lia. now subst.
  - destruct (dec (S n)) as [H|H].
    + left. exists (S n). auto.
    + destruct IH as [[i [Hi Pi]]|Hn].
      * left. exists i. split; [lia | exact Pi].
      * right. intros i Hi.
        destruct (Nat.eq_dec i (S n)) as [->|]; [exact H | apply Hn; lia].
Qed.

(** Among [n + 1] values below [n], two coincide. *)
Lemma pigeonhole (n : nat) (f : nat -> nat) :
  (forall i, i <= n -> f i < n) ->
  exists i j, i < j <= n /\ f i = f j.
Proof.
  revert f. induction n as [|n IH]; intros f Hf.
  - specialize (Hf 0 (le_n 0)). lia.
  - destruct (bounded_search (fun i => f i = f (S n)) n
                (fun i => Nat.eq_dec (f i) (f (S n)))) as [[i [Hi Ei]] | Hne].
    + exists i, (S n). split; [lia | exact Ei].
    + set (g := fun i => if f i <? f (S n) then f i else f i - 1).
      destruct (IH g) as [i [j [Hij Eg]]].
      { intros i Hi. unfold g.
        pose proof (Hf i ltac:(lia)). pose proof (Hf (S n) ltac:(lia)).
        pose proof (Hne i Hi).
        destruct (f i <? f (S n)) eqn:E;
          [apply Nat.ltb_lt in E | apply Nat.ltb_ge in E]; lia. }
      exists i, j. split; [lia|].
      unfold g in Eg.
      pose proof (Hne i ltac:(lia)). pose proof (Hne j ltac:(lia)).
      destruct (f i <? f (S n)) eqn:E1; destruct (f j <? f (S n)) eqn:E2;
        repeat match goal with
               | H : (_ <? _) = true |- _ => apply Nat.ltb_lt in H
               | H : (_ <? _) = false |- _ => apply Nat.ltb_ge in H
               end; lia.
Qed.

Lemma hash_bucket_range (B : PyBuiltins) (s : string) :
  (0 <= hash_bucket B s < 1000)%Z.
Proof. unfold hash_bucket. apply Z.mod_pos_bound. lia. Qed.

Lemma malformed_numbered_record (i : nat) : malformed (numbered_record i).
Proof. repeat split; left; reflexivity. Qed.

Lemma numbered_record_inj (i j : nat) :
  numbered_record i = numbered_record j -> i = j.
Proof. unfold numbered_record. intros H. injection H as H. lia. Qed.

Lemma missing_falsy (k : string) (r : pydict) :
  missing k r -> get_default k (VStr "") r = VStr "".
Proof. unfold get_default. now intros [-> | ->]. Qed.

(** Whatever the hash function, two of the records [numbered_record 0], ...,
    [numbered_record 1000] receive the same Oslo key. *)
Lemma oslo_keys_collide (B : PyBuiltins) :
  exists i j, i <> j /\
    generate_oslo_key B (numbered_record i) = generate_oslo_key B (numbered_record j).
Proof.
  assert (Hkey : forall i, generate_oslo_key B (numbered_record i)
                   = Ok (oslo_fallback_key B (numbered_record i) (str_lower B ""))).
  { intros i. apply oslo_key_without_id; reflexivity. }
  unfold oslo_fallback_key in Hkey.
  destruct (first_area_in (str_lower B "")) as [area|].
  - exists 0, 1. split; [lia|]. now rewrite !Hkey.
  - set (f := fun i => Z.to_nat (hash_bucket B (py_str B (VDict (numbered_record i))))).
    destruct (pigeonhole 1000 f) as [i [j [Hij Ef]]].
    { intros i _. unfold f.
      pose proof (hash_bucket_range B (py_str B (VDict (numbered_record i)))). lia. }
    exists i, j. split; [lia|].
    assert (E : hash_bucket B (py_str B (VDict (numbered_record i)))
              = hash_bucket B (py_str B (VDict (numbered_record j)))).
    { unfold f in Ef.
      pose proof (hash_bucket_range B (py_str B (VDict (numbered_record i)))).
      pose proof (hash_bucket_range B (py_str B (VDict (numbered_record j)))).
      lia. }
    rewrite !Hkey. now rewrite E.
Qed.




(** The two example scenarios of the specification, on the integrated
    pass: a record keyed by its title and one keyed by its identifier stay
    apart; two records with the same title and municipality and no identifier
    become one record that lists both sources. *)
Example scenario_different_key_paths :
  generate_plan_key (ascii_model length_hash) frogner_geonorge
    = Ok "oslo_reguleringsplan_frogner_park" /\
  generate_plan_key (ascii_model length_hash) frogner_origo = Ok "oslo_OSL-001" /\
  exists r,
    cross_reference_data (ascii_model length_hash) [frogner_geonorge; frogner_origo] []
      = Ok r /\
    unified_plans r = [frogner_geonorge; frogner_origo].
Proof.
  split; [reflexivity|]. split; [reflexivity|]. eexists. split; reflexivity.
Qed.

Example scenario_same_title_merges :
  exists r,
    cross_reference_data (ascii_model length_hash) [sentrum_geonorge; sentrum_origo] []
      = Ok r /\
    unified_plans r
      = [ sentrum_geonorge ++ [("sources", VList [VStr "geonorge"; VStr "oslo_origo"])] ].
Proof. eexists. split; reflexivity. Qed.

(** ** Merge resolvers (claims C3, C4, C5, C6) *)

Lemma fold_result_ok_inv {A S : Type} (P : S -> Prop) (f : S -> A -> result S)
    (l : list A) (s s' : S) :
  (forall s0 a s1, In a l -> P s0 -> f s0 a = Ok s1 -> P s1) ->
  P s -> fold_result f l s = Ok s' -> P s'.
Proof.
  revert s. induction l as [|a l IH]; simpl; intros s Hstep Hs Hfold.
  - now injection Hfold as <-.
  - apply bind_ok in Hfold as [s1 [H1 H2]].
    apply (IH s1); eauto.
Qed.

Lemma existsb_py_eq_text (s : string) (l : list pyval) :
  existsb (py_eq (VStr s)) l = true -> In (VStr s) l.
Proof.
  induction l as [|x l IH]; simpl; [discriminate|].
  intros H. apply orb_true_iff in H as [H|H]; [|auto].
  left. destruct x; try discriminate. apply String.eqb_eq in H. now subst.
Qed.

Lemma py_eq_text_refl (s : string) : py_eq (VStr s) (VStr s) = true.
Proof. apply String.eqb_refl. Qed.

Lemma in_existsb_py_eq_text (s : string) (l : list pyval) :
  In (VStr s) l -> existsb (py_eq (VStr s)) l = true.
Proof.
  intros H. apply existsb_exists. exists (VStr s). split; [exact H | apply py_eq_text_refl].
Qed.

(** *** The source bookkeeping *)

Lemma add_source_tag_other (skey : string) (existing new merged merged' : pydict) (k : string) :
  add_source_tag skey existing new merged = Ok merged' ->
  k <> skey -> dict_get k merged' = dict_get k merged.
Proof.
  unfold add_source_tag. intros H Hk.
  set (m0 := if dict_has skey merged then merged
             else dict_set skey (VList [get_default "source" (VStr "unknown") existing]) merged) in H.
  assert (H0 : dict_get k m0 = dict_get k merged).
  { unfold m0. destruct (dict_has skey merged); [reflexivity|].
    apply dict_get_set_ne. congruence. }
  destruct (dict_get skey m0) as [srcs|]; [|discriminate].
  apply bind_ok in H as [present [_ H]].
  destruct present.
  - injection H as <-. exact H0.
  - apply bind_ok in H as [srcs' [_ H]]. injection H as <-.
    rewrite dict_get_set_ne; [exact H0 | congruence].
Qed.

Lemma add_source_tag_sources (skey : string) (existing new : pydict) :
  sources_ok skey existing ->
  exists merged,
    add_source_tag skey existing new existing = Ok merged /\
    dict_get skey merged = Some (VList (merged_tags skey existing new)).
Proof.
  unfold add_source_tag, merged_tags, source_tags, source_tag, dict_has.
  intros [Hnone | [l Hl]].
  - rewrite Hnone. rewrite dict_get_set_eq. cbn [contains bind].
    destruct (existsb _ _).
    + eexists. split; [reflexivity | apply dict_get_set_eq].
    + cbn [list_append bind]. eexists. split; [reflexivity | apply dict_get_set_eq].
  - rewrite Hl. rewrite Hl. cbn [contains bind].
    destruct (existsb _ _).
    + eexists. split; [reflexivity | exact Hl].
    + cbn [list_append bind]. eexists. split; [reflexivity | apply dict_get_set_eq].
Qed.

(** If the call returns at all, the list under [skey] is never left empty
    where [existing] had it populated. *)
Lemma add_source_tag_populated (skey : string) (existing new merged : pydict) :
  add_source_tag skey existing new existing = Ok merged ->
  populated skey existing -> populated skey merged.
Proof.
  unfold add_source_tag, populated, get_or_none, get_default, dict_has.
  destruct (dict_get skey existing) as [srcs|] eqn:E; [|discriminate].
  rewrite E. intros H Hp.
  apply bind_ok in H as [present [_ H]]. destruct present.
  - injection H as <-. now rewrite E.
  - apply bind_ok in H as [srcs' [Happ H]]. injection H as <-.
    rewrite dict_get_set_eq. destruct srcs; try discriminate.
    injection Happ as <-. now destruct l.
Qed.

(** With string tags the merged list is the union of the tags. *)
Lemma merged_tags_union (skey : string) (existing new : pydict) :
  text_source new ->
  Forall is_text (source_tags skey existing) ->
  forall x, In x (merged_tags skey existing new)
            <-> In x (source_tags skey existing) \/ x = source_tag new.
Proof.
  intros Hnew Hbase x. unfold merged_tags, source_tag, get_or_none, get_default.
  destruct (dict_get "source" new) as [v|] eqn:E.
  - destruct (Hnew v E) as [s ->].
    destruct (existsb _ _) eqn:Ex.
    + apply existsb_py_eq_text in Ex. split; [auto|]. now intros [H | ->].
    + rewrite in_app_iff. simpl. intuition.
  - destruct (existsb _ _) eqn:Ex.
    + exfalso. apply existsb_exists in Ex as [y [Hy Hyeq]].
      rewrite List.Forall_forall in Hbase. destruct (Hbase y Hy) as [s ->]. discriminate.
    + rewrite in_app_iff. simpl. intuition.
Qed.

(** *** [merge_plan_data] *)

Lemma dict_get_In {V : Type} (k : string) (v : V) (d : list (string * V)) :
  dict_get k d = Some v -> In (k, v) d.
Proof.
  induction d as [|[k' v'] d IH]; simpl; [discriminate|].
  destruct (k =? k')%string eqn:E.
  - apply String.eqb_eq in E. intros [= ->]. subst. now left.
  - auto.
Qed.

Lemma merge_plan_field_keeps (merged : pydict) (kv : string * pyval) (k : string) (v : pyval) :
  dict_get k merged = Some v -> truthy v = true ->
  dict_get k (merge_plan_field merged kv) = Some v.
Proof.
  destruct kv as [k0 v0]. intros Hk Hv. unfold merge_plan_field.
  destruct (_ && _) eqn:C; [|exact Hk].
  destruct (string_dec k0 k) as [->|Hne].
  - exfalso. unfold dict_has, get_or_none, get_default in C. rewrite Hk, Hv in C.
    simpl in C. now rewrite andb_false_r in C.
  - now rewrite dict_get_set_ne.
Qed.

Lemma fold_plan_keeps (new merged : pydict) (k : string) (v : pyval) :
  dict_get k merged = Some v -> truthy v = true ->
  dict_get k (fold_left merge_plan_field new merged) = Some v.
Proof.
  revert merged. induction new as [|kv new IH]; cbn [fold_left]; intros merged Hk Hv;
    [exact Hk|].
  apply IH; [|exact Hv]. now apply merge_plan_field_keeps.
Qed.

Lemma merge_plan_field_get (merged : pydict) (k0 : string) (v0 : pyval) (k : string) :
  dict_get k (merge_plan_field merged (k0, v0)) = dict_get k merged \/
  (k0 = k /\ k <> "source" /\ truthy v0 = true /\
   truthy (get_or_none k merged) = false /\
   dict_get k (merge_plan_field merged (k0, v0)) = Some v0).
Proof.
  unfold merge_plan_field.
  destruct (negb (k0 =? "source")%string && truthy v0
            && (negb (dict_has k0 merged) || negb (truthy (get_or_none k0 merged)))) eqn:C;
    [|now left].
  apply andb_true_iff in C as [C C3]. apply andb_true_iff in C as [C1 C2].
  destruct (string_dec k0 k) as [->|Hne].
  - right. repeat split; try assumption.
    + intros ->. discriminate.
    + unfold dict_has, get_or_none, get_default in *.
      destruct (dict_get k merged); [|reflexivity].
      simpl in C3. now apply negb_true_iff in C3.
    + apply dict_get_set_eq.
  - left. now apply dict_get_set_ne.
Qed.

Lemma fold_plan_change (new merged : pydict) (k : string) :
  dict_get k (fold_left merge_plan_field new merged) = dict_get k merged \/
  (k <> "source" /\ truthy (get_or_none k merged) = false /\
   exists v, In (k, v) new /\ truthy v = true /\
             dict_get k (fold_left merge_plan_field new merged) = Some v).
Proof.
  revert merged. induction new as [|[k0 v0] new IH]; cbn [fold_left]; intros merged;
    [now left|].
  specialize (IH (merge_plan_field merged (k0, v0))).
  destruct (merge_plan_field_get merged k0 v0 k) as [Hstep | (-> & Hs & Hv0 & Hf & Hstep)].
  - unfold get_or_none, get_default in IH. rewrite Hstep in IH.
    destruct IH as [IH | (Hs & Hf & v & Hin & Hv & Hget)]; [now left|].
    right. split; [exact Hs|]. split; [exact Hf|]. exists v.
    split; [now right | auto].
  - right. split; [exact Hs|]. split; [exact Hf|].
    destruct IH as [IH | (_ & Hf' & _)].
    + exists v0. split; [now left|]. split; [exact Hv0|]. now rewrite IH.
    + unfold get_or_none, get_default in Hf'. rewrite Hstep in Hf'. congruence.
Qed.

Lemma fold_plan_fills (new merged : pydict) (k : string) (v : pyval) :
  In (k, v) new -> truthy v = true -> k <> "source" ->
  populated k (fold_left merge_plan_field new merged).
Proof.
  revert merged. induction new as [|[k0 v0] new IH]; cbn [fold_left];
    intros merged Hin Hv Hs; [easy|].
  destruct Hin as [[= -> ->] | Hin]; [|now apply IH].
  assert (Hnow : exists v', dict_get k (merge_plan_field merged (k, v)) = Some v'
                            /\ truthy v' = true).
  { unfold merge_plan_field. rewrite Hv.
    replace (k =? "source")%string with false
      by (symmetry; now apply String.eqb_neq).
    cbn [negb andb]. unfold dict_has, get_or_none, get_default.
    destruct (dict_get k merged) as [v1|] eqn:E; cbn [negb orb].
    - destruct (truthy v1) eqn:T; cbn [negb].
      + exists v1. auto.
      + exists v. split; [apply dict_get_set_eq | exact Hv].
    - exists v. split; [apply dict_get_set_eq | exact Hv]. }
  destruct Hnow as [v' [Hget Hv']].
  unfold populated, get_or_none, get_default.
  now rewrite (fold_plan_keeps new _ k v' Hget Hv').
Qed.

(** *** [merge_oslo_data] *)

Section OsloMergeFacts.
Variable B : PyBuiltins.

Lemma merge_oslo_field_other (new merged merged' : pydict) (f k : string) :
  merge_oslo_field B new merged f = Ok merged' ->
  k <> f -> dict_get k merged' = dict_get k merged.
Proof.
  unfold merge_oslo_field. intros H Hk.
  destruct (dict_get f new) as [nv|]; [|now injection H as <-].
  destruct (truthy nv); [|now injection H as <-].
  destruct (dict_get f merged) as [[| | | | |]|].
  all: try (injection H as <-; reflexivity).
  all: try (apply bind_ok in H as [x [_ H]]; injection H as <-).
  all: try (injection H as <-).
  all: apply dict_get_set_ne; congruence.
Qed.

Lemma merge_oslo_field_self (new merged merged' : pydict) (f : string) :
  merge_oslo_field B new merged f = Ok merged' ->
  oslo_field_value B (dict_get f merged) (dict_get f new) = Ok (dict_get f merged').
Proof.
  unfold merge_oslo_field, oslo_field_value. intros H.
  destruct (dict_get f new) as [nv|]; [|now injection H as <-].
  destruct (truthy nv); [|now injection H as <-].
  destruct (dict_get f merged) as [[| | | | |]|] eqn:E.
  all: try (injection H as <-; now rewrite E).
  all: try (apply bind_ok in H as [x [Hx H]]; injection H as <-;
            rewrite Hx; cbn [bind]; now rewrite dict_get_set_eq).
  injection H as <-. now rewrite dict_get_set_eq.
Qed.

Lemma merge_oslo_field_returns (new merged : pydict) (f : string) (v : option pyval) :
  oslo_field_value B (dict_get f merged) (dict_get f new) = Ok v ->
  exists merged', merge_oslo_field B new merged f = Ok merged'.
Proof.
  unfold merge_oslo_field, oslo_field_value.
  destruct (dict_get f new) as [nv|]; [|eauto].
  destruct (truthy nv); [|eauto].
  destruct (dict_get f merged) as [[| | | | |]|]; eauto.
  all: intros H; apply bind_ok in H as [x [-> _]]; cbn [bind]; eauto.
Qed.
End OsloMergeFacts.

Section OsloMergeData.
Variable B : PyBuiltins.

Lemma merge_oslo_data_inv (existing new merged : pydict) :
  merge_oslo_data B existing new = Ok merged ->
  exists m0 m1 m2,
    add_source_tag "oslo_sources" existing new existing = Ok m0 /\
    merge_oslo_field B new m0 "oslo_areas" = Ok m1 /\
    merge_oslo_field B new m1 "oslo_terms" = Ok m2 /\
    merge_oslo_field B new m2 "oslo_relevance_score" = Ok merged.
Proof.
  unfold merge_oslo_data, oslo_fields. cbn [fold_result]. intros H.
  apply bind_ok in H as [m0 [H0 H]].
  apply bind_ok in H as [m1 [H1 H]].
  apply bind_ok in H as [m2 [H2 H]].
  apply bind_ok in H as [m3 [H3 H]]. injection H as <-.
  exists m0, m1, m2. auto.
Qed.

Lemma merge_oslo_data_other (existing new merged : pydict) (k : string) :
  merge_oslo_data B existing new = Ok merged ->
  ~ In k oslo_fields -> k <> "oslo_sources" ->
  dict_get k merged = dict_get k existing.
Proof.
  intros H Hk Hs. apply merge_oslo_data_inv in H as (m0 & m1 & m2 & H0 & H1 & H2 & H3).
  unfold oslo_fields in Hk. simpl in Hk.
  rewrite (merge_oslo_field_other B _ _ _ _ k H3) by intuition.
  rewrite (merge_oslo_field_other B _ _ _ _ k H2) by intuition.
  rewrite (merge_oslo_field_other B _ _ _ _ k H1) by intuition.
  now apply (add_source_tag_other _ _ _ _ _ k H0).
Qed.

Lemma merge_oslo_data_field (existing new merged : pydict) (f : string) :
  merge_oslo_data B existing new = Ok merged ->
  In f oslo_fields ->
  oslo_field_value B (dict_get f existing) (dict_get f new) = Ok (dict_get f merged).
Proof.
  intros H Hf. apply merge_oslo_data_inv in H as (m0 & m1 & m2 & H0 & H1 & H2 & H3).
  unfold oslo_fields in Hf. simpl in Hf.
  destruct Hf as [<- | [<- | [<- | []]]].
  - rewrite (merge_oslo_field_other B _ _ _ _ "oslo_areas" H3) by discriminate.
    rewrite (merge_oslo_field_other B _ _ _ _ "oslo_areas" H2) by discriminate.
    rewrite <- (add_source_tag_other _ _ _ _ _ "oslo_areas" H0) by discriminate.
    now apply merge_oslo_field_self.
  - rewrite (merge_oslo_field_other B _ _ _ _ "oslo_terms" H3) by discriminate.
    rewrite <- (add_source_tag_other _ _ _ _ _ "oslo_terms" H0) by discriminate.
    rewrite <- (merge_oslo_field_other B _ _ _ _ "oslo_terms" H1) by discriminate.
    now apply merge_oslo_field_self.
  - rewrite <- (add_source_tag_other _ _ _ _ _ "oslo_relevance_score" H0) by discriminate.
    rewrite <- (merge_oslo_field_other B _ _ _ _ "oslo_relevance_score" H1) by discriminate.
    rewrite <- (merge_oslo_field_other B _ _ _ _ "oslo_relevance_score" H2) by discriminate.
    now apply merge_oslo_field_self.
Qed.

Lemma merge_oslo_data_sources (existing new merged : pydict) :
  merge_oslo_data B existing new = Ok merged ->
  sources_ok "oslo_sources" existing ->
  dict_get "oslo_sources" merged
    = Some (VList (merged_tags "oslo_sources" existing new)).
Proof.
  intros H Hok. apply merge_oslo_data_inv in H as (m0 & m1 & m2 & H0 & H1 & H2 & H3).
  rewrite (merge_oslo_field_other B _ _ _ _ "oslo_sources" H3) by discriminate.
  rewrite (merge_oslo_field_other B _ _ _ _ "oslo_sources" H2) by discriminate.
  rewrite (merge_oslo_field_other B _ _ _ _ "oslo_sources" H1) by discriminate.
  destruct (add_source_tag_sources "oslo_sources" existing new Hok) as [m [Hm Hget]].
  congruence.
Qed.

Lemma merge_oslo_data_sources_populated (existing new merged : pydict) :
  merge_oslo_data B existing new = Ok merged ->
  populated "oslo_sources" existing -> populated "oslo_sources" merged.
Proof.
  intros H Hp. apply merge_oslo_data_inv in H as (m0 & m1 & m2 & H0 & H1 & H2 & H3).
  unfold populated, get_or_none, get_default.
  rewrite (merge_oslo_field_other B _ _ _ _ "oslo_sources" H3) by discriminate.
  rewrite (merge_oslo_field_other B _ _ _ _ "oslo_sources" H2) by discriminate.
  rewrite (merge_oslo_field_other B _ _ _ _ "oslo_sources" H1) by discriminate.
  exact (add_source_tag_populated _ _ _ _ H0 Hp).
Qed.

(** A round of the field loop on two lists returns, and leaves a list. *)
Lemma merge_oslo_field_lists (Q : list pyval -> Prop) (new merged : pydict) (f : string) :
  (forall l l', Q l -> Q l' -> Q (l ++ l')) ->
  field_is (list_with Q) f new -> field_is (list_with Q) f merged ->
  exists merged',
    merge_oslo_field B new merged f = Ok merged' /\ field_is (list_with Q) f merged'.
Proof.
  intros Qapp Hn Hm. unfold merge_oslo_field.
  destruct (dict_get f new) as [nv|] eqn:En; [|eauto].
  destruct (Hn nv En) as [ln [-> Qn]].
  destruct (truthy (VList ln)); [|eauto].
  destruct (dict_get f merged) as [mv|] eqn:Em.
  - destruct (Hm mv Em) as [lm [-> Qm]]. cbn [py_iter bind].
    eexists. split; [reflexivity|].
    intros v. rewrite dict_get_set_eq. intros [= <-]. exists (lm ++ ln). auto.
  - eexists. split; [reflexivity|].
    intros v. rewrite dict_get_set_eq. intros [= <-]. exists ln. auto.
Qed.

(** A round of the field loop on two integers returns, and leaves an integer. *)
Lemma merge_oslo_field_ints (new merged : pydict) (f : string) :
  field_is is_int f new -> field_is is_int f merged ->
  exists merged',
    merge_oslo_field B new merged f = Ok merged' /\ field_is is_int f merged'.
Proof.
  intros Hn Hm. unfold merge_oslo_field.
  destruct (dict_get f new) as [nv|] eqn:En; [|eauto].
  destruct (Hn nv En) as [zn ->].
  destruct (truthy (VInt zn)); [|eauto].
  destruct (dict_get f merged) as [mv|] eqn:Em.
  - destruct (Hm mv Em) as [zm ->]. cbn [py_max num_of bind].
    eexists. split; [reflexivity|].
    intros v. rewrite dict_get_set_eq. intros [= <-].
    destruct (zm <? zn)%Z; [now exists zn | now exists zm].
  - eexists. split; [reflexivity|].
    intros v. rewrite dict_get_set_eq. intros [= <-]. now exists zn.
Qed.

Lemma field_is_other (P : pyval -> Prop) (f : string) (r r' : pydict) :
  dict_get f r' = dict_get f r -> field_is P f r -> field_is P f r'.
Proof. unfold field_is. intros E H v. rewrite E. apply H. Qed.

(** On typed records the Oslo resolver returns, and its result is typed. *)
Lemma merge_oslo_data_returns (existing new : pydict) :
  oslo_typed existing -> oslo_typed new ->
  exists merged, merge_oslo_data B existing new = Ok merged /\ oslo_typed merged.
Proof.
  intros (Ea & Et & Es & Eo) (Na & Nt & Ns & _).
  destruct (add_source_tag_sources "oslo_sources" existing new Eo) as [m0 [H0 Hs0]].
  pose proof (fun k => add_source_tag_other _ _ _ _ _ k H0) as Hother0.
  destruct (merge_oslo_field_lists (fun _ => True) new m0 "oslo_areas")
    as [m1 [H1 T1]]; auto.
  { apply field_is_other with (r := existing); [apply Hother0; discriminate | exact Ea]. }
  pose proof (fun k => merge_oslo_field_other B _ _ _ _ k H1) as Hother1.
  destruct (merge_oslo_field_lists (fun _ => True) new m1 "oslo_terms")
    as [m2 [H2 T2]]; auto.
  { apply field_is_other with (r := existing); [|exact Et].
    rewrite Hother1 by discriminate. apply Hother0. discriminate. }
  pose proof (fun k => merge_oslo_field_other B _ _ _ _ k H2) as Hother2.
  destruct (merge_oslo_field_ints new m2 "oslo_relevance_score") as [m3 [H3 T3]]; auto.
  { apply field_is_other with (r := existing); [|exact Es].
    rewrite Hother2, Hother1 by discriminate. apply Hother0. discriminate. }
  pose proof (fun k => merge_oslo_field_other B _ _ _ _ k H3) as Hother3.
  exists m3. split.
  - unfold merge_oslo_data, oslo_fields. cbn [fold_result].
    rewrite H0. cbn [bind]. rewrite H1. cbn [bind]. rewrite H2. cbn [bind].
    rewrite H3. reflexivity.
  - repeat split.
    + apply field_is_other with (r := m1); [|exact T1].
      rewrite Hother3, Hother2 by discriminate. reflexivity.
    + apply field_is_other with (r := m2); [|exact T2].
      rewrite Hother3 by discriminate. reflexivity.
    + exact T3.
    + right. eexists.
      rewrite Hother3, Hother2, Hother1 by discriminate. exact Hs0.
Qed.
End OsloMergeData.

(** *** Claim C3 *)

Lemma merge_plan_data_inv (existing new merged : pydict) :
  merge_plan_data existing new = Ok merged ->
  exists m0, add_source_tag "sources" existing new existing = Ok m0 /\
             merged = fold_left merge_plan_field new m0.
Proof.
  unfold merge_plan_data. intros H. apply bind_ok in H as [m0 [H0 H]].
  injection H as <-. eauto.
Qed.

Lemma merge_plan_data_returns (existing new : pydict) :
  sources_ok "sources" existing -> returns (merge_plan_data existing new).
Proof.
  intros Hok. destruct (add_source_tag_sources "sources" existing new Hok) as [m0 [H0 _]].
  unfold returns, merge_plan_data. rewrite H0. cbn [bind]. eauto.
Qed.

Lemma merged_tags_nonempty (skey : string) (existing new : pydict) :
  truthy (VList (merged_tags skey existing new)) = true.
Proof.
  unfold merged_tags, source_tags.
  destruct (existsb _ _) eqn:E.
  - destruct (dict_get skey existing) as [[| | | |l|]|]; try reflexivity.
    destruct l; [discriminate | reflexivity].
  - destruct (_ ++ _) eqn:E'; [|reflexivity]. now apply app_eq_nil in E' as [_ ?].
Qed.

Lemma merge_plan_data_sources (existing new merged : pydict) :
  merge_plan_data existing new = Ok merged ->
  sources_ok "sources" existing ->
  dict_get "sources" merged = Some (VList (merged_tags "sources" existing new)).
Proof.
  intros H Hok. apply merge_plan_data_inv in H as [m0 [H0 ->]].
  destruct (add_source_tag_sources "sources" existing new Hok) as [m [Hm Hget]].
  assert (m = m0) as -> by congruence.
  apply fold_plan_keeps; [exact Hget | apply merged_tags_nonempty].
Qed.

Lemma merge_plan_data_keeps (existing new merged : pydict) :
  merge_plan_data existing new = Ok merged ->
  keeps_existing_values "sources" existing merged.
Proof.
  intros H k v Hk Hget Hv. apply merge_plan_data_inv in H as [m0 [H0 ->]].
  apply fold_plan_keeps; [|exact Hv].
  now rewrite (add_source_tag_other _ _ _ _ _ k H0 Hk).
Qed.

Lemma merge_plan_data_gaps (existing new merged : pydict) :
  merge_plan_data existing new = Ok merged ->
  copies_only_into_gaps "sources" existing new merged.
Proof.
  intros H k Hk Hdiff. apply merge_plan_data_inv in H as [m0 [H0 ->]].
  pose proof (add_source_tag_other _ _ _ _ _ k H0 Hk) as E0.
  destruct (fold_plan_change new m0 k) as [Hsame | (Hs & Hf & v & Hin & Hv & Hget)].
  - exfalso. apply Hdiff. congruence.
  - split.
    + unfold populated, get_or_none, get_default in *. rewrite E0 in Hf. congruence.
    + exists v. auto.
Qed.




(** *** Claim C4 *)

(** C4, as stated, fails: two records with the same key that both carry a
    ['keywords'] list are merged, by either resolver, into a record that
    keeps the list of [existing] alone. *)
Lemma keyword_lists_not_concatenated :
  (generate_plan_key (ascii_model length_hash) catalogue_first
     = generate_plan_key (ascii_model length_hash) catalogue_second /\
   generate_oslo_key (ascii_model length_hash) catalogue_first
     = generate_oslo_key (ascii_model length_hash) catalogue_second) /\
  (exists merged,
     merge_oslo_data (ascii_model length_hash) catalogue_first catalogue_second = Ok merged /\
     dict_get "keywords" merged = Some (VList [VStr "plan"]) /\
     ~ concatenates_lists catalogue_first catalogue_second merged) /\
  (exists merged,
     merge_plan_data catalogue_first catalogue_second = Ok merged /\
     dict_get "keywords" merged = Some (VList [VStr "plan"]) /\
     ~ concatenates_lists catalogue_first catalogue_second merged).
Proof.
  split; [split; reflexivity|].
  split; eexists; (split; [reflexivity|]); (split; [reflexivity|]);
    intros Hcat;
    specialize (Hcat "keywords" [VStr "plan"] [VStr "regulering"] eq_refl eq_refl);
    discriminate Hcat; discriminate.
Qed.

Lemma oslo_fields_concat (B : PyBuiltins) (existing new merged : pydict)
    (f : string) (xs ys : list pyval) :
  merge_oslo_data B existing new = Ok merged ->
  In f oslo_fields ->
  dict_get f existing = Some (VList xs) -> dict_get f new = Some (VList ys) ->
  ys <> [] ->
  dict_get f merged = Some (VList (xs ++ ys)).
Proof.
  intros H Hf He Hn Hne.
  pose proof (merge_oslo_data_field B existing new merged f H Hf) as Hv.
  rewrite He, Hn in Hv. unfold oslo_field_value in Hv.
  destruct ys as [|y ys]; [congruence|]. cbn in Hv. congruence.
Qed.

Lemma oslo_fields_max (B : PyBuiltins) (existing new merged : pydict)
    (f : string) (a b : Z) :
  merge_oslo_data B existing new = Ok merged ->
  In f oslo_fields ->
  dict_get f existing = Some (VInt a) -> dict_get f new = Some (VInt b) ->
  b <> 0%Z ->
  dict_get f merged = Some (VInt (Z.max a b)).
Proof.
  intros H Hf He Hn Hne.
  pose proof (merge_oslo_data_field B existing new merged f H Hf) as Hv.
  rewrite He, Hn in Hv. unfold oslo_field_value in Hv. cbn [truthy] in Hv.
  replace (b =? 0)%Z with false in Hv by (symmetry; now apply Z.eqb_neq).
  cbn in Hv. injection Hv as <-. f_equal.
  destruct (a <? b)%Z eqn:E; [apply Z.ltb_lt in E | apply Z.ltb_ge in E]; f_equal; lia.
Qed.

(** C4, amended: in [merge_oslo_data], for each of the three fields
    ['oslo_areas'], ['oslo_terms'] and ['oslo_relevance_score']: where both
    records hold a list under it and the incoming one is not empty, the
    output is the concatenation of the two lists, duplicates kept; where both
    hold an integer and the incoming one is not zero, the output is the
    maximum of the two.  Every other attribute, list-valued or not, keeps the
    entry of [existing]; and [merge_plan_data] neither concatenates nor
    maximises, it keeps every populated value of [existing]. *)
Theorem oslo_fields_concatenate_or_maximise (B : PyBuiltins) (existing new : pydict) :
  (oslo_typed existing -> oslo_typed new -> returns (merge_oslo_data B existing new)) /\
  (forall merged, merge_oslo_data B existing new = Ok merged ->
     (forall f xs ys, In f oslo_fields ->
        dict_get f existing = Some (VList xs) -> dict_get f new = Some (VList ys) ->
        ys <> [] ->
        dict_get f merged = Some (VList (xs ++ ys))) /\
     (forall f a b, In f oslo_fields ->
        dict_get f existing = Some (VInt a) -> dict_get f new = Some (VInt b) ->
        b <> 0%Z ->
        dict_get f merged = Some (VInt (Z.max a b))) /\
     (forall k, ~ In k oslo_fields -> k <> "oslo_sources" ->
        dict_get k merged = dict_get k existing)) /\
  (forall merged, merge_plan_data existing new = Ok merged ->
     keeps_existing_values "sources" existing merged).
Proof.
  split; [|split].
  - intros He Hn. destruct (merge_oslo_data_returns B existing new He Hn) as [m [Hm _]].
    now exists m.
  - intros merged H. split; [|split].
    + intros f xs ys. now apply (oslo_fields_concat B existing new).
    + intros f a b. now apply (oslo_fields_max B existing new).
    + intros k. now apply (merge_oslo_data_other B existing new).
  - intros merged. apply merge_plan_data_keeps.
Qed.

Lemma oslo_fields_concatenate_or_maximise_witness :
  exists merged,
    merge_oslo_data (ascii_model length_hash) pdf_first pdf_second = Ok merged /\
    dict_get "oslo_areas" merged = Some (VList ([VStr "sentrum"] ++ [VStr "frogner"])) /\
    dict_get "oslo_relevance_score" merged = Some (VInt (Z.max 3 5)).
Proof.
  destruct (oslo_fields_concatenate_or_maximise (ascii_model length_hash)
              pdf_first pdf_second) as (Hret & Hprop & _).
  destruct Hret as [merged Hm]; [check_oslo_typed | check_oslo_typed |].
  destruct (Hprop merged Hm) as (Hcat & Hmax & _).
  exists merged. split; [exact Hm|]. split.
  - apply Hcat; [simpl; auto | reflexivity | reflexivity | discriminate].
  - apply Hmax; [simpl; auto | reflexivity | reflexivity | discriminate].
Defined.

(** *** Claim C5 *)

Lemma In_dict_get {V : Type} (k : string) (v : V) (d : list (string * V)) :
  List.NoDup (map fst d) -> In (k, v) d -> dict_get k d = Some v.
Proof.
  induction d as [|[k' v'] d IH]; simpl; intros Hnd Hin; [easy|].
  apply List.NoDup_cons_iff in Hnd as [Hfresh Hnd].
  destruct Hin as [[= -> ->] | Hin].
  - now rewrite String.eqb_refl.
  - destruct (k =? k')%string eqn:E; [|auto].
    apply String.eqb_eq in E. subst k'. exfalso. apply Hfresh.
    apply in_map_iff. now exists (k, v).
Qed.

Lemma merge_plan_data_self (r merged : pydict) :
  unique_keys r ->
  merge_plan_data r r = Ok merged ->
  equal_except "sources" r merged.
Proof.
  intros Hu H k Hk.
  apply merge_plan_data_inv in H as [m0 [H0 ->]].
  pose proof (add_source_tag_other _ _ _ _ _ k H0 Hk) as E0.
  destruct (fold_plan_change r m0 k) as [Hsame | (Hs & Hf & v & Hin & Hv & Hget)].
  - congruence.
  - exfalso. apply (In_dict_get k v r Hu) in Hin.
    unfold get_or_none, get_default in Hf. rewrite E0, Hin in Hf. congruence.
Qed.

Lemma oslo_field_value_self (B : PyBuiltins) (f : string) (v w : option pyval) :
  In f oslo_fields ->
  oslo_field_value B v v = Ok w -> w = self_merged_value f v.
Proof.
  intros Hf. unfold self_merged_value.
  replace (existsb (String.eqb f) oslo_fields) with true.
  2:{ symmetry. apply existsb_exists. exists f. split; [exact Hf | apply String.eqb_refl]. }
  unfold oslo_field_value.
  destruct v as [[| b | z | s | l | d]|]; cbn [truthy]; try congruence.
  - destruct b; cbn; congruence.
  - destruct (z =? 0)%Z; cbn [negb]; [congruence|].
    cbn [py_max num_of bind]. rewrite Z.ltb_irrefl. congruence.
  - destruct s; congruence.
  - destruct l; [cbn; congruence|]. cbn [py_iter bind]. congruence.
  - destruct d; congruence.
Qed.

Lemma oslo_field_value_self_returns (B : PyBuiltins) (v : option pyval) :
  returns (oslo_field_value B v v).
Proof.
  unfold returns, oslo_field_value.
  destruct v as [[| b | z | s | l | d]|]; cbn [truthy]; eauto.
  - destruct b; cbn; eauto.
  - destruct (z =? 0)%Z; cbn [negb]; [eauto|].
    cbn [py_max num_of bind]. eauto.
  - destruct s; eauto.
  - destruct l; cbn; eauto.
  - destruct d; eauto.
Qed.

Lemma merge_oslo_data_self (B : PyBuiltins) (r merged : pydict) :
  merge_oslo_data B r r = Ok merged ->
  forall k, k <> "oslo_sources" ->
            dict_get k merged = self_merged_value k (dict_get k r).
Proof.
  intros H k Hk.
  destruct (in_dec string_dec k oslo_fields) as [Hin | Hout].
  - apply (oslo_field_value_self B k).
    + exact Hin.
    + now apply merge_oslo_data_field.
  - rewrite (merge_oslo_data_other B r r merged k H Hout Hk).
    unfold self_merged_value.
    replace (existsb (String.eqb k) oslo_fields) with false.
    + now destruct (dict_get k r) as [[]|].
    + symmetry. apply not_true_is_false. intros Hex.
      apply existsb_exists in Hex as [f [Hf Heq]].
      apply String.eqb_eq in Heq. now subst.
Qed.

Lemma merge_oslo_data_self_returns (B : PyBuiltins) (r : pydict) :
  sources_ok "oslo_sources" r -> returns (merge_oslo_data B r r).
Proof.
  intros Hok.
  destruct (add_source_tag_sources "oslo_sources" r r Hok) as [m0 [H0 _]].
  pose proof (fun k => add_source_tag_other _ _ _ _ _ k H0) as Hother0.
  assert (Hstep : forall f m, dict_get f m = dict_get f r ->
                              returns (merge_oslo_field B r m f)).
  { intros f m E. destruct (oslo_field_value_self_returns B (dict_get f r)) as [v Hv].
    apply (merge_oslo_field_returns B r m f v). now rewrite E. }
  destruct (Hstep "oslo_areas" m0) as [m1 H1]; [now apply Hother0|].
  pose proof (fun k => merge_oslo_field_other B _ _ _ _ k H1) as Hother1.
  destruct (Hstep "oslo_terms" m1) as [m2 H2].
  { rewrite Hother1 by discriminate. now apply Hother0. }
  pose proof (fun k => merge_oslo_field_other B _ _ _ _ k H2) as Hother2.
  destruct (Hstep "oslo_relevance_score" m2) as [m3 H3].
  { rewrite Hother2, Hother1 by discriminate. now apply Hother0. }
  exists m3. unfold merge_oslo_data, oslo_fields. cbn [fold_result].
  rewrite H0. cbn [bind]. rewrite H1. cbn [bind]. rewrite H2. cbn [bind].
  rewrite H3. reflexivity.
Qed.

(** C5, as stated, fails for [merge_oslo_data]: merging a record into
    itself doubles its area list. *)
Lemma oslo_self_merge_doubles_areas :
  dict_get "oslo_areas" pdf_first = Some (VList [VStr "sentrum"]) /\
  exists merged,
    merge_oslo_data (ascii_model length_hash) pdf_first pdf_first = Ok merged /\
    dict_get "oslo_areas" merged = Some (VList [VStr "sentrum"; VStr "sentrum"]) /\
    ~ equal_except "oslo_sources" pdf_first merged.
Proof.
  split; [reflexivity|].
  eexists. split; [reflexivity|]. split; [reflexivity|].
  intros Heq. specialize (Heq "oslo_areas"). discriminate Heq. discriminate.
Qed.

(** C5, amended: merging a record (a dictionary, each key once) into itself
    with [merge_plan_data] yields a record equal to it on every field
    except ['sources']; with [merge_oslo_data] it yields a record equal to it
    on every field except ['oslo_sources'] and the list-valued ones among
    ['oslo_areas'], ['oslo_terms'] and ['oslo_relevance_score'], each of which
    is doubled.  Both self-merges return whenever the source list of the
    record is absent or a list. *)
Theorem self_merge (B : PyBuiltins) (r : pydict) :
  unique_keys r ->
  ((sources_ok "sources" r -> returns (merge_plan_data r r)) /\
   (forall merged, merge_plan_data r r = Ok merged -> equal_except "sources" r merged)) /\
  ((sources_ok "oslo_sources" r -> returns (merge_oslo_data B r r)) /\
   (forall merged, merge_oslo_data B r r = Ok merged ->
      forall k, k <> "oslo_sources" ->
                dict_get k merged = self_merged_value k (dict_get k r))).
Proof.
  intros Hu. split; split.
  - apply merge_plan_data_returns.
  - intros merged. now apply merge_plan_data_self.
  - apply merge_oslo_data_self_returns.
  - intros merged. apply merge_oslo_data_self.
Qed.

Lemma self_merge_witness :
  (exists merged, merge_plan_data pdf_first pdf_first = Ok merged /\
                  equal_except "sources" pdf_first merged) /\
  (exists merged, merge_oslo_data (ascii_model length_hash) pdf_first pdf_first = Ok merged /\
                  dict_get "oslo_relevance_score" merged = Some (VInt 3) /\
                  dict_get "oslo_areas" merged
                    = Some (VList ([VStr "sentrum"] ++ [VStr "sentrum"]))).
Proof.
  assert (Hu : unique_keys pdf_first).
  { unfold unique_keys. simpl. repeat constructor; simpl; intuition discriminate. }
  destruct (self_merge (ascii_model length_hash) pdf_first Hu)
    as [[Hpr Hp] [Hor Ho]].
  split.
  - destruct Hpr as [merged Hm]; [left; reflexivity|].
    exists merged. split; [exact Hm | now apply Hp].
  - destruct Hor as [merged Hm]; [left; reflexivity|].
    exists merged. split; [exact Hm|]. split.
    + rewrite (Ho merged Hm "oslo_relevance_score") by discriminate. reflexivity.
    + rewrite (Ho merged Hm "oslo_areas") by discriminate. reflexivity.
Defined.

(** *** Claim C6 *)

Lemma populated_get (k : string) (r : pydict) :
  populated k r <-> exists v, dict_get k r = Some v /\ truthy v = true.
Proof.
  unfold populated, get_or_none, get_default. split.
  - destruct (dict_get k r) as [v|]; [eauto | discriminate].
  - now intros [v [-> Hv]].
Qed.

Lemma merge_plan_data_existing_populated (existing new merged : pydict) (k : string) :
  merge_plan_data existing new = Ok merged ->
  populated k existing -> populated k merged.
Proof.
  intros H Hp. destruct (string_dec k "sources") as [-> | Hk].
  - apply merge_plan_data_inv in H as [m0 [H0 ->]].
    apply (add_source_tag_populated _ _ _ _ H0) in Hp.
    apply populated_get in Hp as [v [Hget Hv]].
    apply populated_get. exists v. split; [|exact Hv]. now apply fold_plan_keeps.
  - apply populated_get in Hp as [v [Hget Hv]].
    apply populated_get. exists v. split; [|exact Hv].
    now apply (merge_plan_data_keeps existing new merged H).
Qed.

Lemma merge_plan_data_new_populated (existing new merged : pydict) (k : string) :
  merge_plan_data existing new = Ok merged ->
  k <> "source" -> populated k new -> populated k merged.
Proof.
  intros H Hk Hp. apply merge_plan_data_inv in H as [m0 [H0 ->]].
  apply populated_get in Hp as [v [Hget Hv]].
  apply (fold_plan_fills new m0 k v); auto. now apply dict_get_In.
Qed.

Lemma oslo_field_value_keeps_populated (B : PyBuiltins) (v : pyval) (nv w : option pyval) :
  truthy v = true ->
  oslo_field_value B (Some v) nv = Ok w ->
  exists v', w = Some v' /\ truthy v' = true.
Proof.
  intros Hv. unfold oslo_field_value.
  destruct nv as [n|]; [|intros [= <-]; eauto].
  destruct (truthy n) eqn:Hn; [|intros [= <-]; eauto].
  destruct v as [| b | z | s | l | d]; try (intros [= <-]; eauto).
  - intros H. apply bind_ok in H as [m [Hm [= <-]]]. exists m. split; [reflexivity|].
    unfold py_max in Hm. cbn [num_of] in Hm.
    destruct (num_of n); [|discriminate]. injection Hm as <-. now destruct (_ <? _)%Z.
  - intros H. apply bind_ok in H as [m [Hm [= <-]]]. exists m. split; [reflexivity|].
    unfold py_max in Hm. cbn [num_of] in Hm.
    destruct (num_of n); [|discriminate]. injection Hm as <-. now destruct (_ <? _)%Z.
  - intros H. apply bind_ok in H as [items [_ [= <-]]]. eexists. split; [reflexivity|].
    destruct l; [discriminate | reflexivity].
Qed.

Lemma merge_oslo_data_existing_populated (B : PyBuiltins)
    (existing new merged : pydict) (k : string) :
  merge_oslo_data B existing new = Ok merged ->
  populated k existing -> populated k merged.
Proof.
  intros H Hp.
  destruct (string_dec k "oslo_sources") as [-> | Hk].
  { now apply (merge_oslo_data_sources_populated B existing new). }
  destruct (in_dec string_dec k oslo_fields) as [Hin | Hout].
  - pose proof (merge_oslo_data_field B existing new merged k H Hin) as Hval.
    apply populated_get in Hp as [v [Hget Hv]]. rewrite Hget in Hval.
    destruct (oslo_field_value_keeps_populated B v _ _ Hv Hval) as [v' [E Hv']].
    apply populated_get. eauto.
  - unfold populated, get_or_none, get_default in *.
    now rewrite (merge_oslo_data_other B existing new merged k H Hout Hk).
Qed.

Lemma merge_oslo_data_new_populated (B : PyBuiltins)
    (existing new merged : pydict) (f : string) :
  merge_oslo_data B existing new = Ok merged ->
  In f oslo_fields -> populated f new ->
  dict_get f existing = None \/
  (field_is is_list f existing /\ field_is is_list f new) \/
  (exists a b, dict_get f existing = Some (VInt a) /\ dict_get f new = Some (VInt b)
               /\ (0 < b)%Z) ->
  populated f merged.
Proof.
  intros H Hin Hp Hcase.
  pose proof (merge_oslo_data_field B existing new merged f H Hin) as Hval.
  apply populated_get in Hp as [n [Hn Hnv]]. rewrite Hn in Hval.
  unfold oslo_field_value in Hval. rewrite Hnv in Hval.
  apply populated_get.
  destruct Hcase as [Habs | [[Hle Hln] | (a & b & Ha & Hb & Hpos)]].
  - rewrite Habs in Hval. injection Hval as <-. eauto.
  - destruct (dict_get f existing) as [e|] eqn:Ee.
    + destruct (Hle e Ee) as [le [-> _]]. destruct (Hln n Hn) as [ln [-> _]].
      cbn [py_iter bind] in Hval. injection Hval as <-.
      eexists. split; [reflexivity|].
      destruct ln; [discriminate|]. now destruct le.
    + injection Hval as <-. eauto.
  - rewrite Ha in Hval. assert (n = VInt b) as -> by congruence.
    cbn [py_max num_of bind] in Hval. injection Hval as <-.
    eexists. split; [reflexivity|].
    destruct (a <? b)%Z eqn:E; [exact Hnv|].
    apply Z.ltb_ge in E. cbn [truthy]. apply negb_true_iff. apply Z.eqb_neq. lia.
Qed.

(** C6, as stated, fails: [merge_oslo_data] drops the populated title of
    the incoming record, and [merge_plan_data] drops the populated
    ['source'] of the incoming record (it only enters the ['sources'] list). *)
Lemma merge_drops_incoming_attributes :
  (populated "title" pdf_second /\
   exists merged,
     merge_oslo_data (ascii_model length_hash) pdf_first pdf_second = Ok merged /\
     dict_get "title" merged = None /\
     ~ carries_populated pdf_first pdf_second merged) /\
  (populated "source" catalogue_first /\
   exists merged,
     merge_plan_data untagged_plan catalogue_first = Ok merged /\
     dict_get "source" merged = None /\
     ~ carries_populated untagged_plan catalogue_first merged).
Proof.
  split; (split; [reflexivity|]); eexists; (split; [reflexivity|]);
    (split; [reflexivity|]); intros Hc.
  - specialize (Hc "title" (or_intror eq_refl)). discriminate Hc.
  - specialize (Hc "source" (or_intror eq_refl)). discriminate Hc.
Qed.

(** C6, amended: every attribute populated in [existing] is populated in
    the output of both resolvers.  Of the attributes populated in the
    incoming record, [merge_plan_data] carries over all but ['source'];
    [merge_oslo_data] carries over only ['oslo_areas'], ['oslo_terms'] and
    ['oslo_relevance_score'], namely when [existing] lacks the field, when
    both hold lists, or when both hold integers and the incoming one is
    positive.  [merge_plan_data] returns whenever ['sources'] of [existing]
    is absent or a list, and [merge_oslo_data] returns on typed records. *)
Theorem merge_population (B : PyBuiltins) (existing new : pydict) :
  ((sources_ok "sources" existing -> returns (merge_plan_data existing new)) /\
   (forall merged, merge_plan_data existing new = Ok merged ->
      (forall k, populated k existing -> populated k merged) /\
      (forall k, k <> "source" -> populated k new -> populated k merged))) /\
  ((oslo_typed existing -> oslo_typed new -> returns (merge_oslo_data B existing new)) /\
   (forall merged, merge_oslo_data B existing new = Ok merged ->
      (forall k, populated k existing -> populated k merged) /\
      (forall f, In f oslo_fields -> populated f new ->
         dict_get f existing = None \/
         (field_is is_list f existing /\ field_is is_list f new) \/
         (exists a b, dict_get f existing = Some (VInt a) /\
                      dict_get f new = Some (VInt b) /\ (0 < b)%Z) ->
         populated f merged))).
Proof.
  split; split.
  - apply merge_plan_data_returns.
  - intros merged H. split; intros k.
    + now apply (merge_plan_data_existing_populated existing new).
    + now apply (merge_plan_data_new_populated existing new).
  - intros He Hn. destruct (merge_oslo_data_returns B existing new He Hn) as [m [Hm _]].
    now exists m.
  - intros merged H. split.
    + intros k. now apply (merge_oslo_data_existing_populated B existing new).
    + intros f. now apply (merge_oslo_data_new_populated B existing new).
Qed.

Lemma merge_population_witness :
  (exists merged, merge_plan_data catalogue_first catalogue_second = Ok merged /\
                  populated "keywords" merged /\ populated "status" merged) /\
  (exists merged, merge_oslo_data (ascii_model length_hash) pdf_first pdf_second = Ok merged /\
                  populated "plan_id" merged /\ populated "oslo_areas" merged).
Proof.
  destruct (merge_population (ascii_model length_hash) catalogue_first catalogue_second)
    as [[Hpr Hp] _].
  destruct (merge_population (ascii_model length_hash) pdf_first pdf_second)
    as [_ [Hor Ho]].
  split.
  - destruct Hpr as [merged Hm]; [left; reflexivity|].
    destruct (Hp merged Hm) as [Hex Hnew].
    exists merged. split; [exact Hm|]. split.
    + apply Hex. reflexivity.
    + apply Hnew; [discriminate | reflexivity].
  - destruct Hor as [merged Hm]; [check_oslo_typed | check_oslo_typed |].
    destruct (Ho merged Hm) as [Hex Hnew].
    exists merged. split; [exact Hm|]. split.
    + apply Hex. reflexivity.
    + apply Hnew; [simpl; auto | reflexivity |].
      right. left. split; check_field.
Defined.

(** ** Aggregation passes (claims C8, C9) *)

Lemma fold_result_ext {A S : Type} (f g : S -> A -> result S) (l : list A) (s : S) :
  (forall s a, f s a = g s a) -> fold_result f l s = fold_result g l s.
Proof.
  intros Hfg. revert s. induction l as [|a l IH]; intros s; simpl; [reflexivity|].
  rewrite Hfg. destruct (g s a); simpl; auto.
Qed.

(** *** Claim C8 *)

Lemma generate_oslo_key_same_buckets (B : PyBuiltins) (h1 h2 : string -> Z) (item : pydict) :
  (forall s, (h1 s mod 1000 = h2 s mod 1000)%Z) ->
  generate_oslo_key (with_hash B h1) item = generate_oslo_key (with_hash B h2) item.
Proof.
  intros Hh. unfold generate_oslo_key.
  destruct (get_default "title" (VStr "") item) as [| b | z | t | l | d];
    try reflexivity.
  cbn [lower_method bind str_lower with_hash]. unfold hash_bucket.
  cbn [py_hash with_hash].
  change (py_str (with_hash B h1)) with (py_str (with_hash B h2)).
  now rewrite !Hh.
Qed.

Lemma unify_oslo_same_buckets (B : PyBuiltins) (h1 h2 : string -> Z) (items : list pydict) :
  (forall s, (h1 s mod 1000 = h2 s mod 1000)%Z) ->
  unify_oslo (with_hash B h1) items = unify_oslo (with_hash B h2) items.
Proof.
  intros Hh. unfold unify_oslo. apply fold_result_ext. intros unified item.
  now rewrite (generate_oslo_key_same_buckets B h1 h2 item Hh).
Qed.

Lemma int_str_inj (a b : Z) : int_str a = int_str b -> a = b.
Proof.
  unfold int_str. intros H.
  assert (Hnil : forall z, Z.to_int z <> Decimal.Pos Decimal.Nil
                           /\ Z.to_int z <> Decimal.Neg Decimal.Nil).
  { intros z. split; intros E; pose proof (f_equal Z.of_int E) as E';
      rewrite DecimalZ.of_to in E'; cbn in E'; subst z; discriminate E. }
  apply DecimalZ.to_int_inj.
  destruct (Hnil a) as [Ha1 Ha2]. destruct (Hnil b) as [Hb1 Hb2].
  pose proof (NilZero.isi (Z.to_int a) Ha1 Ha2) as Ea.
  pose proof (NilZero.isi (Z.to_int b) Hb1 Hb2) as Eb.
  rewrite H in Ea. congruence.
Qed.

(** Whatever the hash function, the two sample datasets become one unified
    record exactly when their string forms fall into the same bucket. *)
Lemma sample_pair_unified_by_bucket (hash : string -> Z) :
  exists r,
    cross_reference_oslo_data (ascii_model hash)
      [sample_byggetillatelser; sample_eiendomsdata] [] [] = Ok r /\
    length (oslo_unified_data r)
    = if (hash (string_form sample_byggetillatelser) mod 1000
          =? hash (string_form sample_eiendomsdata) mod 1000)%Z
      then 1 else 2.
Proof.
  set (b1 := (hash (string_form sample_byggetillatelser) mod 1000)%Z).
  set (b2 := (hash (string_form sample_eiendomsdata) mod 1000)%Z).
  assert (Hk1 : generate_oslo_key (ascii_model hash) sample_byggetillatelser
                = Ok ("oslo_general_" ++ int_str b1)%string) by reflexivity.
  assert (Hk2 : generate_oslo_key (ascii_model hash) sample_eiendomsdata
                = Ok ("oslo_general_" ++ int_str b2)%string) by reflexivity.
  clearbody b1 b2.
  unfold cross_reference_oslo_data, unify_oslo. cbn [app fold_result].
  rewrite Hk1. cbn [bind dict_get dict_set]. rewrite Hk2. cbn [bind dict_get].
  destruct (Z.eqb_spec b1 b2) as [E | E].
  - subst b2. rewrite String.eqb_refl.
    destruct (merge_oslo_data (ascii_model hash) sample_byggetillatelser
                sample_eiendomsdata) as [merged|e] eqn:Em; [|discriminate Em].
    cbn [bind dict_set].
    destruct (assess_oslo_coverage (ascii_model hash) _) as [coverage|e] eqn:Ec.
    + cbn [bind]. eexists. split; reflexivity.
    + exfalso. revert Ec. vm_compute in Em. injection Em as <-. discriminate.
  - replace ("oslo_general_" ++ int_str b2 =? "oslo_general_" ++ int_str b1)%string
      with false.
    2:{ symmetry. apply String.eqb_neq. intros H. apply E.
        injection H as H. now apply int_str_inj in H. }
    cbn [bind dict_set].
    destruct (assess_oslo_coverage (ascii_model hash) _) as [coverage|e] eqn:Ec.
    + cbn [bind]. eexists. split; reflexivity.
    + discriminate Ec.
Qed.


(** *** Claim C9 *)

Lemma fold_result_returns {A S : Type} (P : S -> Prop) (f : S -> A -> result S)
    (l : list A) (s : S) :
  (forall s0 a, In a l -> P s0 -> exists s1, f s0 a = Ok s1 /\ P s1) ->
  P s -> exists s', fold_result f l s = Ok s' /\ P s'.
Proof.
  revert s. induction l as [|a l IH]; simpl; intros s Hstep Hs; [eauto|].
  destruct (Hstep s a) as [s1 [H1 P1]]; auto.
  rewrite H1. cbn [bind]. apply IH; auto.
Qed.

Lemma Forall_dict_set {V : Type} (P : string * V -> Prop) (k : string) (v : V)
    (d : list (string * V)) :
  List.Forall P d -> P (k, v) -> List.Forall P (dict_set k v d).
Proof.
  intros Hd Hkv. induction d as [|[k' v'] d IH]; simpl.
  - now constructor.
  - inversion Hd; subst. destruct (k =? k')%string; constructor; auto.
Qed.

Lemma found_areas_known (B : PyBuiltins) (text : string) :
  List.Forall known_area (map VStr (found_areas B text)).
Proof.
  apply List.Forall_forall. intros v Hv. apply in_map_iff in Hv as [a [<- Ha]].
  exists a. split; [reflexivity|]. unfold found_areas in Ha.
  now apply List.filter_In in Ha as [Ha _].
Qed.

Lemma areas_from_classifier_known (B : PyBuiltins) (item : pydict) :
  areas_from_classifier B item -> areas_known item.
Proof.
  intros H v Hv. destruct (H v Hv) as [text ->].
  exists (map VStr (found_areas B text)). split; [reflexivity | apply found_areas_known].
Qed.

Lemma merge_oslo_data_areas_known (B : PyBuiltins) (existing new merged : pydict) :
  merge_oslo_data B existing new = Ok merged ->
  areas_known existing -> areas_known new -> areas_known merged.
Proof.
  intros H He Hn v Hv.
  pose proof (merge_oslo_data_field B existing new merged "oslo_areas" H) as Hval.
  specialize (Hval ltac:(simpl; auto)). rewrite Hv in Hval.
  unfold oslo_field_value in Hval.
  destruct (dict_get "oslo_areas" new) as [nv|] eqn:En.
  - destruct (Hn nv En) as [ln [-> Kn]].
    destruct (truthy (VList ln)).
    + destruct (dict_get "oslo_areas" existing) as [ev|] eqn:Ee.
      * destruct (He ev Ee) as [le [-> Ke]]. cbn [py_iter bind] in Hval.
        injection Hval as <-. exists (le ++ ln). split; [reflexivity|].
        apply List.Forall_app. auto.
      * injection Hval as <-. exists ln. auto.
    + destruct (dict_get "oslo_areas" existing) as [ev|] eqn:Ee; [|discriminate].
      injection Hval as <-. now apply He.
  - destruct (dict_get "oslo_areas" existing) as [ev|] eqn:Ee; [|discriminate].
    injection Hval as <-. now apply He.
Qed.

(** One round of the keyed fold, on a dictionary whose records satisfy [P]. *)
Lemma unify_oslo_step (B : PyBuiltins) (P : pydict -> Prop)
    (unified unified' : list (string * pydict)) (item : pydict) :
  (forall existing merged,
     P existing -> merge_oslo_data B existing item = Ok merged -> P merged) ->
  P item ->
  List.Forall (fun kv => P (snd kv)) unified ->
  (do oslo_key <- generate_oslo_key B item;
   match dict_get oslo_key unified with
   | Some existing =>
       do merged <- merge_oslo_data B existing item;
       Ok (dict_set oslo_key merged unified)
   | None => Ok (dict_set oslo_key item unified)
   end) = Ok unified' ->
  List.Forall (fun kv => P (snd kv)) unified'.
Proof.
  intros Hmerge Hitem Hu H.
  apply bind_ok in H as [key [_ H]].
  destruct (dict_get key unified) as [existing|] eqn:E.
  - apply bind_ok in H as [merged [Hm H]]. injection H as <-.
    apply Forall_dict_set; [exact Hu|]. cbn [snd].
    apply (Hmerge existing); [|exact Hm].
    apply dict_get_In in E. rewrite List.Forall_forall in Hu. exact (Hu _ E).
  - injection H as <-. now apply Forall_dict_set.
Qed.

Lemma unify_oslo_areas_known (B : PyBuiltins) (items : list pydict)
    (unified : list (string * pydict)) :
  List.Forall areas_known items ->
  unify_oslo B items = Ok unified ->
  List.Forall (fun kv => areas_known (snd kv)) unified.
Proof.
  intros Hitems H. unfold unify_oslo in H.
  apply (fold_result_ok_inv (List.Forall (fun kv => areas_known (snd kv))) _ _ _ _)
    with (3 := H); [|constructor].
  intros u item u' Hin Hu Hstep.
  rewrite List.Forall_forall in Hitems.
  apply (unify_oslo_step B areas_known u u' item); auto.
  intros existing merged He Hm.
  apply (merge_oslo_data_areas_known B existing item merged Hm He). auto.
Qed.

Lemma set_add_area (covered : list pyval) (x : pyval) :
  area_set covered -> known_area x ->
  exists covered', set_add covered x = Ok covered' /\ area_set covered'.
Proof.
  intros [Hk Hnd] [a [-> Ha]]. unfold set_add. cbn [hashable].
  destruct (existsb (py_eq (VStr a)) covered) eqn:E.
  - eexists. split; [reflexivity | now split].
  - eexists. split; [reflexivity|]. split.
    + apply List.Forall_app. split; [exact Hk|]. repeat constructor. now exists a.
    + apply List.NoDup_app; [exact Hnd | repeat constructor; intros [] |].
      intros y Hy [<- | []].
      apply in_existsb_py_eq_text in Hy. congruence.
Qed.

Lemma covered_areas_of_area_set (B : PyBuiltins) (items : list pydict) :
  List.Forall areas_known items ->
  exists covered, covered_areas_of B items = Ok covered /\ area_set covered.
Proof.
  intros Hitems. unfold covered_areas_of.
  apply (fold_result_returns area_set); [|split; constructor].
  intros covered item Hin Hc.
  rewrite List.Forall_forall in Hitems. specialize (Hitems item Hin).
  destruct (dict_get "oslo_areas" item) as [areas|] eqn:E; [|eauto].
  destruct (Hitems areas E) as [l [-> Hl]]. cbn [py_iter bind].
  apply (fold_result_returns area_set); [|exact Hc].
  intros c x Hx Hc'. apply set_add_area; [exact Hc'|].
  rewrite List.Forall_forall in Hl. auto.
Qed.

Lemma area_set_bound (covered : list pyval) :
  area_set covered -> length covered <= length oslo_omrader.
Proof.
  intros [Hk Hnd]. rewrite <- (length_map VStr oslo_omrader).
  apply List.NoDup_incl_length; [exact Hnd|].
  intros v Hv. rewrite List.Forall_forall in Hk.
  destruct (Hk v Hv) as [a [-> Ha]]. now apply in_map.
Qed.

Lemma generate_oslo_key_returns (B : PyBuiltins) (item : pydict) :
  field_is is_text "title" item -> returns (generate_oslo_key B item).
Proof.
  intros Ht.
  assert (Htitle : exists t, get_default "title" (VStr "") item = VStr t).
  { unfold get_default. destruct (dict_get "title" item) as [v|] eqn:E; [|eauto].
    destruct (Ht v E) as [t ->]. eauto. }
  destruct Htitle as [t Htitle].
  destruct (oslo_key_prefix B item t Htitle) as [rest Hkey].
  eexists. exact Hkey.
Qed.

Lemma unify_oslo_returns (B : PyBuiltins) (items : list pydict) :
  List.Forall (collector_record B) items ->
  exists unified,
    unify_oslo B items = Ok unified /\
    List.Forall (fun kv => oslo_typed (snd kv)) unified.
Proof.
  intros Hitems. unfold unify_oslo.
  apply (fold_result_returns (List.Forall (fun kv => oslo_typed (snd kv))));
    [|constructor].
  intros u item Hin Hu.
  rewrite List.Forall_forall in Hitems. destruct (Hitems item Hin) as (Ht & Hty & _).
  destruct (generate_oslo_key_returns B item Ht) as [key Hkey].
  rewrite Hkey. cbn [bind].
  destruct (dict_get key u) as [existing|] eqn:E.
  - assert (He : oslo_typed existing).
    { apply dict_get_In in E. rewrite List.Forall_forall in Hu. exact (Hu _ E). }
    destruct (merge_oslo_data_returns B existing item He Hty) as [merged [Hm Hmt]].
    rewrite Hm. cbn [bind]. eexists. split; [reflexivity|].
    now apply Forall_dict_set.
  - eexists. split; [reflexivity|]. now apply Forall_dict_set.
Qed.

Lemma assess_oslo_coverage_bound (B : PyBuiltins) (unified : list (string * pydict)) :
  List.Forall (fun kv => areas_known (snd kv)) unified ->
  exists coverage,
    assess_oslo_coverage B unified = Ok coverage /\
    covered_oslo_areas coverage <= total_oslo_areas coverage /\
    (coverage_percentage coverage <= 100)%Q.
Proof.
  intros Hu. unfold assess_oslo_coverage.
  destruct (covered_areas_of_area_set B (dict_values unified)) as [covered [Hc Hset]].
  { unfold dict_values. apply List.Forall_forall. intros r Hr.
    apply in_map_iff in Hr as [kv [<- Hkv]].
    rewrite List.Forall_forall in Hu. now apply Hu. }
  rewrite Hc. cbn [bind]. eexists. split; [reflexivity|].
  pose proof (area_set_bound covered Hset) as Hlen.
  cbn [covered_oslo_areas total_oslo_areas coverage_percentage].
  split; [exact Hlen|].
  change (length oslo_omrader) with 16 in *.
  unfold Qle, Qdiv, Qmult, Qinv, inject_Z. simpl. lia.
Qed.

(** C9: when every record's area list was produced by the classifier,
    i.e. is the [found_areas] of some text, every coverage summary the Oslo
    pass produces counts at most as many covered areas as there are
    configured areas, and its coverage percentage is at most 100; and on
    records as the collectors build them the pass does produce a summary. *)
Theorem coverage_within_total (B : PyBuiltins) (origo reguleringsplaner pdfs : list pydict) :
  List.Forall (areas_from_classifier B) (origo ++ reguleringsplaner ++ pdfs) ->
  (List.Forall (collector_record B) (origo ++ reguleringsplaner ++ pdfs) ->
   returns (cross_reference_oslo_data B origo reguleringsplaner pdfs)) /\
  (forall r, cross_reference_oslo_data B origo reguleringsplaner pdfs = Ok r ->
     covered_oslo_areas (oslo_coverage_of r) <= total_oslo_areas (oslo_coverage_of r) /\
     (coverage_percentage (oslo_coverage_of r) <= 100)%Q).
Proof.
  intros Hcls.
  assert (Hknown : List.Forall areas_known (origo ++ reguleringsplaner ++ pdfs)).
  { eapply List.Forall_impl; [|exact Hcls]. apply areas_from_classifier_known. }
  assert (Hcov : forall unified,
            unify_oslo B (origo ++ reguleringsplaner ++ pdfs) = Ok unified ->
            exists coverage,
              assess_oslo_coverage B unified = Ok coverage /\
              covered_oslo_areas coverage <= total_oslo_areas coverage /\
              (coverage_percentage coverage <= 100)%Q).
  { intros unified Hu. apply assess_oslo_coverage_bound.
    now apply (unify_oslo_areas_known B (origo ++ reguleringsplaner ++ pdfs)). }
  unfold cross_reference_oslo_data. split.
  - intros Hrec. destruct (unify_oslo_returns B _ Hrec) as [unified [Hu _]].
    destruct (Hcov unified Hu) as [coverage [Ha _]].
    rewrite Hu. cbn [bind]. rewrite Ha. cbn [bind]. eexists. reflexivity.
  - intros r H. apply bind_ok in H as [unified [Hu H]].
    destruct (Hcov unified Hu) as [coverage [Ha Hbound]].
    rewrite Ha in H. cbn [bind] in H. injection H as <-. exact Hbound.
Qed.

Lemma pdf_record_collector (B : PyBuiltins) (plan_id text : string) :
  collector_record B (pdf_record B plan_id text).
Proof.
  split; [|split].
  - intros v H. discriminate H.
  - repeat split; try (intros v H; discriminate H); [|left; reflexivity].
    intros v H. injection H as <-. eexists. split; [reflexivity | exact I].
  - intros v H. injection H as <-. now exists text.
Qed.

Lemma coverage_within_total_witness :
  exists r,
    cross_reference_oslo_data (ascii_model length_hash) []  []
      [ pdf_record (ascii_model length_hash) "P-1" "Detaljregulering for Frogner og Sentrum";
        pdf_record (ascii_model length_hash) "P-1" "Omregulering Sagene, Frogner" ] = Ok r /\
    covered_oslo_areas (oslo_coverage_of r) <= total_oslo_areas (oslo_coverage_of r) /\
    (coverage_percentage (oslo_coverage_of r) <= 100)%Q.
Proof.
  assert (Hrec : List.Forall (collector_record (ascii_model length_hash))
            ([] ++ [] ++
             [ pdf_record (ascii_model length_hash) "P-1"
                 "Detaljregulering for Frogner og Sentrum";
               pdf_record (ascii_model length_hash) "P-1"
                 "Omregulering Sagene, Frogner" ])).
  { repeat constructor; apply pdf_record_collector. }
  assert (Hcls : List.Forall (areas_from_classifier (ascii_model length_hash))
            ([] ++ [] ++
             [ pdf_record (ascii_model length_hash) "P-1"
                 "Detaljregulering for Frogner og Sentrum";
               pdf_record (ascii_model length_hash) "P-1"
                 "Omregulering Sagene, Frogner" ])).
  { eapply List.Forall_impl; [|exact Hrec]. now intros item (_ & _ & H). }
  destruct (coverage_within_total (ascii_model length_hash) [] [] _ Hcls) as [Hret Hbound].
  destruct (Hret Hrec) as [r Hr].
  exists r. split; [exact Hr | exact (Hbound r Hr)].
Defined.

(** ** The store model (claim C10) *)

Lemma store_extends_refl (st : store) : store_extends st st.
Proof. intros l xs H. exists []. now rewrite app_nil_r. Qed.

Lemma store_extends_trans (st1 st2 st3 : store) :
  store_extends st1 st2 -> store_extends st2 st3 -> store_extends st1 st3.
Proof.
  intros H12 H23 l xs H. destruct (H12 l xs H) as [zs Hz].
  destruct (H23 l _ Hz) as [ws Hw]. exists (zs ++ ws). now rewrite app_assoc.
Qed.

Lemma store_get_lookup (st : store) (l : loc) (xs : list pyval) :
  st !! l = Some xs -> store_get st l = xs.
Proof. unfold store_get. now intros ->. Qed.

Lemma store_extends_alloc (st : store) (xs : list pyval) :
  store_extends st (st ++ [xs]).
Proof.
  intros l ys H. exists []. rewrite app_nil_r, lookup_app_l; [exact H|].
  now apply lookup_lt_Some in H.
Qed.

Lemma store_extends_grow (st : store) (l : loc) (items : list pyval) :
  store_extends st (<[l := store_get st l ++ items]> st).
Proof.
  intros l0 xs H. destruct (Nat.eq_dec l l0) as [-> | Hne].
  - exists items. rewrite list_lookup_insert_eq by now apply lookup_lt_Some in H.
    now rewrite (store_get_lookup st l0 xs H).
  - exists []. rewrite app_nil_r. now rewrite list_lookup_insert_ne.
Qed.

Lemma store_grow_at (st : store) (l : loc) (xs items : list pyval) :
  st !! l = Some xs ->
  <[l := store_get st l ++ items]> st !! l = Some (xs ++ items).
Proof.
  intros H. rewrite list_lookup_insert_eq by now apply lookup_lt_Some in H.
  now rewrite (store_get_lookup st l xs H).
Qed.

(** *** The source bookkeeping on the store *)

Lemma add_source_tag_h_inv (skey : string) (st st' : store)
    (existing new merged' : hrecord) :
  add_source_tag_h skey st existing new existing = Ok (st', merged') ->
  store_extends st st' /\
  (forall k, k <> skey -> dict_get k merged' = dict_get k existing) /\
  (forall l, l < length st -> dict_get skey existing <> Some (HList l) ->
             st' !! l = st !! l /\ dict_get skey merged' <> Some (HList l)).
Proof.
  unfold add_source_tag_h, dict_has. intros H.
  destruct (dict_get skey existing) as [srcs|] eqn:E; cbn [fst snd] in H.
  - rewrite E in H. apply bind_ok in H as [present [_ H]].
    destruct present.
    + injection H as <- <-. split; [apply store_extends_refl|].
      split; [reflexivity|]. intros l _ Hl. now rewrite E.
    + destruct srcs; try discriminate. injection H as <- <-.
      split; [apply store_extends_grow|]. split; [reflexivity|].
      intros l0 _ Hl. rewrite E. split; [|exact Hl].
      apply list_lookup_insert_ne. congruence.
  - rewrite dict_get_set_eq in H. apply bind_ok in H as [present [_ H]].
    assert (Hother : forall k, k <> skey ->
              dict_get k (dict_set skey (HList (length st)) existing) = dict_get k existing).
    { intros k Hk. apply dict_get_set_ne. congruence. }
    assert (Hfresh : forall l, l < length st ->
              dict_get skey (dict_set skey (HList (length st)) existing) <> Some (HList l)).
    { intros l Hl. rewrite dict_get_set_eq. intros [= E']. lia. }
    destruct present.
    + injection H as <- <-. split; [apply store_extends_alloc|].
      split; [exact Hother|]. intros l Hl _. split; [now apply lookup_app_l | auto].
    + injection H as <- <-. split.
      * eapply store_extends_trans; [apply store_extends_alloc | apply store_extends_grow].
      * split; [exact Hother|]. intros l Hl _. split; [|auto].
        rewrite list_lookup_insert_ne by lia. now apply lookup_app_l.
Qed.

Lemma py_max_h_cases (st : store) (a b m : hval) :
  py_max_h st a b = Ok m -> m = a \/ m = b.
Proof.
  unfold py_max_h. destruct (num_of (load st a)); [|discriminate].
  destruct (num_of (load st b)); [|discriminate].
  intros [= <-]. destruct (_ <? _)%Z; auto.
Qed.

(** *** One round of the field loop on the store *)

Section OsloStoreFacts.
Variable B : PyBuiltins.

Lemma merge_oslo_field_h_inv (new : hrecord) (st st' : store) (merged merged' : hrecord)
    (g : string) :
  merge_oslo_field_h B new (st, merged) g = Ok (st', merged') ->
  store_extends st st' /\
  (forall k, k <> g -> dict_get k merged' = dict_get k merged) /\
  (forall k v, dict_get k merged' = Some v ->
               dict_get k merged = Some v \/ dict_get k new = Some v) /\
  (forall l, dict_get g merged <> Some (HList l) -> st' !! l = st !! l) /\
  length st' = length st.
Proof.
  unfold merge_oslo_field_h. cbn [fst snd]. intros H.
  assert (Hsame : (st', merged') = (st, merged) ->
    store_extends st st' /\
    (forall k, k <> g -> dict_get k merged' = dict_get k merged) /\
    (forall k v, dict_get k merged' = Some v ->
                 dict_get k merged = Some v \/ dict_get k new = Some v) /\
    (forall l, dict_get g merged <> Some (HList l) -> st' !! l = st !! l) /\
    length st' = length st).
  { intros [= -> ->]. split; [apply store_extends_refl|]. repeat split; auto. }
  assert (Hset : forall v, st' = st -> merged' = dict_set g v merged ->
    dict_get g merged = Some v \/ dict_get g new = Some v ->
    store_extends st st' /\
    (forall k, k <> g -> dict_get k merged' = dict_get k merged) /\
    (forall k v, dict_get k merged' = Some v ->
                 dict_get k merged = Some v \/ dict_get k new = Some v) /\
    (forall l, dict_get g merged <> Some (HList l) -> st' !! l = st !! l) /\
    length st' = length st).
  { intros v -> -> Hv. split; [apply store_extends_refl|].
    split; [intros k Hk; apply dict_get_set_ne; congruence|].
    split; [|split; auto].
    intros k w. rewrite dict_get_set. destruct (g =? k)%string eqn:Eg; [|auto].
    apply String.eqb_eq in Eg. subst k. now intros [= <-]. }
  destruct (dict_get g new) as [nv|] eqn:En; [|apply Hsame; congruence].
  destruct (truthy (load st nv)); [|apply Hsame; congruence].
  destruct (dict_get g merged) as [mv|] eqn:Em.
  - destruct mv as [| b | z | s | d | l]; try (apply Hsame; congruence).
    + apply bind_ok in H as [m [Hm H]]. injection H as <- <-.
      apply (Hset m); auto.
      destruct (py_max_h_cases _ _ _ _ Hm) as [-> | ->]; auto.
    + apply bind_ok in H as [m [Hm H]]. injection H as <- <-.
      apply (Hset m); auto.
      destruct (py_max_h_cases _ _ _ _ Hm) as [-> | ->]; auto.
    + apply bind_ok in H as [items [_ H]]. injection H as <- <-.
      split; [apply store_extends_grow|]. split; [auto|]. split; [auto|].
      split; [|apply length_insert].
      intros l0 Hl0. apply list_lookup_insert_ne. congruence.
  - injection H as <- <-. apply (Hset nv); auto.
Qed.

(** The round for a field under which both records hold a list appends the
    incoming list to the object of [merged]. *)
Lemma merge_oslo_field_h_extend (new : hrecord) (st st' : store) (merged merged' : hrecord)
    (f : string) (l l' : loc) (xs ys : list pyval) :
  merge_oslo_field_h B new (st, merged) f = Ok (st', merged') ->
  dict_get f merged = Some (HList l) -> st !! l = Some xs ->
  dict_get f new = Some (HList l') -> st !! l' = Some ys -> ys <> [] ->
  st' !! l = Some (xs ++ ys) /\ merged' = merged.
Proof.
  unfold merge_oslo_field_h. cbn [fst snd]. intros H Hm Hl Hn Hl' Hys.
  rewrite Hn in H. cbn [load] in H. rewrite (store_get_lookup st l' ys Hl') in H.
  destruct ys as [|y ys]; [congruence|]. cbn [truthy] in H.
  rewrite Hm in H. cbn [py_iter bind] in H. injection H as <- <-.
  split; [now apply store_grow_at | reflexivity].
Qed.
End OsloStoreFacts.

Section OsloStoreFold.
Variable B : PyBuiltins.

Lemma only_under_step (f : string) (l : loc) (new merged merged' : hrecord) :
  (forall k v, dict_get k merged' = Some v ->
               dict_get k merged = Some v \/ dict_get k new = Some v) ->
  only_under f l merged -> only_under f l new -> only_under f l merged'.
Proof.
  intros Hent Hm Hn g Hg Hget.
  destruct (Hent g _ Hget) as [H | H]; [now apply (Hm g) | now apply (Hn g)].
Qed.

Lemma fold_fields_h_inv (new : hrecord) (fields : list string)
    (st st' : store) (merged merged' : hrecord) :
  fold_result (merge_oslo_field_h B new) fields (st, merged) = Ok (st', merged') ->
  store_extends st st' /\
  (forall k, ~ In k fields -> dict_get k merged' = dict_get k merged).
Proof.
  revert st merged. induction fields as [|g rest IH]; intros st merged H.
  - injection H as <- <-. split; [apply store_extends_refl | auto].
  - cbn [fold_result] in H. apply bind_ok in H as [[st1 m1] [H1 H2]].
    apply merge_oslo_field_h_inv in H1 as (Hext & Hother & _).
    destruct (IH st1 m1 H2) as [Hext' Hother'].
    split; [now apply store_extends_trans with st1|].
    intros k Hk. rewrite Hother' by (intros Hin; apply Hk; now right).
    apply Hother. intros ->. apply Hk. now left.
Qed.

(** Rounds for other fields leave an object alone that only the entry under
    [f] refers to. *)
Lemma fold_fields_h_frame (new : hrecord) (f : string) (l : loc) (fields : list string)
    (st st' : store) (merged merged' : hrecord) :
  ~ In f fields ->
  only_under f l merged -> only_under f l new ->
  fold_result (merge_oslo_field_h B new) fields (st, merged) = Ok (st', merged') ->
  st' !! l = st !! l.
Proof.
  revert st merged. induction fields as [|g rest IH]; intros st merged Hf Hm Hn H.
  - now injection H as <- <-.
  - cbn [fold_result] in H. apply bind_ok in H as [[st1 m1] [H1 H2]].
    apply merge_oslo_field_h_inv in H1 as (_ & _ & Hent & Hframe & _).
    rewrite (IH st1 m1); auto.
    + apply Hframe. apply Hm. intros ->. apply Hf. now left.
    + intros Hin. apply Hf. now right.
    + now apply (only_under_step f l new merged).
Qed.

(** The loop leaves an object alone that [merged] refers to under none of
    the fields. *)
Lemma fold_fields_h_untouched (new : hrecord) (l : loc) (fields : list string) :
  List.NoDup fields ->
  forall (st st' : store) (merged merged' : hrecord),
    fold_result (merge_oslo_field_h B new) fields (st, merged) = Ok (st', merged') ->
    (forall g, In g fields -> dict_get g merged <> Some (HList l)) ->
    st' !! l = st !! l.
Proof.
  induction fields as [|g rest IH]; intros Hnd st st' merged merged' H Hno.
  - now injection H as <- <-.
  - apply List.NoDup_cons_iff in Hnd as [Hfresh Hnd].
    cbn [fold_result] in H. apply bind_ok in H as [[st1 m1] [H1 H2]].
    apply merge_oslo_field_h_inv in H1 as (_ & Hother & _ & Hframe & _).
    rewrite (IH Hnd st1 st' m1 merged' H2).
    + apply Hframe. apply Hno. now left.
    + intros g' Hg'. rewrite Hother.
      * apply Hno. now right.
      * intros ->. contradiction.
Qed.

(** Whatever the sharing, the round for [f] makes the object of [existing]
    longer, and it stays so. *)
Lemma fold_fields_h_mutates (new : hrecord) (f : string) (l l' : loc)
    (fields : list string) :
  List.NoDup fields -> In f fields ->
  forall (st st' : store) (merged merged' : hrecord) (xs ys : list pyval),
    fold_result (merge_oslo_field_h B new) fields (st, merged) = Ok (st', merged') ->
    dict_get f merged = Some (HList l) -> st !! l = Some xs ->
    dict_get f new = Some (HList l') -> st !! l' = Some ys -> ys <> [] ->
    dict_get f merged' = Some (HList l) /\
    exists zs, zs <> [] /\ st' !! l = Some (xs ++ zs).
Proof.
  induction fields as [|g rest IH]; intros Hnd Hin; [easy|].
  intros st st' merged merged' xs ys H Hm Hl Hn Hl' Hys.
  apply List.NoDup_cons_iff in Hnd as [Hfresh Hnd].
  cbn [fold_result] in H. apply bind_ok in H as [[st1 m1] [H1 H2]].
  destruct (string_dec g f) as [-> | Hne].
  - destruct (merge_oslo_field_h_extend B new st st1 merged m1 f l l' xs ys)
      as [Hgrown ->]; auto.
    destruct (fold_fields_h_inv new rest st1 st' merged merged' H2) as [Hext Hother].
    split; [now rewrite Hother|].
    destruct (Hext l _ Hgrown) as [zs Hz].
    exists (ys ++ zs). split.
    + destruct ys; [congruence | discriminate].
    + now rewrite app_assoc.
  - destruct Hin as [-> | Hin]; [congruence|].
    apply merge_oslo_field_h_inv in H1 as (Hext & Hother & _).
    destruct (Hext l xs Hl) as [z1 Hl1]. destruct (Hext l' ys Hl') as [z2 Hl1'].
    destruct (IH Hnd Hin st1 st' m1 merged' (xs ++ z1) (ys ++ z2)) as [Hget [zs [Hzs Hz]]];
      auto.
    + rewrite Hother; [exact Hm | congruence].
    + destruct ys; [congruence | discriminate].
    + split; [exact Hget|]. exists (z1 ++ zs). split.
      * destruct z1; [exact Hzs | discriminate].
      * now rewrite app_assoc.
Qed.

(** When no other entry of either record refers to the two objects, the
    object of [existing] ends as its old members followed by the incoming
    ones. *)
Lemma fold_fields_h_exact (new : hrecord) (f : string) (l l' : loc)
    (xs ys : list pyval) (fields : list string) :
  List.NoDup fields -> In f fields ->
  only_under f l new -> only_under f l' new ->
  forall (st st' : store) (merged merged' : hrecord),
    fold_result (merge_oslo_field_h B new) fields (st, merged) = Ok (st', merged') ->
    dict_get f merged = Some (HList l) -> st !! l = Some xs ->
    dict_get f new = Some (HList l') -> st !! l' = Some ys -> ys <> [] ->
    only_under f l merged -> only_under f l' merged ->
    st' !! l = Some (xs ++ ys).
Proof.
  induction fields as [|g rest IH]; intros Hnd Hin Hnl Hnl'; [easy|].
  intros st st' merged merged' H Hm Hl Hn Hl' Hys Hml Hml'.
  apply List.NoDup_cons_iff in Hnd as [Hfresh Hnd].
  cbn [fold_result] in H. apply bind_ok in H as [[st1 m1] [H1 H2]].
  destruct (string_dec g f) as [-> | Hne].
  - destruct (merge_oslo_field_h_extend B new st st1 merged m1 f l l' xs ys)
      as [Hgrown ->]; auto.
    now rewrite (fold_fields_h_frame new f l rest st1 st' merged merged' Hfresh Hml Hnl H2).
  - destruct Hin as [-> | Hin]; [congruence|].
    apply merge_oslo_field_h_inv in H1 as (_ & Hother & Hent & Hframe & _).
    assert (Hg : forall l0, only_under f l0 merged -> dict_get g merged <> Some (HList l0)).
    { intros l0 H0. apply H0. exact Hne. }
    apply (IH Hnd Hin Hnl Hnl' st1 st' m1 merged'); auto.
    + rewrite Hother; [exact Hm | congruence].
    + rewrite Hframe; auto.
    + rewrite Hframe; auto.
    + now apply (only_under_step f l new merged).
    + now apply (only_under_step f l' new merged).
Qed.
End OsloStoreFold.

Lemma dict_get_load_record (st : store) (r : hrecord) (k : string) :
  dict_get k (load_record st r) = option_map (load st) (dict_get k r).
Proof.
  induction r as [|[k' v] r IH]; simpl; [reflexivity|].
  now destruct (k =? k')%string.
Qed.

Lemma oslo_fields_not_sources (f : string) : In f oslo_fields -> f <> "oslo_sources".
Proof. intros [<- | [<- | [<- | []]]]; discriminate. Qed.

Lemma oslo_fields_nodup : List.NoDup oslo_fields.
Proof. repeat constructor; simpl; intuition discriminate. Qed.

(** What a returning call of the store resolver does to a list object of
    [existing] that [new] has a non-empty list for. *)
Lemma merge_oslo_data_h_effect (B : PyBuiltins) (st st' : store)
    (existing new merged : hrecord) (f : string) (l l' : loc) (xs ys : list pyval) :
  merge_oslo_data_h B st existing new = Ok (st', merged) ->
  In f oslo_fields ->
  dict_get f existing = Some (HList l) -> st !! l = Some xs ->
  dict_get f new = Some (HList l') -> st !! l' = Some ys -> ys <> [] ->
  dict_get f merged = Some (HList l) /\
  (exists zs, zs <> [] /\ st' !! l = Some (xs ++ zs)) /\
  load_record st' existing <> load_record st existing /\
  (only_under f l existing -> only_under f l new ->
   only_under f l' existing -> only_under f l' new ->
   st' !! l = Some (xs ++ ys)) /\
  (new = existing -> only_under f l existing -> st' !! l = Some (xs ++ xs)).
Proof.
  intros H Hf He Hl Hn Hl' Hys.
  unfold merge_oslo_data_h in H. apply bind_ok in H as [[st0 m0] [H0 H]].
  apply add_source_tag_h_inv in H0 as (Hext0 & Hother0 & Hframe0).
  pose proof (oslo_fields_not_sources f Hf) as Hfs.
  assert (Hm0 : dict_get f m0 = Some (HList l)) by (rewrite Hother0; auto).
  assert (Hexact :
    only_under f l existing -> only_under f l new ->
    only_under f l' existing -> only_under f l' new ->
    st' !! l = Some (xs ++ ys)).
  { intros Hel Hnl Hel' Hnl'.
    destruct (Hframe0 l) as [Hl0 Hs0];
      [now apply lookup_lt_Some in Hl | apply Hel; congruence |].
    destruct (Hframe0 l') as [Hl0' Hs0'];
      [now apply lookup_lt_Some in Hl' | apply Hel'; congruence |].
    assert (Hunder : forall l0, only_under f l0 existing ->
              dict_get "oslo_sources" m0 <> Some (HList l0) -> only_under f l0 m0).
    { intros l0 H1 H2 g Hg. destruct (string_dec g "oslo_sources") as [-> | Hgs];
        [exact H2 | rewrite Hother0 by exact Hgs; now apply H1]. }
    apply (fold_fields_h_exact B new f l l' xs ys oslo_fields oslo_fields_nodup Hf
             Hnl Hnl' st0 st' m0 merged H);
      [ exact Hm0 | congruence | exact Hn | congruence | exact Hys
      | now apply Hunder | now apply Hunder ]. }
  destruct (Hext0 l xs Hl) as [z0 Hl0]. destruct (Hext0 l' ys Hl') as [z0' Hl0'].
  destruct (fold_fields_h_mutates B new f l l' oslo_fields oslo_fields_nodup Hf
              st0 st' m0 merged (xs ++ z0) (ys ++ z0') H Hm0 Hl0 Hn Hl0')
    as [Hget [zs [Hzs Hz]]].
  { destruct ys; [congruence | discriminate]. }
  rewrite <- app_assoc in Hz.
  split; [exact Hget|]. split; [|split; [|split]].
  - exists (z0 ++ zs). split; [|exact Hz]. destruct z0; [exact Hzs | discriminate].
  - intros Heq.
    assert (E : dict_get f (load_record st' existing) = dict_get f (load_record st existing))
      by now rewrite Heq.
    rewrite !dict_get_load_record, He in E. cbn [option_map load] in E.
    rewrite (store_get_lookup _ _ _ Hz), (store_get_lookup _ _ _ Hl) in E.
    injection E as E. rewrite <- (app_nil_r xs) in E at 2.
    apply app_inv_head in E. apply app_eq_nil in E as [_ E]. contradiction.
  - exact Hexact.
  - intros -> Hunder.
    assert (l' = l) as -> by congruence. assert (ys = xs) as -> by congruence.
    now apply Hexact.
Qed.

(** A returning call leaves every list object alone that [existing] does
    not refer to under ['oslo_sources'] or one of the [oslo_fields]; an
    entry of [existing] under another key is the entry of the result. *)
Lemma merge_oslo_data_h_frame (B : PyBuiltins) (st st' : store)
    (existing new merged : hrecord) :
  merge_oslo_data_h B st existing new = Ok (st', merged) ->
  (forall l zs, st !! l = Some zs ->
     (forall g, In g ("oslo_sources" :: oslo_fields) -> dict_get g existing <> Some (HList l)) ->
     st' !! l = Some zs) /\
  (forall g, ~ In g ("oslo_sources" :: oslo_fields) ->
     dict_get g merged = dict_get g existing).
Proof.
  intros H. unfold merge_oslo_data_h in H. apply bind_ok in H as [[st0 m0] [H0 H]].
  apply add_source_tag_h_inv in H0 as (_ & Hother0 & Hframe0).
  split.
  - intros l zs Hl Hno.
    destruct (Hframe0 l) as [Hl0 Hs0];
      [now apply lookup_lt_Some in Hl | apply Hno; now left |].
    rewrite (fold_fields_h_untouched B new l oslo_fields oslo_fields_nodup
               st0 st' m0 merged H); [congruence|].
    intros g Hg. rewrite Hother0 by now apply oslo_fields_not_sources.
    apply Hno. now right.
  - intros g Hg.
    destruct (fold_fields_h_inv B new oslo_fields st0 st' m0 merged H) as [_ Hother].
    rewrite Hother by (intros Hin; apply Hg; now right).
    apply Hother0. intros ->. apply Hg. now left.
Qed.

(** A second pass over the same record objects, as [generate_oslo_report]
    runs after [integrate_oslo_data], starts from the lists the first pass
    has extended and returns other unified records than the first. *)
Lemma second_oslo_pass_differs :
  exists st1 first second_store second,
    oslo_pass_h (ascii_model length_hash) two_lists [pdf_first_h; pdf_second_h]
      = Ok (st1, first) /\
    oslo_pass_h (ascii_model length_hash) st1 [pdf_first_h; pdf_second_h]
      = Ok (second_store, second) /\
    map (dict_get "oslo_areas") first = [Some (VList [VStr "sentrum"; VStr "frogner"])] /\
    map (dict_get "oslo_areas") second
      = [Some (VList [VStr "sentrum"; VStr "frogner"; VStr "frogner"])] /\
    first <> second.
Proof.
  do 4 eexists. split; [vm_compute; reflexivity|]. split; [vm_compute; reflexivity|].
  split; [reflexivity|]. split; [reflexivity|]. discriminate.
Qed.

(** *** The by-value resolver describes the store resolver *)

Lemma load_insert_ne (st : store) (l : loc) (xs : list pyval) (v : hval) :
  v <> HList l -> load (<[l := xs]> st) v = load st v.
Proof.
  intros Hv. destruct v as [| | | | |l0]; try reflexivity.
  cbn [load]. unfold store_get. rewrite list_lookup_insert_ne; [reflexivity | congruence].
Qed.

Lemma load_alloc (st : store) (xs : list pyval) (v : hval) :
  (forall l, v = HList l -> l < length st) -> load (st ++ [xs]) v = load st v.
Proof.
  intros Hv. destruct v as [| | | | |l0]; try reflexivity.
  cbn [load]. unfold store_get. rewrite lookup_app_l; [reflexivity | now apply Hv].
Qed.

Lemma load_same (st st' : store) (v : hval) :
  (forall l, v = HList l -> st' !! l = st !! l) -> load st' v = load st v.
Proof.
  intros Hv. destruct v as [| | | | |l0]; try reflexivity.
  cbn [load]. unfold store_get. now rewrite (Hv l0 eq_refl).
Qed.

Lemma load_record_dict_set (st : store) (k : string) (v : hval) (r : hrecord) :
  load_record st (dict_set k v r) = dict_set k (load st v) (load_record st r).
Proof.
  induction r as [|[k' v'] r IH]; simpl; [reflexivity|].
  destruct (k =? k')%string; simpl; [reflexivity | now rewrite IH].
Qed.

Lemma load_record_frame (st st' : store) (r : hrecord) :
  (forall h v, In (h, v) r -> load st' v = load st v) ->
  load_record st' r = load_record st r.
Proof.
  induction r as [|[k v] r IH]; simpl; intros H; [reflexivity|].
  rewrite (H k v) by now left. rewrite IH; [reflexivity|].
  intros h w Hin. apply (H h w). now right.
Qed.

Lemma dict_get_fresh {V : Type} (k : string) (d : list (string * V)) :
  ~ In k (map fst d) -> dict_get k d = None.
Proof.
  induction d as [|[k' v] d IH]; simpl; intros H; [reflexivity|].
  destruct (k =? k')%string eqn:E.
  - apply String.eqb_eq in E. subst. exfalso. apply H. now left.
  - apply IH. intros Hin. apply H. now right.
Qed.

Lemma dict_set_keys {V : Type} (k : string) (v : V) (d : list (string * V)) :
  List.NoDup (map fst d) -> List.NoDup (map fst (dict_set k v d)) /\
  (forall k', In k' (map fst (dict_set k v d)) -> k' = k \/ In k' (map fst d)).
Proof.
  induction d as [|[k0 v0] d IH]; simpl; intros Hnd.
  - split; [repeat constructor; intros [] | intuition].
  - apply List.NoDup_cons_iff in Hnd as [Hfresh Hnd].
    destruct (k =? k0)%string eqn:E; simpl.
    + apply String.eqb_eq in E. subst k0.
      split; [constructor; assumption | intuition].
    + destruct (IH Hnd) as [IH1 IH2]. split.
      * constructor; [|exact IH1]. intros Hin.
        destruct (IH2 k0 Hin) as [-> | Hin']; [|contradiction].
        now rewrite String.eqb_refl in E.
      * intros k' [<- | Hin]; [right; now left|].
        destruct (IH2 k' Hin); [now left | right; now right].
Qed.

(** Making the object under [f] longer changes the entry under [f] of the
    record read, and no other, when no other entry refers to the object. *)
Lemma load_record_grow (st : store) (r : hrecord) (f : string) (l : loc)
    (xs : list pyval) :
  List.NoDup (map fst r) ->
  dict_get f r = Some (HList l) -> l < length st ->
  (forall h, h <> f -> dict_get h r <> Some (HList l)) ->
  load_record (<[l := xs]> st) r = dict_set f (VList xs) (load_record st r).
Proof.
  induction r as [|[k v] r IH]; simpl; intros Hnd Hget Hl Hother; [discriminate|].
  apply List.NoDup_cons_iff in Hnd as [Hfresh Hnd].
  destruct (f =? k)%string eqn:E.
  - apply String.eqb_eq in E. subst k. injection Hget as ->.
    cbn [load]. unfold store_get at 1. rewrite list_lookup_insert_eq by exact Hl.
    f_equal. apply load_record_frame. intros h w Hin.
    apply load_insert_ne. intros ->.
    assert (Hne : h <> f).
    { intros ->. apply Hfresh. apply in_map_iff. now exists (f, HList l). }
    apply (Hother h Hne).
    replace (h =? f)%string with false by (symmetry; now apply String.eqb_neq).
    now apply In_dict_get.
  - assert (Hkf : k <> f) by (intros ->; now rewrite String.eqb_refl in E).
    rewrite (load_insert_ne st l xs v).
    + f_equal. apply IH; auto.
      intros h Hh. specialize (Hother h Hh).
      destruct (h =? k)%string eqn:E'; [|exact Hother].
      apply String.eqb_eq in E'. subst h. now rewrite dict_get_fresh.
    + specialize (Hother k Hkf). rewrite String.eqb_refl in Hother. congruence.
Qed.

Lemma get_default_load_record (st : store) (k : string) (dflt : hval) (r : hrecord) :
  get_default k (load st dflt) (load_record st r) = load st (get_default k dflt r).
Proof.
  unfold get_default. rewrite dict_get_load_record. now destruct (dict_get k r).
Qed.

Lemma lookup_alloc (st : store) (xs : list pyval) : (st ++ [xs]) !! length st = Some xs.
Proof. now apply list_lookup_middle. Qed.

Section Agreement.
Variable B : PyBuiltins.
Variables (st : store) (existing new : hrecord).
Hypothesis Hun : unshared st existing new.

Lemma merge_inv_weaken (f : string) (rest : list string) (cur : store) (merged : hrecord) :
  merge_inv st existing new (f :: rest) cur merged ->
  merge_inv st existing new rest cur merged.
Proof.
  intros (J1 & J2 & J5 & J4 & J3). repeat split; auto.
  - intros g Hg. apply J5. now right.
  - intros l Hl Hrem. apply J3; [exact Hl|]. intros h Hh. right. now apply Hrem.
Qed.

Lemma merge_inv_set (f : string) (rest : list string) (cur : store) (merged : hrecord)
    (v : hval) :
  merge_inv st existing new (f :: rest) cur merged ->
  ~ In f rest ->
  dict_get f existing = Some v \/ dict_get f new = Some v ->
  merge_inv st existing new rest cur (dict_set f v merged).
Proof.
  intros Hinv Hf Hv. pose proof (merge_inv_weaken f rest cur merged Hinv) as Hw.
  destruct Hw as (J1 & J2 & J5 & J4 & J3). repeat split; auto.
  - now apply dict_set_keys.
  - intros h w. rewrite dict_get_set. destruct (f =? h)%string eqn:E; [|apply J2].
    apply String.eqb_eq in E. subst h. intros [= <-]. tauto.
  - intros g Hg. rewrite dict_get_set_ne; [now apply J5|]. intros ->. contradiction.
Qed.

Lemma merge_inv_grow (f : string) (rest : list string) (cur : store) (merged : hrecord)
    (l : loc) (xs : list pyval) :
  merge_inv st existing new (f :: rest) cur merged ->
  ~ In f rest ->
  dict_get f merged = Some (HList l) ->
  merge_inv st existing new rest (<[l := xs]> cur) merged.
Proof.
  intros Hinv Hf Hget.
  assert (He : dict_get f existing = Some (HList l)).
  { destruct Hinv as (_ & _ & J5 & _). rewrite <- J5; [exact Hget | now left]. }
  pose proof (merge_inv_weaken f rest cur merged Hinv) as Hw.
  destruct Hw as (J1 & J2 & J5 & J4 & J3). repeat split; auto.
  - now rewrite length_insert.
  - intros l0 Hl0 Hrem. rewrite list_lookup_insert_ne; [now apply J3|].
    intros <-. apply Hf. now apply Hrem.
Qed.

(** What [new] holds under a remaining field reads in the current store as
    it did at the start. *)
Lemma remaining_field_unchanged (f : string) (rest : list string) (cur : store)
    (merged : hrecord) (nv : hval) :
  merge_inv st existing new (f :: rest) cur merged ->
  dict_get f new = Some nv ->
  load cur nv = load st nv.
Proof.
  intros (_ & _ & _ & _ & J3) Hn. apply load_same. intros l ->.
  destruct Hun as (_ & _ & Hvn & _ & Hne).
  apply J3; [now apply (Hvn f)|].
  intros h Hh. left. now apply (Hne f h l).
Qed.

(** The object of [merged] under a remaining field belongs to that entry
    alone and is in the store. *)
Lemma remaining_field_private (f : string) (rest : list string) (cur : store)
    (merged : hrecord) (l : loc) :
  merge_inv st existing new (f :: rest) cur merged ->
  dict_get f merged = Some (HList l) ->
  l < length cur /\ forall h, h <> f -> dict_get h merged <> Some (HList l).
Proof.
  intros (J1 & J2 & J5 & J4 & J3) Hget.
  destruct Hun as (_ & Hve & _ & Hee & Hne).
  assert (He : dict_get f existing = Some (HList l)) by (rewrite <- J5; [auto | now left]).
  pose proof (Hve f l He) as Hl. split; [lia|].
  intros h Hh Hhget. destruct (J2 h _ Hhget) as [H | [H | H]].
  - apply Hh. now apply (Hee h f l).
  - apply Hh. now apply (Hne h f l).
  - injection H as ->. lia.
Qed.

Lemma sim_field (f : string) (rest : list string) (cur : store) (merged : hrecord) :
  merge_inv st existing new (f :: rest) cur merged ->
  ~ In f rest ->
  match merge_oslo_field_h B new (cur, merged) f with
  | Ok state =>
      merge_oslo_field B (load_record st new) (load_record cur merged) f
        = Ok (load_state state) /\
      merge_inv st existing new rest (fst state) (snd state)
  | Raise e =>
      merge_oslo_field B (load_record st new) (load_record cur merged) f = Raise e
  end.
Proof.
  intros Hinv Hf.
  pose proof (merge_inv_weaken f rest cur merged Hinv) as Hw.
  unfold merge_oslo_field_h, merge_oslo_field, load_state. cbn [fst snd].
  rewrite !dict_get_load_record.
  destruct (dict_get f new) as [nv|] eqn:En; cbn [option_map]; [|now split].
  rewrite (remaining_field_unchanged f rest cur merged nv Hinv En).
  destruct (truthy (load st nv)); [|now split].
  destruct (dict_get f merged) as [mv|] eqn:Em; cbn [option_map].
  - destruct mv as [| b | z | s | d | l]; cbn [load]; try (now split).
    + unfold py_max_h, py_max. cbn [load num_of].
      rewrite (remaining_field_unchanged f rest cur merged nv Hinv En).
      destruct (num_of (load st nv)) as [y|]; cbn [bind fst snd]; [|reflexivity].
      split.
      * rewrite load_record_dict_set. f_equal. f_equal.
        destruct (_ <? _)%Z; [|reflexivity].
        symmetry. apply (remaining_field_unchanged f rest cur merged nv Hinv En).
      * apply merge_inv_set; auto.
        destruct Hinv as (_ & _ & J5 & _). rewrite <- J5 by now left.
        destruct (_ <? _)%Z; auto.
    + unfold py_max_h, py_max. cbn [load num_of].
      rewrite (remaining_field_unchanged f rest cur merged nv Hinv En).
      destruct (num_of (load st nv)) as [y|]; cbn [bind fst snd]; [|reflexivity].
      split.
      * rewrite load_record_dict_set. f_equal. f_equal.
        destruct (_ <? _)%Z; [|reflexivity].
        symmetry. apply (remaining_field_unchanged f rest cur merged nv Hinv En).
      * apply merge_inv_set; auto.
        destruct Hinv as (_ & _ & J5 & _). rewrite <- J5 by now left.
        destruct (_ <? _)%Z; auto.
    + destruct (py_iter B (load st nv)) as [items|e]; cbn [bind fst snd]; [|reflexivity].
      destruct (remaining_field_private f rest cur merged l Hinv Em) as [Hl Hpriv].
      split.
      * f_equal. destruct Hinv as (J1 & _). symmetry. now apply load_record_grow.
      * now apply (merge_inv_grow f).
  - cbn [fst snd]. split.
    + rewrite load_record_dict_set. f_equal. f_equal.
      symmetry. apply (remaining_field_unchanged f rest cur merged nv Hinv En).
    + apply merge_inv_set; auto.
Qed.

Lemma sim_fields (fields : list string) :
  List.NoDup fields ->
  forall (cur : store) (merged : hrecord),
    merge_inv st existing new fields cur merged ->
    result_map load_state (fold_result (merge_oslo_field_h B new) fields (cur, merged))
    = fold_result (merge_oslo_field B (load_record st new)) fields (load_record cur merged).
Proof.
  induction fields as [|f rest IH]; intros Hnd cur merged Hinv; [reflexivity|].
  apply List.NoDup_cons_iff in Hnd as [Hf Hnd].
  cbn [fold_result].
  pose proof (sim_field f rest cur merged Hinv Hf) as Hsim.
  destruct (merge_oslo_field_h B new (cur, merged) f) as [[cur' merged']|e].
  - destruct Hsim as [Hpure Hinv']. rewrite Hpure. cbn [bind].
    now apply IH.
  - now rewrite Hsim.
Qed.
End Agreement.

Section AgreementSources.
Variables (st : store) (existing new : hrecord).
Hypothesis Hun : unshared st existing new.

Lemma merge_inv_start (remaining : list string) :
  merge_inv st existing new remaining st existing.
Proof.
  destruct Hun as (Hnd & _). repeat split; auto.
Qed.

Lemma sim_sources (skey : string) (remaining : list string) :
  ~ In skey remaining ->
  match add_source_tag_h skey st existing new existing with
  | Ok state =>
      add_source_tag skey (load_record st existing) (load_record st new)
        (load_record st existing) = Ok (load_state state) /\
      merge_inv st existing new remaining (fst state) (snd state)
  | Raise e =>
      add_source_tag skey (load_record st existing) (load_record st new)
        (load_record st existing) = Raise e
  end.
Proof.
  intros Hskey.
  destruct Hun as (Hnd & Hve & Hvn & Hee & Hne).
  assert (Hsn : get_or_none "source" (load_record st new)
                = load st (get_default "source" HNone new)).
  { exact (get_default_load_record st "source" HNone new). }
  assert (Hue : get_default "source" (VStr "unknown") (load_record st existing)
                = load st (get_default "source" (HStr "unknown") existing)).
  { exact (get_default_load_record st "source" (HStr "unknown") existing). }
  assert (Hunew : get_default "source" (VStr "unknown") (load_record st new)
                = load st (get_default "source" (HStr "unknown") new)).
  { exact (get_default_load_record st "source" (HStr "unknown") new). }
  unfold add_source_tag_h, add_source_tag, dict_has, load_state.
  rewrite !dict_get_load_record.
  destruct (dict_get skey existing) as [srcs|] eqn:E; cbn [option_map fst snd].
  - rewrite dict_get_load_record, E. cbn [option_map]. rewrite Hsn.
    destruct (contains _ (load st srcs)) as [present|e]; cbn [bind]; [|reflexivity].
    destruct present; cbn [fst snd].
    + split; [reflexivity | apply merge_inv_start].
    + rewrite Hunew.
      destruct srcs as [| b | z | s | d | l]; cbn [load list_append bind]; try reflexivity.
      cbn [fst snd]. split.
      * f_equal. symmetry. apply load_record_grow; auto.
        -- now apply (Hve skey).
        -- intros h Hh Hget. apply Hh. now apply (Hee h skey l).
      * destruct (merge_inv_start remaining) as (J1 & J2 & J5 & J4 & J3).
        repeat split; auto.
        -- now rewrite length_insert.
        -- intros l0 Hl0 Hrem. apply list_lookup_insert_ne.
           intros <-. apply Hskey. now apply Hrem.
  - rewrite dict_get_set_eq. rewrite dict_get_set_eq.
    rewrite Hsn, Hue. cbn [load].
    assert (Hfresh : store_get (st ++ [[load st (get_default "source" (HStr "unknown") existing)]])
                       (length st)
                     = [load st (get_default "source" (HStr "unknown") existing)]).
    { unfold store_get. now rewrite lookup_alloc. }
    rewrite Hfresh.
    assert (Hsrc : load (st ++ [[load st (get_default "source" (HStr "unknown") existing)]])
                     (get_default "source" HNone new)
                   = load st (get_default "source" HNone new)).
    { apply load_alloc. intros l Hl. unfold get_default in Hl.
      destruct (dict_get "source" new) eqn:En; [|discriminate]. subst.
      now apply (Hvn "source"). }
    rewrite Hsrc.
    assert (Hrec : load_record
                     (st ++ [[load st (get_default "source" (HStr "unknown") existing)]])
                     (dict_set skey (HList (length st)) existing)
                   = dict_set skey
                       (VList [load st (get_default "source" (HStr "unknown") existing)])
                       (load_record st existing)).
    { rewrite load_record_dict_set. cbn [load]. rewrite Hfresh. f_equal.
      apply load_record_frame. intros h v Hin. apply load_alloc. intros l ->.
      apply (Hve h). now apply In_dict_get. }
    assert (Hkeys : List.NoDup (map fst (dict_set skey (HList (length st)) existing))).
    { now apply dict_set_keys. }
    assert (Hprov : forall h v,
              dict_get h (dict_set skey (HList (length st)) existing) = Some v ->
              dict_get h existing = Some v \/ dict_get h new = Some v
              \/ v = HList (length st)).
    { intros h v. rewrite dict_get_set. destruct (skey =? h)%string; [|auto].
      intros [= <-]. auto. }
    assert (Hrem : forall g, In g remaining ->
              dict_get g (dict_set skey (HList (length st)) existing)
              = dict_get g existing).
    { intros g Hg. apply dict_get_set_ne. intros ->. contradiction. }
    destruct (contains _ _) as [present|e]; cbn [bind]; [|reflexivity].
    destruct present; cbn [fst snd].
    + split; [now rewrite Hrec|].
      repeat split; auto.
      * rewrite length_app. simpl. lia.
      * intros l Hl _. now apply lookup_app_l.
    + cbn [list_append bind]. rewrite Hunew. split.
      * f_equal. rewrite <- Hrec.
        assert (Hnew : load (st ++ [[load st (get_default "source" (HStr "unknown") existing)]])
                         (get_default "source" (HStr "unknown") new)
                       = load st (get_default "source" (HStr "unknown") new)).
        { apply load_alloc. intros l Hl. unfold get_default in Hl.
          destruct (dict_get "source" new) eqn:En; [|discriminate]. subst.
          now apply (Hvn "source"). }
        rewrite Hnew. symmetry. apply load_record_grow; auto.
        -- apply dict_get_set_eq.
        -- rewrite length_app. simpl. lia.
        -- intros h Hh. rewrite dict_get_set_ne by congruence.
           intros Hget. apply Hve in Hget. lia.
      * repeat split; auto.
        -- rewrite length_insert, length_app. simpl. lia.
        -- intros l Hl _. rewrite list_lookup_insert_ne by lia. now apply lookup_app_l.
Qed.
End AgreementSources.

(** On unshared records the record the store resolver returns, read in the
    store it leaves, is the record the by-value resolver returns, and the
    two raise alike. *)
Lemma merge_oslo_data_by_value (B : PyBuiltins) (st : store) (existing new : hrecord) :
  unshared st existing new ->
  result_map load_state (merge_oslo_data_h B st existing new)
  = merge_oslo_data B (load_record st existing) (load_record st new).
Proof.
  intros Hun. unfold merge_oslo_data_h, merge_oslo_data.
  pose proof (sim_sources st existing new Hun "oslo_sources" oslo_fields) as Hsim.
  destruct (add_source_tag_h "oslo_sources" st existing new existing)
    as [[st0 m0]|e]; cbn [bind].
  - destruct Hsim as [Hpure Hinv].
    { intros Hin. now apply oslo_fields_not_sources in Hin. }
    rewrite Hpure. cbn [bind load_state fst snd].
    apply (sim_fields B st existing new Hun oslo_fields oslo_fields_nodup st0 m0 Hinv).
  - rewrite Hsim; [reflexivity|].
    intros Hin. now apply oslo_fields_not_sources in Hin.
Qed.

Lemma sample_records_unshared :
  unshared two_lists pdf_first_h pdf_second_h /\
  unshared two_lists pdf_first_h pdf_first_h.
Proof.
  assert (Hkeys : List.NoDup (map fst pdf_first_h)).
  { repeat constructor; simpl; intuition discriminate. }
  assert (Hvalid : forall r, r = pdf_first_h \/ r = pdf_second_h -> refs_valid two_lists r).
  { intros r [-> | ->] k l H; unfold pdf_first_h, pdf_second_h in H; by_key H;
      try discriminate; injection H as <-; simpl; lia. }
  split; (split; [exact Hkeys|]); (split; [apply Hvalid; auto|]);
    (split; [apply Hvalid; auto|]); split; intros g h l Hg Hh;
    unfold pdf_first_h, pdf_second_h in Hg, Hh; by_key Hg; by_key Hh;
    congruence.
Qed.

(** The two models on the sample records: the store resolver returns, read
    back, what the by-value resolver returns on the records read. *)
Lemma merge_models_agree_on_samples :
  result_map load_state
    (merge_oslo_data_h (ascii_model length_hash) two_lists pdf_first_h pdf_second_h)
  = merge_oslo_data (ascii_model length_hash)
      (load_record two_lists pdf_first_h) (load_record two_lists pdf_second_h) /\
  load_record two_lists pdf_first_h
  = [ ("source", VStr "oslo_pdf"); ("plan_id", VStr "P-1");
      ("oslo_areas", VList [VStr "sentrum"]) ].
Proof.
  split; [|reflexivity].
  apply merge_oslo_data_by_value. apply sample_records_unshared.
Qed.

(** Hence the store resolver returns on unshared records that read as
    typed ones. *)
Lemma merge_oslo_data_h_returns (B : PyBuiltins) (st : store) (existing new : hrecord) :
  unshared st existing new ->
  oslo_typed (load_record st existing) -> oslo_typed (load_record st new) ->
  returns (merge_oslo_data_h B st existing new).
Proof.
  intros Hun He Hn.
  destruct (merge_oslo_data_returns B _ _ He Hn) as [merged [Hm _]].
  pose proof (merge_oslo_data_by_value B st existing new Hun) as Hagree.
  rewrite Hm in Hagree.
  destruct (merge_oslo_data_h B st existing new) as [state|e]; [|discriminate].
  now exists state.
Qed.

(** What the source bookkeeping does to the source list of [existing]: a
    tag that is not in it is appended to the object itself. *)
Lemma merge_oslo_data_h_sources (B : PyBuiltins) (st st' : store)
    (existing new merged : hrecord) (l : loc) (tags : list pyval) :
  merge_oslo_data_h B st existing new = Ok (st', merged) ->
  dict_get "oslo_sources" existing = Some (HList l) -> st !! l = Some tags ->
  existsb (py_eq (load st (get_default "source" HNone new))) tags = false ->
  exists zs,
    st' !! l = Some (tags ++ load st (get_default "source" (HStr "unknown") new) :: zs).
Proof.
  intros H He Hl Habsent.
  unfold merge_oslo_data_h in H. apply bind_ok in H as [[st0 m0] [H0 H]].
  assert (Hl0 : st0 !! l
                = Some (tags ++ [load st (get_default "source" (HStr "unknown") new)])).
  { unfold add_source_tag_h, dict_has in H0. rewrite He in H0. cbn [fst snd] in H0.
    rewrite He in H0. cbn [load] in H0. rewrite (store_get_lookup st l tags Hl) in H0.
    cbn [contains bind] in H0. rewrite Habsent in H0. injection H0 as <- _.
    apply list_lookup_insert_eq. now apply lookup_lt_Some in Hl. }
  destruct (fold_fields_h_inv B new oslo_fields st0 st' m0 merged H) as [Hext _].
  destruct (Hext l _ Hl0) as [zs Hz]. exists zs.
  rewrite Hz. now rewrite <- app_assoc.
Qed.

(** *** Calls that raise *)

Lemma fold_reached_ok {A S : Type} (f : S -> A -> result S) (l : list A) (s s' : S) :
  fold_result f l s = Ok s' -> fold_reached f l s = (s', None).
Proof.
  revert s. induction l as [|a l IH]; intros s H; simpl in *.
  - now injection H as <-.
  - apply bind_ok in H as [s1 [H1 H2]]. rewrite H1. now apply IH.
Qed.

Lemma fold_reached_raise {A S : Type} (f : S -> A -> result S) (l : list A) (s : S)
    (e : exn) :
  fold_result f l s = Raise e -> snd (fold_reached f l s) = Some e.
Proof.
  revert s. induction l as [|a l IH]; intros s H; simpl in *; [discriminate|].
  destruct (f s a) as [s1|e1]; cbn [bind] in H.
  - now apply IH.
  - now injection H as <-.
Qed.

(** Whether it returns or raises, the field loop leaves every list object
    with its old members in front. *)
Lemma fold_reached_extends (B : PyBuiltins) (new : hrecord) (fields : list string) :
  forall (st : store) (merged : hrecord),
    store_extends st (fst (fst (fold_reached (merge_oslo_field_h B new) fields (st, merged)))).
Proof.
  induction fields as [|g rest IH]; intros st merged; cbn [fold_reached].
  - apply store_extends_refl.
  - destruct (merge_oslo_field_h B new (st, merged) g) as [[st1 m1]|e] eqn:E.
    + apply merge_oslo_field_h_inv in E as (Hext & _).
      eapply store_extends_trans; [exact Hext | apply IH].
    + apply store_extends_refl.
Qed.

(** The exit store is the store of the result, on a call that returns. *)
Lemma merge_oslo_data_h_exit_agrees (B : PyBuiltins) (st : store) (existing new : hrecord) :
  (forall st' merged, merge_oslo_data_h B st existing new = Ok (st', merged) ->
     merge_oslo_data_h_exit B st existing new = (st', None)) /\
  (forall e, merge_oslo_data_h B st existing new = Raise e ->
     snd (merge_oslo_data_h_exit B st existing new) = Some e).
Proof.
  unfold merge_oslo_data_h, merge_oslo_data_h_exit.
  destruct (add_source_tag_h "oslo_sources" st existing new existing) as [state|e0];
    cbn [bind]; split.
  - intros st' merged H. now rewrite (fold_reached_ok _ _ _ _ H).
  - intros e H. cbn [snd]. now apply fold_reached_raise.
  - discriminate.
  - now intros e [= <-].
Qed.

Lemma add_source_tag_h_returns (skey : string) (st : store) (existing new : hrecord) :
  sources_ok skey (load_record st existing) ->
  returns (add_source_tag_h skey st existing new existing).
Proof.
  unfold sources_ok. rewrite dict_get_load_record. intros Hok.
  unfold add_source_tag_h, dict_has.
  destruct (dict_get skey existing) as [srcs|] eqn:E; cbn [fst snd].
  - destruct Hok as [Hok | [l Hok]]; [discriminate|].
    rewrite E. destruct srcs; try discriminate. cbn [load contains bind].
    destruct (existsb _ _); eexists; reflexivity.
  - rewrite dict_get_set_eq. cbn [load contains bind].
    destruct (existsb _ _); eexists; reflexivity.
Qed.

(** When the source list of [existing] is absent or a list, the list
    object under ['oslo_areas'], the first of the fields, is longer when the
    call is over, also when a later round raises. *)
Lemma merge_oslo_data_h_exit_areas (B : PyBuiltins) (st : store)
    (existing new : hrecord) (l l' : loc) (xs ys : list pyval) :
  sources_ok "oslo_sources" (load_record st existing) ->
  dict_get "oslo_areas" existing = Some (HList l) -> st !! l = Some xs ->
  dict_get "oslo_areas" new = Some (HList l') -> st !! l' = Some ys -> ys <> [] ->
  exists zs, zs <> [] /\
    fst (merge_oslo_data_h_exit B st existing new) !! l = Some (xs ++ zs).
Proof.
  intros Hok He Hl Hn Hl' Hys.
  destruct (add_source_tag_h_returns "oslo_sources" st existing new Hok) as [[st0 m0] H0].
  unfold merge_oslo_data_h_exit. rewrite H0.
  apply add_source_tag_h_inv in H0 as (Hext0 & Hother0 & _).
  assert (Hm0 : dict_get "oslo_areas" m0 = Some (HList l))
    by (rewrite Hother0; [exact He | discriminate]).
  destruct (Hext0 l xs Hl) as [z0 Hl0]. destruct (Hext0 l' ys Hl') as [z0' Hl0'].
  unfold oslo_fields. cbn [fold_reached].
  destruct (merge_oslo_field_h B new (st0, m0) "oslo_areas") as [[st1 m1]|e] eqn:E1.
  - destruct (merge_oslo_field_h_extend B new st0 st1 m0 m1 "oslo_areas" l l'
                (xs ++ z0) (ys ++ z0') E1 Hm0 Hl0 Hn Hl0') as [Hgrown _].
    { destruct ys; [congruence | discriminate]. }
    destruct (fold_reached_extends B new ["oslo_terms"; "oslo_relevance_score"] st1 m1
                l _ Hgrown) as [zs Hz].
    cbn [fold_reached] in Hz. cbv zeta. cbn [fst snd].
    exists (z0 ++ (ys ++ z0') ++ zs). split.
    + destruct ys; [congruence|]. destruct z0; discriminate.
    + rewrite Hz. now rewrite <- !app_assoc.
  - exfalso. unfold merge_oslo_field_h in E1. cbn [fst snd] in E1.
    rewrite Hn in E1. cbn [load] in E1. rewrite (store_get_lookup _ _ _ Hl0') in E1.
    destruct (truthy (VList (ys ++ z0'))); [|discriminate].
    rewrite Hm0 in E1. cbn [py_iter bind] in E1. discriminate.
Qed.

(** A call that raises after it has extended a list of [existing]: the
    score of the second record is a label, and [max(3, 'high')] raises. *)
Lemma raising_call_has_extended :
  merge_oslo_data_h (ascii_model length_hash) two_lists scored_first_h labelled_second_h
    = Raise TypeError /\
  merge_oslo_data_h_exit (ascii_model length_hash) two_lists scored_first_h labelled_second_h
    = ([ [VStr "sentrum"; VStr "frogner"]; [VStr "frogner"];
         [VStr "oslo_pdf"; VStr "oslo_pdf_scan"] ], Some TypeError).
Proof. split; reflexivity. Qed.

Lemma merge_oslo_data_h_exit_extends (B : PyBuiltins) (st : store) (existing new : hrecord) :
  store_extends st (fst (merge_oslo_data_h_exit B st existing new)).
Proof.
  unfold merge_oslo_data_h_exit.
  destruct (add_source_tag_h "oslo_sources" st existing new existing) as [[st0 m0]|e] eqn:E.
  - apply add_source_tag_h_inv in E as (Hext & _). cbv zeta. cbn [fst].
    eapply store_extends_trans; [exact Hext | apply fold_reached_extends].
  - apply store_extends_refl.
Qed.

Lemma fold_reached_untouched (B : PyBuiltins) (new : hrecord) (l : loc)
    (fields : list string) :
  List.NoDup fields ->
  forall (st : store) (merged : hrecord),
    (forall g, In g fields -> dict_get g merged <> Some (HList l)) ->
    fst (fst (fold_reached (merge_oslo_field_h B new) fields (st, merged))) !! l = st !! l.
Proof.
  induction fields as [|g rest IH]; intros Hnd st merged Hno; [reflexivity|].
  apply List.NoDup_cons_iff in Hnd as [Hfresh Hnd]. cbn [fold_reached].
  destruct (merge_oslo_field_h B new (st, merged) g) as [[st1 m1]|e] eqn:E; [|reflexivity].
  apply merge_oslo_field_h_inv in E as (_ & Hother & _ & Hframe & _).
  rewrite (IH Hnd st1 m1).
  - apply Hframe. apply Hno. now left.
  - intros g' Hg'. rewrite Hother.
    + apply Hno. now right.
    + intros ->. contradiction.
Qed.

(** Returning or raising, a call leaves every list object alone that
    [existing] does not refer to under ['oslo_sources'] or one of the
    [oslo_fields]. *)
Lemma merge_oslo_data_h_exit_frame (B : PyBuiltins) (st : store)
    (existing new : hrecord) (l : loc) (zs : list pyval) :
  st !! l = Some zs ->
  (forall g, In g ("oslo_sources" :: oslo_fields) -> dict_get g existing <> Some (HList l)) ->
  fst (merge_oslo_data_h_exit B st existing new) !! l = Some zs.
Proof.
  intros Hl Hno. unfold merge_oslo_data_h_exit.
  destruct (add_source_tag_h "oslo_sources" st existing new existing) as [[st0 m0]|e] eqn:E;
    [|exact Hl].
  apply add_source_tag_h_inv in E as (_ & Hother0 & Hframe0).
  destruct (Hframe0 l) as [Hl0 _];
    [now apply lookup_lt_Some in Hl | apply Hno; now left |].
  cbv zeta. cbn [fst].
  rewrite (fold_reached_untouched B new l oslo_fields oslo_fields_nodup st0 m0);
    [congruence|].
  intros g Hg. rewrite Hother0 by now apply oslo_fields_not_sources.
  apply Hno. now right.
Qed.

(** C10, as stated, fails for a list-valued field that is not one of the
    [oslo_fields]: with both records holding a list under ['keywords'] the
    call returns, extends neither list object and leaves the record read
    through [existing] as it was; merging the record with itself does not
    double the list. *)
Lemma keywords_list_not_extended :
  (exists st' merged,
     merge_oslo_data_h (ascii_model length_hash) two_keyword_lists
       catalogue_first_h catalogue_second_h = Ok (st', merged) /\
     st' !! 0 = Some [VStr "plan"] /\
     st' !! 1 = Some [VStr "regulering"] /\
     dict_get "keywords" (load_record st' merged) = Some (VList [VStr "plan"]) /\
     load_record st' catalogue_first_h
     = load_record two_keyword_lists catalogue_first_h) /\
  (exists st' merged,
     merge_oslo_data_h (ascii_model length_hash) two_keyword_lists
       catalogue_first_h catalogue_first_h = Ok (st', merged) /\
     st' !! 0 = Some [VStr "plan"] /\
     dict_get "keywords" (load_record st' merged) = Some (VList [VStr "plan"])).
Proof.
  split; do 2 eexists; (split; [vm_compute; reflexivity|]); repeat split; reflexivity.
Qed.

(** C10, amended: in the store model, where list objects are shared by the
    shallow copy, [merge_oslo_data] returns on unshared records that read as
    typed ones, and a returning call changes the caller's [existing] through
    the lists it holds under the three [oslo_fields] and under
    ['oslo_sources'], and through no other.  Where both records hold a list
    under one of the [oslo_fields], the incoming one not empty, the result
    refers to the very list object of [existing] and the call leaves that
    object longer, so that the record read through [existing] has changed;
    when no other entry of the two records refers to the two objects, the
    object holds its old members followed by the incoming ones, and merging
    a record with itself doubles the list.  A source list of [existing] that
    lacks the incoming tag gets it appended in place.  Every other list
    object, such as one under ['keywords'], is left as it was, and the result
    has the entry of [existing] under every other key.  A call that raises
    takes nothing back and touches no other object either: when it is over
    every list object has its old members in front, the objects that
    [existing] does not hold under the four keys are as they were, and when
    the source list of [existing] is absent or a list, the list of
    [existing] under ['oslo_areas'] has been extended even if a later round
    raises. *)
Theorem merge_oslo_data_mutates_existing (B : PyBuiltins) (st : store)
    (existing new : hrecord) :
  (unshared st existing new ->
   oslo_typed (load_record st existing) -> oslo_typed (load_record st new) ->
   returns (merge_oslo_data_h B st existing new)) /\
  (forall st' merged, merge_oslo_data_h B st existing new = Ok (st', merged) ->
     (forall f l l' xs ys,
        In f oslo_fields ->
        dict_get f existing = Some (HList l) -> st !! l = Some xs ->
        dict_get f new = Some (HList l') -> st !! l' = Some ys -> ys <> [] ->
        dict_get f merged = Some (HList l) /\
        (exists zs, zs <> [] /\ st' !! l = Some (xs ++ zs)) /\
        load_record st' existing <> load_record st existing /\
        (only_under f l existing -> only_under f l new ->
         only_under f l' existing -> only_under f l' new ->
         st' !! l = Some (xs ++ ys)) /\
        (new = existing -> only_under f l existing -> st' !! l = Some (xs ++ xs))) /\
     (forall l tags,
        dict_get "oslo_sources" existing = Some (HList l) -> st !! l = Some tags ->
        existsb (py_eq (load st (get_default "source" HNone new))) tags = false ->
        exists zs,
          st' !! l
          = Some (tags ++ load st (get_default "source" (HStr "unknown") new) :: zs)) /\
     (forall l zs, st !! l = Some zs ->
        (forall g, In g ("oslo_sources" :: oslo_fields) ->
                   dict_get g existing <> Some (HList l)) ->
        st' !! l = Some zs) /\
     (forall g, ~ In g ("oslo_sources" :: oslo_fields) ->
        dict_get g merged = dict_get g existing) /\
     merge_oslo_data_h_exit B st existing new = (st', None)) /\
  (forall e, merge_oslo_data_h B st existing new = Raise e ->
     snd (merge_oslo_data_h_exit B st existing new) = Some e) /\
  store_extends st (fst (merge_oslo_data_h_exit B st existing new)) /\
  (forall l zs, st !! l = Some zs ->
     (forall g, In g ("oslo_sources" :: oslo_fields) ->
                dict_get g existing <> Some (HList l)) ->
     fst (merge_oslo_data_h_exit B st existing new) !! l = Some zs) /\
  (forall l l' xs ys,
     sources_ok "oslo_sources" (load_record st existing) ->
     dict_get "oslo_areas" existing = Some (HList l) -> st !! l = Some xs ->
     dict_get "oslo_areas" new = Some (HList l') -> st !! l' = Some ys -> ys <> [] ->
     exists zs, zs <> [] /\
       fst (merge_oslo_data_h_exit B st existing new) !! l = Some (xs ++ zs)).
Proof.
  split; [|split; [|split; [|split; [|split]]]].
  - apply merge_oslo_data_h_returns.
  - intros st' merged H.
    destruct (merge_oslo_data_h_frame B st st' existing new merged H) as [H1 H2].
    split; [|split; [|split; [exact H1 | split; [exact H2|]]]].
    + intros f l l' xs ys Hf He Hl Hn Hl' Hys.
      exact (merge_oslo_data_h_effect B st st' existing new merged f l l' xs ys
               H Hf He Hl Hn Hl' Hys).
    + intros l tags. exact (merge_oslo_data_h_sources B st st' existing new merged l tags H).
    + exact (proj1 (merge_oslo_data_h_exit_agrees B st existing new) st' merged H).
  - exact (proj2 (merge_oslo_data_h_exit_agrees B st existing new)).
  - apply merge_oslo_data_h_exit_extends.
  - intros l zs. apply merge_oslo_data_h_exit_frame.
  - intros l l' xs ys. apply merge_oslo_data_h_exit_areas.
Qed.

Lemma merge_oslo_data_mutates_existing_witness :
  exists st' merged,
    merge_oslo_data_h (ascii_model length_hash) two_lists pdf_first_h pdf_second_h
      = Ok (st', merged) /\
    dict_get "oslo_areas" merged = dict_get "oslo_areas" pdf_first_h /\
    st' !! 0 = Some ([VStr "sentrum"] ++ [VStr "frogner"]) /\
    load_record st' pdf_first_h <> load_record two_lists pdf_first_h /\
    st' !! 1 = Some [VStr "frogner"].
Proof.
  destruct (merge_oslo_data_mutates_existing (ascii_model length_hash) two_lists
              pdf_first_h pdf_second_h) as [Hret [Heffect _]].
  destruct Hret as [[st' merged] Hm].
  - apply sample_records_unshared.
  - check_oslo_typed.
  - check_oslo_typed.
  - destruct (Heffect st' merged Hm) as (Hfield & _ & Hframe & _).
    destruct (Hfield "oslo_areas" 0 1 [VStr "sentrum"] [VStr "frogner"])
      as (Hget & _ & Hmut & Hexact & _);
      [simpl; auto | reflexivity | reflexivity | reflexivity | reflexivity | discriminate |].
    exists st', merged. split; [exact Hm|]. split; [exact Hget|].
    split; [|split; [exact Hmut|]].
    + apply Hexact; intros g Hg Hget';
        unfold pdf_first_h, pdf_second_h in Hget'; by_key Hget'; congruence.
    + apply Hframe; [reflexivity|].
      intros g Hg Hget'. unfold pdf_first_h in Hget'. by_key Hget'; congruence.
Defined.

(** ** The passes on the store (claim C8) *)

(** *** Dictionaries of records *)

Lemma dict_get_map_values {V W : Type} (f : V -> W) (k : string) (d : list (string * V)) :
  dict_get k (map (fun kv => (fst kv, f (snd kv))) d) = option_map f (dict_get k d).
Proof.
  induction d as [|[k' v] d IH]; simpl; [reflexivity|].
  now destruct (k =? k')%string.
Qed.

Lemma map_values_dict_set {V W : Type} (f : V -> W) (k : string) (v : V)
    (d : list (string * V)) :
  map (fun kv => (fst kv, f (snd kv))) (dict_set k v d)
  = dict_set k (f v) (map (fun kv => (fst kv, f (snd kv))) d).
Proof.
  induction d as [|[k' v'] d IH]; simpl; [reflexivity|].
  destruct (k =? k')%string; simpl; [reflexivity | now rewrite IH].
Qed.

Lemma map_values_ext {V W : Type} (f g : V -> W) (d : list (string * V)) :
  (forall k v, In (k, v) d -> f v = g v) ->
  map (fun kv => (fst kv, f (snd kv))) d = map (fun kv => (fst kv, g (snd kv))) d.
Proof.
  induction d as [|[k v] d IH]; simpl; intros H; [reflexivity|].
  rewrite (H k v) by now left. rewrite IH; [reflexivity|].
  intros k' v' Hin. apply (H k' v'). now right.
Qed.

(** Replacing the record under [k] makes up for any difference in how that
    record is read. *)
Lemma dict_set_map_values_ext {V W : Type} (f g : V -> W) (k : string) (x : W)
    (d : list (string * V)) :
  List.NoDup (map fst d) ->
  (forall k' v, In (k', v) d -> k' <> k -> f v = g v) ->
  dict_set k x (map (fun kv => (fst kv, f (snd kv))) d)
  = dict_set k x (map (fun kv => (fst kv, g (snd kv))) d).
Proof.
  induction d as [|[k' v] d IH]; simpl; intros Hnd H; [reflexivity|].
  apply List.NoDup_cons_iff in Hnd as [Hfresh Hnd].
  destruct (k =? k')%string eqn:E.
  - apply String.eqb_eq in E. subst k'. f_equal.
    apply map_values_ext. intros k' v' Hin. apply (H k' v'); [now right|].
    intros ->. apply Hfresh. apply in_map_iff. now exists (k, v').
  - apply String.eqb_neq in E. rewrite (H k' v); [|now left|congruence].
    f_equal. apply IH; [exact Hnd|].
    intros k0 v0 Hin. apply (H k0 v0). now right.
Qed.

Lemma In_dict_set {V : Type} (k : string) (v : V) (d : list (string * V))
    (key : string) (u : V) :
  List.NoDup (map fst d) ->
  In (key, u) (dict_set k v d) ->
  (key = k /\ u = v) \/ (key <> k /\ In (key, u) d).
Proof.
  induction d as [|[k' v'] d IH]; simpl; intros Hnd Hin.
  - destruct Hin as [[= <- <-] | []]. now left.
  - apply List.NoDup_cons_iff in Hnd as [Hfresh Hnd].
    destruct (k =? k')%string eqn:E.
    + apply String.eqb_eq in E. subst k'.
      destruct Hin as [[= <- <-] | Hin]; [now left|].
      right. split; [|now right]. intros ->. apply Hfresh.
      apply in_map_iff. now exists (k, u).
    + apply String.eqb_neq in E. destruct Hin as [[= <- <-] | Hin].
      * right. split; [congruence | now left].
      * destruct (IH Hnd Hin) as [H | [H1 H2]]; [now left | right; split; auto].
Qed.

(** *** Records of their own *)

Lemma disjoint_refs_sym (r r' : hrecord) : disjoint_refs r r' -> disjoint_refs r' r.
Proof. intros H g h l Hg Hh. exact (H h g l Hh Hg). Qed.

Lemma own_record_grow (st st' : store) (r : hrecord) :
  length st <= length st' -> own_record st r -> own_record st' r.
Proof.
  intros Hlen (Hnd & Hv & Ha). repeat split; auto.
  intros k l H. specialize (Hv k l H). lia.
Qed.

(** A record reads the same after a change to objects it does not refer
    to. *)
Lemma load_record_untouched (st st' : store) (r e : hrecord) :
  own_record st r -> disjoint_refs r e ->
  (forall l, l < length st -> (forall k, dict_get k e <> Some (HList l)) ->
             st' !! l = st !! l) ->
  load_record st' r = load_record st r.
Proof.
  intros (Hnd & Hv & _) Hdis Hframe. apply load_record_frame.
  intros h v Hin. apply load_same. intros l ->.
  pose proof (In_dict_get h (HList l) r Hnd Hin) as Hget.
  apply Hframe; [now apply (Hv h)|].
  intros k. now apply (Hdis h k l).
Qed.

Lemma unshared_of_disjoint (st : store) (existing new : hrecord) :
  own_record st existing -> own_record st new -> disjoint_refs existing new ->
  unshared st existing new.
Proof.
  intros (Hnd & Hv & Ha) (_ & Hvn & _) Hdis. repeat split; auto.
  intros g h l Hg Hh. exfalso. exact (Hdis h g l Hh Hg).
Qed.

(** *** The keyed fold on the store and by value *)

Section KeyedFoldStore.
Variable generate_key : pydict -> result string.
Variable merge : pydict -> pydict -> result pydict.
Variable merge_h : store -> hrecord -> hrecord -> result (store * hrecord).

(** The resolver on the store is described by the resolver by value ... *)
Hypothesis merge_by_value : forall st e n,
  own_record st e -> own_record st n -> disjoint_refs e n ->
  result_map load_state (merge_h st e n) = merge (load_record st e) (load_record st n).

(** ... it changes objects of [e] only, and the record it returns is one of
    its own, over objects of [e], of [n] and new ones. *)
Hypothesis merge_footprint : forall st e n st' m,
  own_record st e -> own_record st n -> disjoint_refs e n ->
  merge_h st e n = Ok (st', m) ->
  length st <= length st' /\
  (forall l, l < length st -> (forall k, dict_get k e <> Some (HList l)) ->
             st' !! l = st !! l) /\
  own_record st' m /\
  (forall k l, dict_get k m = Some (HList l) ->
     dict_get k e = Some (HList l) \/ dict_get k n = Some (HList l) \/ length st <= l).

Variable st0 : store.

Lemma pass_inv_file (item : hrecord) (rest : list hrecord) (cur : store)
    (unified : list (string * hrecord)) (key : string) :
  pass_inv st0 (item :: rest) cur unified ->
  dict_get key unified = None ->
  pass_inv st0 rest cur (dict_set key item unified).
Proof.
  intros (K0 & K1 & K2 & K3 & [K4 K4'] & K5) Hnone.
  apply List.Forall_cons_iff in K4 as [Hitem K4].
  inversion K4' as [|? ? Hhead Htail]; subst.
  injection K5 as _ K5.
  assert (Hin : forall k u, In (k, u) (dict_set key item unified) ->
            (k = key /\ u = item) \/ (k <> key /\ In (k, u) unified)).
  { intros k u. now apply In_dict_set. }
  split; [now apply dict_set_keys|]. split; [|split; [|split; [|split]]].
  - intros k u Hu. destruct (Hin k u Hu) as [[-> ->] | [_ Hu']]; [exact Hitem|].
    now apply (K1 k).
  - intros k k' u u' Hu Hu' Hne.
    destruct (Hin k u Hu) as [[-> ->] | [Hk Hu1]];
      destruct (Hin k' u' Hu') as [[-> ->] | [Hk' Hu1']].
    + congruence.
    + apply disjoint_refs_sym. apply (K3 k' u' item Hu1'). now left.
    + apply (K3 k u item Hu1). now left.
    + now apply (K2 k k').
  - intros k u r Hu Hr. destruct (Hin k u Hu) as [[-> ->] | [_ Hu1]].
    + rewrite List.Forall_forall in Hhead. now apply Hhead.
    + apply (K3 k u r Hu1). now right.
  - split; assumption.
  - exact K5.
Qed.

Lemma pass_inv_merge (item : hrecord) (rest : list hrecord) (cur cur' : store)
    (unified : list (string * hrecord)) (key : string) (e m : hrecord) :
  pass_inv st0 (item :: rest) cur unified ->
  dict_get key unified = Some e ->
  merge_h cur e item = Ok (cur', m) ->
  pass_inv st0 rest cur' (dict_set key m unified) /\
  load_unified (cur', dict_set key m unified)
  = dict_set key (load_record cur' m) (load_unified (cur, unified)).
Proof.
  intros (K0 & K1 & K2 & K3 & [K4 K4'] & K5) He Hm.
  apply List.Forall_cons_iff in K4 as [Hitem K4].
  inversion K4' as [|? ? Hhead Htail]; subst.
  rewrite List.Forall_forall in Hhead, K4.
  injection K5 as _ K5.
  pose proof (dict_get_In key e unified He) as Hine.
  assert (Howne : own_record cur e) by now apply (K1 key).
  assert (Hdis : disjoint_refs e item) by (apply (K3 key e item Hine); now left).
  destruct (merge_footprint cur e item cur' m Howne Hitem Hdis Hm)
    as (Hlen & Hframe & Hownm & Hprov).
  assert (Hin : forall k u, In (k, u) (dict_set key m unified) ->
            (k = key /\ u = m) \/ (k <> key /\ In (k, u) unified)).
  { intros k u. now apply In_dict_set. }
  (* the objects of the result are those of [e], of [item], or new *)
  assert (Hm_dis : forall r, own_record cur r -> disjoint_refs e r ->
                             disjoint_refs item r -> disjoint_refs m r).
  { intros r (_ & Hvr & _) Her Hir g h l Hg Hh.
    destruct (Hprov g l Hg) as [H | [H | H]].
    - exact (Her g h l H Hh).
    - exact (Hir g h l H Hh).
    - specialize (Hvr h l Hh). lia. }
  assert (Hother : forall k u, In (k, u) unified -> k <> key ->
            load_record cur' u = load_record cur u).
  { intros k u Hu Hk. apply (load_record_untouched cur cur' u e); auto.
    - now apply (K1 k).
    - now apply (K2 k key). }
  split.
  - split; [now apply dict_set_keys|]. split; [|split; [|split; [|split]]].
    + intros k u Hu. destruct (Hin k u Hu) as [[-> ->] | [_ Hu1]]; [exact Hownm|].
      apply (own_record_grow cur); [exact Hlen | now apply (K1 k)].
    + intros k k' u u' Hu Hu' Hne.
      destruct (Hin k u Hu) as [[-> ->] | [Hk Hu1]];
        destruct (Hin k' u' Hu') as [[-> ->] | [Hk' Hu1']].
      * congruence.
      * apply Hm_dis; [now apply (K1 k') | now apply (K2 key k') |].
        apply disjoint_refs_sym. apply (K3 k' u' item Hu1'). now left.
      * apply disjoint_refs_sym.
        apply Hm_dis; [now apply (K1 k) | now apply (K2 key k) |].
        apply disjoint_refs_sym. apply (K3 k u item Hu1). now left.
      * now apply (K2 k k').
    + intros k u r Hu Hr. destruct (Hin k u Hu) as [[-> ->] | [_ Hu1]].
      * apply Hm_dis; [now apply K4 | | now apply Hhead].
        apply (K3 key e r Hine). now right.
      * apply (K3 k u r Hu1). now right.
    + split; [|exact Htail]. apply List.Forall_forall. intros r Hr.
      apply (own_record_grow cur); [exact Hlen | now apply K4].
    + rewrite <- K5. apply map_ext_in. intros r Hr.
      apply (load_record_untouched cur cur' r e); auto.
      apply disjoint_refs_sym. apply (K3 key e r Hine). now right.
  - unfold load_unified. cbn [fst snd].
    rewrite (map_values_dict_set (load_record cur')).
    apply dict_set_map_values_ext; [exact K0|].
    intros k u Hu Hk. now apply (Hother k).
Qed.

Lemma keyed_fold_h_cons (item : hrecord) (rest : list hrecord) (cur : store)
    (unified : list (string * hrecord)) :
  keyed_fold_h generate_key merge_h (item :: rest) (cur, unified)
  = do state <-
      (do key <- generate_key (load_record cur item);
       match dict_get key unified with
       | Some existing =>
           do merged <- merge_h cur existing item;
           Ok (fst merged, dict_set key (snd merged) unified)
       | None => Ok (cur, dict_set key item unified)
       end);
    keyed_fold_h generate_key merge_h rest state.
Proof. reflexivity. Qed.

Lemma keyed_fold_cons (item : pydict) (rest : list pydict)
    (unified : list (string * pydict)) :
  keyed_fold generate_key merge (item :: rest) unified
  = do unified' <-
      (do key <- generate_key item;
       match dict_get key unified with
       | Some existing =>
           do merged <- merge existing item;
           Ok (dict_set key merged unified)
       | None => Ok (dict_set key item unified)
       end);
    keyed_fold generate_key merge rest unified'.
Proof. reflexivity. Qed.

(** The keyed fold on the store, read back, is the keyed fold by value over
    the items as they read at the start, and the two raise alike. *)
Lemma keyed_fold_h_by_value (rest : list hrecord) :
  forall (cur : store) (unified : list (string * hrecord)),
    pass_inv st0 rest cur unified ->
    result_map load_unified (keyed_fold_h generate_key merge_h rest (cur, unified))
    = keyed_fold generate_key merge (map (load_record st0) rest)
        (load_unified (cur, unified)).
Proof.
  induction rest as [|item rest IH]; intros cur unified Hinv; [reflexivity|].
  cbn [map]. rewrite keyed_fold_h_cons, keyed_fold_cons.
  assert (Hitem : load_record cur item = load_record st0 item).
  { destruct Hinv as (_ & _ & _ & _ & _ & K5). now injection K5. }
  rewrite Hitem.
  destruct (generate_key (load_record st0 item)) as [key|ex]; cbn [bind]; [|reflexivity].
  unfold load_unified at 2. cbn [fst snd]. rewrite dict_get_map_values.
  destruct (dict_get key unified) as [e|] eqn:He; cbn [option_map].
  - assert (Howne : own_record cur e).
    { destruct Hinv as (_ & K1 & _). apply (K1 key). now apply dict_get_In. }
    assert (Hown : own_record cur item).
    { destruct Hinv as (_ & _ & _ & _ & [K4 _] & _).
      now apply List.Forall_cons_iff in K4 as [K4 _]. }
    assert (Hdis : disjoint_refs e item).
    { destruct Hinv as (_ & _ & _ & K3 & _).
      apply (K3 key e item); [now apply dict_get_In | now left]. }
    pose proof (merge_by_value cur e item Howne Hown Hdis) as Hsim.
    rewrite Hitem in Hsim. rewrite <- Hsim.
    destruct (merge_h cur e item) as [[cur' m]|ex] eqn:Hm; cbn [result_map bind fst snd];
      [|reflexivity].
    destruct (pass_inv_merge item rest cur cur' unified key e m Hinv He Hm)
      as [Hinv' Hload].
    rewrite (IH cur' _ Hinv'). now rewrite Hload.
  - cbn [bind].
    rewrite (IH cur _ (pass_inv_file item rest cur unified key Hinv He)).
    unfold load_unified. cbn [fst snd].
    now rewrite (map_values_dict_set (load_record cur)), Hitem.
Qed.

Lemma pass_inv_start (items : list hrecord) :
  separate_records st0 items -> pass_inv st0 items st0 [].
Proof.
  intros Hsep. split; [constructor|].
  repeat split; try (intros; contradiction); try easy; apply Hsep.
Qed.
End KeyedFoldStore.

(** *** The Oslo resolver in the keyed fold *)

(** The record the source bookkeeping returns: the entries of [existing],
    and a new list object if it had no source list. *)
Lemma add_source_tag_h_entries (skey : string) (st st0 : store)
    (existing new m0 : hrecord) :
  add_source_tag_h skey st existing new existing = Ok (st0, m0) ->
  List.NoDup (map fst existing) ->
  List.NoDup (map fst m0) /\
  length st <= length st0 /\
  (forall k l, dict_get k m0 = Some (HList l) ->
     dict_get k existing = Some (HList l)
     \/ (k = skey /\ l = length st /\ length st < length st0)).
Proof.
  unfold add_source_tag_h, dict_has. intros H Hnd.
  destruct (dict_get skey existing) as [srcs|] eqn:E; cbn [fst snd] in H.
  - rewrite E in H. apply bind_ok in H as [present [_ H]].
    assert (Hm : m0 = existing /\ length st0 = length st).
    { destruct present; [now injection H as <- <-|].
      destruct srcs; try discriminate. injection H as <- <-.
      split; [reflexivity | apply length_insert]. }
    destruct Hm as [-> Hlen]. split; [exact Hnd|]. split; [lia|]. auto.
  - rewrite dict_get_set_eq in H. apply bind_ok in H as [present [_ H]].
    assert (Hm : m0 = dict_set skey (HList (length st)) existing
                 /\ length st0 = S (length st)).
    { destruct present; injection H as <- <-; (split; [reflexivity|]).
      - rewrite length_app. simpl. lia.
      - rewrite length_insert, length_app. simpl. lia. }
    destruct Hm as [-> Hlen]. split; [now apply dict_set_keys|]. split; [lia|].
    intros k l. rewrite dict_get_set. destruct (skey =? k)%string eqn:Ek.
    + apply String.eqb_eq in Ek. subst k. intros [= <-]. right. repeat split. lia.
    + auto.
Qed.

Lemma merge_oslo_field_h_keys (B : PyBuiltins) (new : hrecord) (st st' : store)
    (merged merged' : hrecord) (g : string) :
  merge_oslo_field_h B new (st, merged) g = Ok (st', merged') ->
  List.NoDup (map fst merged) -> List.NoDup (map fst merged').
Proof.
  unfold merge_oslo_field_h. cbn [fst snd]. intros H Hnd.
  assert (Hset : forall v, merged' = dict_set g v merged -> List.NoDup (map fst merged')).
  { intros v ->. now apply dict_set_keys. }
  destruct (dict_get g new) as [nv|]; [|now injection H as _ <-].
  destruct (truthy (load st nv)); [|now injection H as _ <-].
  destruct (dict_get g merged) as [mv|].
  - destruct mv as [| b | z | s | d | l]; try (now injection H as _ <-).
    + apply bind_ok in H as [m [_ H]]. injection H as _ <-. now apply (Hset m).
    + apply bind_ok in H as [m [_ H]]. injection H as _ <-. now apply (Hset m).
    + apply bind_ok in H as [items [_ H]]. now injection H as _ <-.
  - injection H as _ <-. now apply (Hset nv).
Qed.

(** The field loop allocates nothing and fills the record from [new]. *)
Lemma fold_fields_h_entries (B : PyBuiltins) (new : hrecord) (fields : list string) :
  forall (st st' : store) (merged merged' : hrecord),
    fold_result (merge_oslo_field_h B new) fields (st, merged) = Ok (st', merged') ->
    length st' = length st /\
    (List.NoDup (map fst merged) -> List.NoDup (map fst merged')) /\
    (forall k v, dict_get k merged' = Some v ->
       dict_get k merged = Some v \/ dict_get k new = Some v).
Proof.
  induction fields as [|g rest IH]; intros st st' merged merged' H.
  - injection H as <- <-. auto.
  - cbn [fold_result] in H. apply bind_ok in H as [[st1 m1] [H1 H2]].
    pose proof (merge_oslo_field_h_keys B new st st1 merged m1 g H1) as Hk1.
    apply merge_oslo_field_h_inv in H1 as (_ & _ & Hent & _ & Hlen).
    destruct (IH st1 st' m1 merged' H2) as (Hlen' & Hk & Hent').
    split; [lia|]. split; [auto|].
    intros k v Hv. destruct (Hent' k v Hv) as [H | H]; [now apply Hent | now right].
Qed.

Lemma merge_oslo_data_h_footprint (B : PyBuiltins) (st st' : store)
    (e n m : hrecord) :
  own_record st e -> own_record st n -> disjoint_refs e n ->
  merge_oslo_data_h B st e n = Ok (st', m) ->
  length st <= length st' /\
  (forall l, l < length st -> (forall k, dict_get k e <> Some (HList l)) ->
             st' !! l = st !! l) /\
  own_record st' m /\
  (forall k l, dict_get k m = Some (HList l) ->
     dict_get k e = Some (HList l) \/ dict_get k n = Some (HList l) \/ length st <= l).
Proof.
  intros (Hnde & Hve & Hae) (Hndn & Hvn & Han) Hdis H.
  pose proof (merge_oslo_data_h_frame B st st' e n m H) as [Hframe _].
  unfold merge_oslo_data_h in H. apply bind_ok in H as [[st0 m0] [H0 H]].
  destruct (add_source_tag_h_entries "oslo_sources" st st0 e n m0 H0 Hnde)
    as (Hnd0 & Hlen0 & Hent0).
  destruct (fold_fields_h_entries B n oslo_fields st0 st' m0 m H) as (Hlen & Hnd & Hent).
  assert (Hprov : forall k l, dict_get k m = Some (HList l) ->
            dict_get k e = Some (HList l) \/ dict_get k n = Some (HList l)
            \/ (k = "oslo_sources" /\ l = length st /\ length st < length st')).
  { intros k l Hk. destruct (Hent k _ Hk) as [Hk0 | Hkn]; [|auto].
    destruct (Hent0 k l Hk0) as [He | (-> & -> & Hlt)]; [auto|].
    right. right. repeat split. lia. }
  split; [lia|]. split; [|split; [split; [|split]|]].
  - intros l Hl Hno. destruct (lookup_lt_is_Some_2 st l Hl) as [zs Hz].
    rewrite Hz. apply Hframe; [exact Hz|]. intros g _. apply Hno.
  - auto.
  - intros k l Hk. destruct (Hprov k l Hk) as [He | [Hn | (_ & El & Hlt)]].
    + specialize (Hve k l He). lia.
    + specialize (Hvn k l Hn). lia.
    + lia.
  - intros g h l Hg Hh.
    destruct (Hprov g l Hg) as [Hge | [Hgn | (Eg & El & _)]];
      destruct (Hprov h l Hh) as [Hhe | [Hhn | (Eh & El' & _)]].
    + now apply (Hae g h l).
    + exfalso. exact (Hdis g h l Hge Hhn).
    + specialize (Hve g l Hge). lia.
    + exfalso. exact (Hdis h g l Hhe Hgn).
    + now apply (Han g h l).
    + specialize (Hvn g l Hgn). lia.
    + specialize (Hve h l Hhe). lia.
    + specialize (Hvn h l Hhn). lia.
    + congruence.
  - intros k l Hk. destruct (Hprov k l Hk) as [He | [Hn | (_ & El & _)]]; auto.
    right. right. lia.
Qed.

(** On records that share no list object the keyed fold of the Oslo pass
    on the store, read back when it returns, is the keyed fold by value over
    the records as they read at the start, and the two raise alike. *)
Lemma unify_oslo_h_by_value (B : PyBuiltins) (st : store) (items : list hrecord) :
  separate_records st items ->
  result_map load_unified (unify_oslo_h B st items)
  = unify_oslo B (map (load_record st) items).
Proof.
  intros Hsep.
  exact (keyed_fold_h_by_value (generate_oslo_key B) (merge_oslo_data B)
           (merge_oslo_data_h B)
           (fun st e n He Hn Hd =>
              merge_oslo_data_by_value B st e n (unshared_of_disjoint st e n He Hn Hd))
           (fun st e n st' m => merge_oslo_data_h_footprint B st st' e n m)
           st items st [] (pass_inv_start st items Hsep)).
Qed.

Lemma oslo_pass_h_by_value (B : PyBuiltins) (st : store) (items : list hrecord) :
  separate_records st items ->
  result_map snd (oslo_pass_h B st items)
  = result_map dict_values (unify_oslo B (map (load_record st) items)).
Proof.
  intros Hsep. rewrite <- (unify_oslo_h_by_value B st items Hsep).
  unfold oslo_pass_h. destruct (unify_oslo_h B st items) as [[st' unified]|ex];
    cbn [bind result_map fst snd]; [|reflexivity].
  f_equal. unfold load_unified, dict_values. cbn [fst snd].
  rewrite !map_map. reflexivity.
Qed.

(** *** The integrated resolver and pass on the store *)

(** A record made of entries of two records of their own, and at most a new
    list object under one key, is a record of its own. *)
Lemma own_record_of_entries (skey : string) (st st' : store) (e n m : hrecord) :
  own_record st e -> own_record st n -> disjoint_refs e n ->
  List.NoDup (map fst m) -> length st <= length st' ->
  (forall k l, dict_get k m = Some (HList l) ->
     dict_get k e = Some (HList l) \/ dict_get k n = Some (HList l)
     \/ (k = skey /\ l = length st /\ length st < length st')) ->
  own_record st' m /\
  (forall k l, dict_get k m = Some (HList l) ->
     dict_get k e = Some (HList l) \/ dict_get k n = Some (HList l) \/ length st <= l).
Proof.
  intros (Hnde & Hve & Hae) (Hndn & Hvn & Han) Hdis Hnd Hlen Hprov.
  split; [split; [exact Hnd | split]|].
  - intros k l Hk. destruct (Hprov k l Hk) as [He | [Hn | (_ & El & Hlt)]].
    + specialize (Hve k l He). lia.
    + specialize (Hvn k l Hn). lia.
    + lia.
  - intros g h l Hg Hh.
    destruct (Hprov g l Hg) as [Hge | [Hgn | (Eg & El & _)]];
      destruct (Hprov h l Hh) as [Hhe | [Hhn | (Eh & El' & _)]].
    + now apply (Hae g h l).
    + exfalso. exact (Hdis g h l Hge Hhn).
    + specialize (Hve g l Hge). lia.
    + exfalso. exact (Hdis h g l Hhe Hgn).
    + now apply (Han g h l).
    + specialize (Hvn g l Hgn). lia.
    + specialize (Hve h l Hhe). lia.
    + specialize (Hvn h l Hhn). lia.
    + congruence.
  - intros k l Hk. destruct (Hprov k l Hk) as [He | [Hn | (_ & El & _)]]; auto.
    right. right. lia.
Qed.

Lemma dict_has_load_record (st : store) (k : string) (r : hrecord) :
  dict_has k (load_record st r) = dict_has k r.
Proof. unfold dict_has. rewrite dict_get_load_record. now destruct (dict_get k r). Qed.

(** The field loop of [merge_plan_data] on the store, read back, is the
    loop by value, when the entries of [new] read as at the start. *)
Lemma fold_plan_h_load (st st0 : store) (items : list (string * hval)) :
  (forall k v, In (k, v) items -> load st0 v = load st v) ->
  forall merged,
    load_record st0 (fold_left (merge_plan_field_h st0) items merged)
    = fold_left merge_plan_field (load_record st items) (load_record st0 merged).
Proof.
  induction items as [|[k v] items IH]; intros Hsame merged; [reflexivity|].
  change (load_record st ((k, v) :: items)) with ((k, load st v) :: load_record st items).
  cbn [fold_left].
  rewrite IH by (intros k' v' Hin; apply (Hsame k' v'); now right).
  f_equal. unfold merge_plan_field_h, merge_plan_field, get_or_none.
  rewrite dict_has_load_record.
  rewrite <- (Hsame k v) by now left.
  change VNone with (load st0 HNone). rewrite get_default_load_record.
  destruct (negb (k =? "source")%string && truthy (load st0 v)
            && (negb (dict_has k merged)
                || negb (truthy (load st0 (get_default k HNone merged)))));
    [apply load_record_dict_set | reflexivity].
Qed.

Lemma fold_plan_h_entries (st : store) (items : list (string * hval)) :
  forall merged,
    List.NoDup (map fst merged) ->
    List.NoDup (map fst (fold_left (merge_plan_field_h st) items merged)) /\
    (forall k v, dict_get k (fold_left (merge_plan_field_h st) items merged) = Some v ->
       dict_get k merged = Some v \/ In (k, v) items).
Proof.
  induction items as [|[k0 v0] items IH]; intros merged Hnd; [simpl; auto|].
  cbn [fold_left].
  assert (Hstep : List.NoDup (map fst (merge_plan_field_h st merged (k0, v0))) /\
            forall k v, dict_get k (merge_plan_field_h st merged (k0, v0)) = Some v ->
                        dict_get k merged = Some v \/ (k, v) = (k0, v0)).
  { unfold merge_plan_field_h. destruct (_ && _); [|auto].
    split; [now apply dict_set_keys|].
    intros k v. rewrite dict_get_set. destruct (k0 =? k)%string eqn:E; [|auto].
    apply String.eqb_eq in E. subst k. intros [= <-]. now right. }
  destruct Hstep as [Hnd1 Hent1].
  destruct (IH _ Hnd1) as [Hnd' Hent']. split; [exact Hnd'|].
  intros k v Hk. destruct (Hent' k v Hk) as [H | H]; [|right; now right].
  destruct (Hent1 k v H) as [H1 | H1]; [now left | right; left; now symmetry].
Qed.

Lemma merge_plan_data_h_by_value (st : store) (e n : hrecord) :
  own_record st e -> own_record st n -> disjoint_refs e n ->
  result_map load_state (merge_plan_data_h st e n)
  = merge_plan_data (load_record st e) (load_record st n).
Proof.
  intros He Hn Hdis.
  pose proof (unshared_of_disjoint st e n He Hn Hdis) as Hun.
  unfold merge_plan_data_h, merge_plan_data.
  pose proof (sim_sources st e n Hun "sources" []) as Hsim.
  destruct (add_source_tag_h "sources" st e n e) as [[st0 m0]|ex]; cbn [bind].
  - destruct Hsim as [Hpure Hinv]; [intros []|].
    rewrite Hpure. cbn [bind result_map load_state fst snd]. f_equal.
    apply fold_plan_h_load. intros k v Hin. apply load_same. intros l ->.
    destruct Hinv as (_ & _ & _ & _ & J3). destruct Hn as (Hndn & Hvn & _).
    pose proof (In_dict_get k (HList l) n Hndn Hin) as Hget.
    apply J3; [now apply (Hvn k)|].
    intros h Hh. exfalso. exact (Hdis h k l Hh Hget).
  - rewrite Hsim; [reflexivity | intros []].
Qed.

Lemma merge_plan_data_h_footprint (st st' : store) (e n m : hrecord) :
  own_record st e -> own_record st n -> disjoint_refs e n ->
  merge_plan_data_h st e n = Ok (st', m) ->
  length st <= length st' /\
  (forall l, l < length st -> (forall k, dict_get k e <> Some (HList l)) ->
             st' !! l = st !! l) /\
  own_record st' m /\
  (forall k l, dict_get k m = Some (HList l) ->
     dict_get k e = Some (HList l) \/ dict_get k n = Some (HList l) \/ length st <= l).
Proof.
  intros He Hn Hdis H.
  unfold merge_plan_data_h in H. apply bind_ok in H as [[st0 m0] [H0 H]].
  cbn [fst snd] in H. injection H as <- <-.
  destruct (add_source_tag_h_entries "sources" st st0 e n m0 H0 (proj1 He))
    as (Hnd0 & Hlen0 & Hent0).
  apply add_source_tag_h_inv in H0 as (_ & _ & Hframe0).
  destruct (fold_plan_h_entries st0 n m0 Hnd0) as [Hnd Hent].
  split; [exact Hlen0|]. split.
  - intros l Hl Hno. now apply Hframe0.
  - apply (own_record_of_entries "sources" st st0 e n); auto.
    intros k l Hk. destruct (Hent k _ Hk) as [Hk0 | Hin].
    + destruct (Hent0 k l Hk0) as [Hke | Hfresh]; auto.
    + right. left. apply In_dict_get; [apply Hn | exact Hin].
Qed.

(** Attaching the PDF analyses, on the store and by value. *)
Lemma attach_load (st : store) (pdf_analysis : pydict) (matches : list string) :
  forall unified : list (string * hrecord),
    load_unified
      (st, fold_left
             (fun (unified : list (string * hrecord)) match_key =>
                match dict_get match_key unified with
                | Some plan =>
                    dict_set match_key
                      (dict_set "pdf_analysis" (HDict pdf_analysis) plan) unified
                | None => unified
                end)
             matches unified)
    = fold_left
        (fun unified match_key =>
           match dict_get match_key unified with
           | Some plan =>
               dict_set match_key
                 (dict_set "pdf_analysis" (VDict pdf_analysis) plan) unified
           | None => unified
           end)
        matches (load_unified (st, unified)).
Proof.
  induction matches as [|k matches IH]; intros unified; [reflexivity|].
  cbn [fold_left]. rewrite IH. f_equal.
  unfold load_unified. cbn [fst snd]. rewrite dict_get_map_values.
  destruct (dict_get k unified) as [plan|]; cbn [option_map]; [|reflexivity].
  rewrite (map_values_dict_set (load_record st)). now rewrite load_record_dict_set.
Qed.

Lemma source_tag_test (st st' : store) (r : hrecord) (tag : string) :
  py_eq (get_or_none "source" (load_record st' r)) (VStr tag)
  = py_eq (get_or_none "source" (load_record st r)) (VStr tag).
Proof.
  unfold get_or_none. change VNone with (load st' HNone) at 1.
  change VNone with (load st HNone). rewrite !get_default_load_record.
  now destruct (get_default "source" HNone r).
Qed.

Lemma get_sources_summary_load (st st' : store) (plans : list hrecord)
    (pdf_analyses : list pydict) :
  get_sources_summary (map (load_record st') plans) pdf_analyses
  = get_sources_summary (map (load_record st) plans) pdf_analyses.
Proof.
  unfold get_sources_summary.
  assert (H : forall tag,
            length (List.filter (fun p => py_eq (get_or_none "source" p) (VStr tag))
                      (map (load_record st') plans))
            = length (List.filter (fun p => py_eq (get_or_none "source" p) (VStr tag))
                        (map (load_record st) plans))).
  { intros tag. induction plans as [|p plans IH]; [reflexivity|].
    cbn [map List.filter]. rewrite (source_tag_test st st' p tag).
    destruct (py_eq _ _); simpl; now rewrite IH. }
  now rewrite !H.
Qed.

(** On plans that share no list object the integrated pass on the store
    returns, read back, what the pass by value returns over the plans as
    they read at the start, and the two raise alike. *)
Lemma cross_reference_data_h_by_value (B : PyBuiltins) (st : store)
    (regulatory_plans : list hrecord) (pdf_analyses : list pydict) :
  separate_records st regulatory_plans ->
  result_map snd (cross_reference_data_h B st regulatory_plans pdf_analyses)
  = cross_reference_data B (map (load_record st) regulatory_plans) pdf_analyses.
Proof.
  intros Hsep. unfold cross_reference_data_h, cross_reference_data.
  pose proof (keyed_fold_h_by_value (generate_plan_key B) merge_plan_data
                merge_plan_data_h merge_plan_data_h_by_value
                (fun st e n st' m => merge_plan_data_h_footprint st st' e n m)
                st regulatory_plans st [] (pass_inv_start st regulatory_plans Hsep))
    as Hfold.
  unfold keyed_fold_h, keyed_fold in Hfold. cbn [load_unified fst snd map] in Hfold.
  rewrite <- Hfold.
  destruct (fold_result _ regulatory_plans (st, [])) as [[st1 unified1]|ex];
    cbn [result_map bind fst snd]; [|reflexivity].
  fold (load_unified (st1, unified1)).
  assert (Hloop : forall pdfs unified,
    result_map (fun u => load_unified (st1, u))
      (fold_result
         (fun unified pdf_analysis =>
            do potential_matches <-
              find_matching_plans B pdf_analysis (load_unified (st1, unified));
            Ok (fold_left
                  (fun unified match_key =>
                     match dict_get match_key unified with
                     | Some plan =>
                         dict_set match_key
                           (dict_set "pdf_analysis" (HDict pdf_analysis) plan) unified
                     | None => unified
                     end)
                  potential_matches unified))
         pdfs unified)
    = fold_result
        (fun unified pdf_analysis =>
           do potential_matches <- find_matching_plans B pdf_analysis unified;
           Ok (fold_left
                 (fun unified match_key =>
                    match dict_get match_key unified with
                    | Some plan =>
                        dict_set match_key
                          (dict_set "pdf_analysis" (VDict pdf_analysis) plan) unified
                    | None => unified
                    end)
                 potential_matches unified))
        pdfs (load_unified (st1, unified))).
  { induction pdfs as [|pdf pdfs IH]; intros unified; [reflexivity|].
    cbn [fold_result].
    destruct (find_matching_plans B pdf (load_unified (st1, unified))) as [matches|ex];
      cbn [bind]; [|reflexivity].
    rewrite IH. now rewrite attach_load. }
  rewrite <- (Hloop pdf_analyses unified1).
  destruct (fold_result _ pdf_analyses unified1) as [unified2|ex];
    cbn [result_map bind snd]; [|reflexivity].
  now rewrite (get_sources_summary_load st st1).
Qed.

(** *** Claim C8 on the store *)

(** The Oslo pass returns on separate records that read as collector-built
    ones. *)
Lemma oslo_pass_h_returns (B : PyBuiltins) (st : store) (items : list hrecord) :
  separate_records st items ->
  List.Forall (collector_record B) (map (load_record st) items) ->
  returns (oslo_pass_h B st items).
Proof.
  intros Hsep Hitems.
  destruct (unify_oslo_returns B _ Hitems) as [unified [Hu _]].
  pose proof (oslo_pass_h_by_value B st items Hsep) as Hsim.
  rewrite Hu in Hsim.
  destruct (oslo_pass_h B st items) as [state|ex]; [now exists state | discriminate].
Qed.

Lemma sample_records_separate :
  separate_records two_lists [pdf_first_h; pdf_second_h] /\
  separate_records three_lists [pdf_first_moved; pdf_second_moved].
Proof.
  assert (Hown : forall st r,
            (st = two_lists /\ (r = pdf_first_h \/ r = pdf_second_h)) \/
            (st = three_lists /\ (r = pdf_first_moved \/ r = pdf_second_moved)) ->
            own_record st r).
  { intros st r H. split; [|split].
    - destruct H as [[_ [-> | ->]] | [_ [-> | ->]]];
        repeat constructor; simpl; intuition discriminate.
    - intros k l Hk.
      destruct H as [[-> [-> | ->]] | [-> [-> | ->]]];
        unfold pdf_first_h, pdf_second_h, pdf_first_moved, pdf_second_moved in Hk;
        by_key Hk; try discriminate; injection Hk as <-; simpl; lia.
    - intros g h l Hg Hh.
      destruct H as [[_ [-> | ->]] | [_ [-> | ->]]];
        unfold pdf_first_h, pdf_second_h, pdf_first_moved, pdf_second_moved in Hg, Hh;
        by_key Hg; by_key Hh; congruence. }
  split;
    (split;
     [ apply List.Forall_cons; [apply Hown; auto|];
       apply List.Forall_cons; [apply Hown; auto | apply List.Forall_nil]
     | apply FOP_cons;
       [ apply List.Forall_cons; [|apply List.Forall_nil]
       | apply FOP_cons; [apply List.Forall_nil | apply FOP_nil] ] ]);
    intros g h l Hg Hh;
    unfold pdf_first_h, pdf_second_h, pdf_first_moved, pdf_second_moved in Hg, Hh;
    by_key Hg; by_key Hh; congruence.
Qed.


